(** * A shallow embedding of the webdav file server

    The development follows the Go sources: [constants.go] (status codes and
    error values), the file-system layer ([FileSystem], [File], [Dir],
    [emptyFile]) and the two revisions of [server.go] that the repository
    carries.  Go strings are byte sequences and are modelled as lists of
    [ascii]; the helper [str] turns a literal into such a list. *)

From Stdlib Require Import Ascii String ZArith DecimalString.
From stdpp Require Import base tactics option list gmap strings.

Open Scope Z_scope.
Open Scope nat_scope.
#[local] Open Scope list_scope.

Abbreviation gostring := (list ascii).

Definition str (s : string) : gostring := list_ascii_of_string s.

(** ** Package [strings] *)

Module strings.

(** [strings.HasPrefix]. *)
Fixpoint HasPrefix (s prefix : gostring) : bool :=
  match prefix, s with
  | [], _ => true
  | _ :: _, [] => false
  | c :: prefix', d :: s' => bool_decide (c = d) && HasPrefix s' prefix'
  end.

(** [strings.TrimPrefix]: [s] without the leading [prefix], or [s] itself
    when it does not start with [prefix]. *)
Definition TrimPrefix (s prefix : gostring) : gostring :=
  if HasPrefix s prefix then drop (length prefix) s else s.

Definition inCutset (cutset : gostring) (c : ascii) : bool :=
  bool_decide (c ∈ cutset).

Fixpoint TrimLeft (s cutset : gostring) : gostring :=
  match s with
  | [] => []
  | c :: s' => if inCutset cutset c then TrimLeft s' cutset else s
  end.

Definition TrimRight (s cutset : gostring) : gostring :=
  rev (TrimLeft (rev s) cutset).

(** [strings.Trim]: all leading and trailing bytes of [cutset] removed. *)
Definition Trim (s cutset : gostring) : gostring :=
  TrimLeft (TrimRight s cutset) cutset.

(** [strings.IndexRune] for a one-byte rune: index of the first occurrence,
    or [-1]. *)
Fixpoint IndexRune (s : gostring) (r : ascii) : Z :=
  match s with
  | [] => (-1)%Z
  | c :: s' =>
      if bool_decide (c = r) then 0%Z
      else let i := IndexRune s' r in
           if (i <? 0)%Z then (-1)%Z else (i + 1)%Z
  end.

(** [strings.Contains]. *)
Fixpoint Contains (s substr : gostring) : bool :=
  HasPrefix s substr ||
  match s with
  | [] => false
  | _ :: s' => Contains s' substr
  end.

(** [strings.Join]. *)
Fixpoint Join (elems : list gostring) (sep : gostring) : gostring :=
  match elems with
  | [] => []
  | [e] => e
  | e :: rest => e ++ sep ++ Join rest sep
  end.

(** [strings.LastIndex] for a one-byte separator, as the length of the
    prefix that ends with its last occurrence ([0] when there is none). *)
Fixpoint afterLast (s : gostring) (c : ascii) : nat :=
  match s with
  | [] => 0
  | d :: s' =>
      match afterLast s' c with
      | 0 => if bool_decide (d = c) then 1 else 0
      | S n => S (S n)
      end
  end.

End strings.

(** ** The lexical cleaning loop shared by [path.Clean] and [filepath.Clean]

    Both functions run the same loop; they differ in the separator.  The
    [lazybuf] of the Go code is represented by the bytes written so far
    ([out], of length [out.w]); [path] is the unread input [path[r:]]. *)

Section CleanLoop.
Variable sep : ascii.
Variable rooted : bool.

Definition isSep (c : ascii) : bool := bool_decide (c = sep).
Definition isDot (c : ascii) : bool := bool_decide (c = "."%char).

(** [r+k == n || path[r+k] == sep], on the input that starts at [r+k]. *)
Definition endOrSep (p : gostring) : bool :=
  match p with
  | [] => true
  | c :: _ => isSep c
  end.

(** The bytes of the element that starts the input, and what follows it. *)
Fixpoint elemBytes (p : gostring) : gostring :=
  match p with
  | [] => []
  | c :: p' => if isSep c then [] else c :: elemBytes p'
  end.

Fixpoint afterElem (p : gostring) : gostring :=
  match p with
  | [] => []
  | c :: p' => if isSep c then p else afterElem p'
  end.

(** [for out.w > dotdot && out.index(out.w) != sep { out.w-- }], started
    at [w]; [buf] still holds the bytes above [w]. *)
Fixpoint backtrack (buf : gostring) (dotdot w : nat) : nat :=
  match w with
  | 0 => 0
  | S w' =>
      if bool_decide (dotdot < w) && negb (isSep (nth w buf sep))
      then backtrack buf dotdot w'
      else w
  end.

(** [rooted && out.w != 1 || !rooted && out.w != 0]. *)
Definition needSlash (out : gostring) : bool :=
  if rooted then negb (bool_decide (length out = 1))
  else negb (bool_decide (length out = 0)).

Fixpoint cleanLoop (fuel : nat) (path out : gostring) (dotdot : nat)
  : gostring * nat :=
  match fuel with
  | 0 => (out, dotdot)
  | S fuel' =>
      match path with
      | [] => (out, dotdot)
      | c :: rest =>
          if isSep c then
            (* empty path element *)
            cleanLoop fuel' rest out dotdot
          else if isDot c && endOrSep rest then
            (* . element *)
            cleanLoop fuel' rest out dotdot
          else if isDot c &&
                  match rest with
                  | d :: rest2 => isDot d && endOrSep rest2
                  | [] => false
                  end then
            (* .. element: remove to last separator *)
            let rest2 := tail rest in
            if bool_decide (dotdot < length out) then
              let w := backtrack out dotdot (length out - 1) in
              cleanLoop fuel' rest2 (take w out) dotdot
            else if negb rooted then
              let out1 := if bool_decide (0 < length out)
                          then out ++ [sep] else out in
              let out2 := out1 ++ ["."%char; "."%char] in
              cleanLoop fuel' rest2 out2 (length out2)
            else cleanLoop fuel' rest2 out dotdot
          else
            (* real path element: add slash if needed, copy element *)
            let out1 := if needSlash out then out ++ [sep] else out in
            cleanLoop fuel' (afterElem path) (out1 ++ elemBytes path) dotdot
      end
  end.

(** The loop with the fuel it gets from [Clean]: [n - r] iterations. *)
Definition run (path out : gostring) (dotdot : nat) : gostring * nat :=
  cleanLoop (length path) path out dotdot.
End CleanLoop.

(** The whole of [Clean] for separator [sep]. *)
Definition cleanWith (sep : ascii) (path : gostring) : gostring :=
  match path with
  | [] => str "."
  | c :: rest =>
      let rooted := isSep sep c in
      let n := length path in
      let '(out, _) :=
        if rooted then cleanLoop sep rooted n rest [sep] 1
        else cleanLoop sep rooted n path [] 0 in
      if bool_decide (length out = 0) then str "." else out
  end.

(** ** Package [path] (slash-separated paths) *)

Module path.

Definition Clean (p : gostring) : gostring := cleanWith "/"%char p.

(** [path.Split]: split after the final slash. *)
Definition Split (p : gostring) : gostring * gostring :=
  let i := strings.afterLast p "/"%char in (take i p, drop i p).

(** [path.Dir]. *)
Definition Dir (p : gostring) : gostring := Clean (fst (Split p)).

End path.

(** ** Package [path/filepath], per host

    [Separator] is a constant of the build target, and so is the
    implementation of [Join].  A [Host] carries both; [unix] is the
    implementation for targets whose separator is the slash, where
    [Clean] has no volume name to skip. *)

Record Host := {
  Separator : ascii;
  hostJoin : list gostring → gostring
}.

Module filepath.

(** [filepath.FromSlash]. *)
Definition FromSlash (h : Host) (p : gostring) : gostring :=
  if bool_decide (Separator h = "/"%char) then p
  else map (λ c, if bool_decide (c = "/"%char) then Separator h else c) p.

Definition unixClean (p : gostring) : gostring := cleanWith "/"%char p.

(** [filepath.Join] on Unix: the elements from the first non-empty one on,
    joined by the separator and cleaned. *)
Fixpoint unixJoin (elem : list gostring) : gostring :=
  match elem with
  | [] => []
  | e :: rest =>
      if bool_decide (e = []) then unixJoin rest
      else unixClean (strings.Join elem (str "/"))
  end.

Definition Join (h : Host) (elem : list gostring) : gostring := hostJoin h elem.

End filepath.

Definition unix : Host :=
  {| Separator := "/"%char; hostJoin := filepath.unixJoin |}.

(** ** [constants.go] *)

Definition StatusOK : nat := 200.
Definition StatusCreated : nat := 201.
Definition StatusNoContent : nat := 204.
Definition StatusNotModified : nat := 304.
Definition StatusBadRequest : nat := 400.
Definition StatusForbidden : nat := 403.
Definition StatusNotFound : nat := 404.
Definition StatusMethodNotAllowed : nat := 405.
Definition StatusConflict : nat := 409.
Definition StatusInternalServerError : nat := 500.

(** Error values: the two of [constants.go], [io.EOF], [io.ErrShortWrite],
    and the errors of the operating system and of the transport, which the
    server only tests against [nil]. *)
Inductive error :=
| ErrInvalidCharPath
| ErrNotImplemented
| EOF
| ErrShortWrite
| ErrOS (msg : gostring).

#[global] Instance error_eq_dec : EqDecision error.
Proof. solve_decision. Defined.

(** ** [Dir.sanitizePath] *)

Section Sanitize.
Variable host : Host.

Definition sanitizePath (d : gostring) (name : gostring) : gostring + error :=
  if (negb (bool_decide (Separator host = "/"%char)) &&
      bool_decide (0 ≤ strings.IndexRune name (Separator host))%Z)
     || strings.Contains name [zero]
  then inr ErrInvalidCharPath
  else
    let dir := if bool_decide (d = []) then str "." else d in
    inl (filepath.Join host
           [dir; filepath.FromSlash host (path.Clean (str "/" ++ name))]).
End Sanitize.


(** ** The storage interfaces of the file-system layer

    [FileSystem] and [File] are Go interfaces.  A backend is a state type,
    a type of file handles and the methods of both interfaces as state
    transformers.  ([Readdir] is never called by the server.) *)

Record FileInfo := {
  IsDir : bool;
  ModTime : Z;
  Size : Z
}.

Record FileSystem := {
  fsState : Type;
  File : Type;
  Open : gostring → fsState → (File + error) * fsState;
  Create : gostring → fsState → (File + error) * fsState;
  Mkdir : gostring → fsState → option error * fsState;
  Remove : gostring → fsState → option error * fsState;
  Stat : File → fsState → (FileInfo + error) * fsState;
  Read : File → nat → fsState → (gostring * option error) * fsState;
  Write : File → gostring → fsState → (nat * option error) * fsState;
  Seek : File → Z → Z → fsState → (Z * option error) * fsState;
  Close : File → fsState → option error * fsState
}.

(** ** The host file system behind [Dir]

    Package [os] on a Unix host, without symbolic links and permissions: a
    tree of files and directories keyed by the path elements from the leaf
    up (so that the parent of a key is its tail), a table of open files and
    a clock. *)

Inductive Node :=
| NFile (data : gostring) (mtime : Z)
| NDir (mtime : Z).

Record OpenFile := {
  ofKey : list gostring;
  ofPos : nat
}.

Record OS := {
  tree : gmap (list gostring) Node;
  handles : gmap nat OpenFile;
  nextFd : nat;
  cwd : list gostring;
  now : Z
}.

Module os.

Definition ENOENT : error := ErrOS (str "no such file or directory").
Definition EISDIR : error := ErrOS (str "is a directory").
Definition ENOTDIR : error := ErrOS (str "not a directory").
Definition ENOTEMPTY : error := ErrOS (str "directory not empty").
Definition EBADF : error := ErrOS (str "file already closed").
Definition EINVAL : error := ErrOS (str "invalid argument").

(** The elements of a path: the fields between slashes. *)
Fixpoint fields (p : gostring) : list gostring :=
  match p with
  | [] => [[]]
  | c :: p' =>
      if bool_decide (c = "/"%char) then [] :: fields p'
      else match fields p' with
           | e :: es => (c :: e) :: es
           | [] => [[c]]
           end
  end.

Definition walk (k : list gostring) (e : gostring) : list gostring :=
  if bool_decide (e = []) || bool_decide (e = str ".") then k
  else if bool_decide (e = str "..") then tail k
  else e :: k.

(** Path resolution: from the root for an absolute path, from the working
    directory otherwise. *)
Definition resolve (o : OS) (p : gostring) : list gostring :=
  fold_left walk (fields p)
    (if strings.HasPrefix p (str "/") then [] else cwd o).

Definition setTree (t : gmap (list gostring) Node) (o : OS) : OS :=
  {| tree := t; handles := handles o; nextFd := nextFd o;
     cwd := cwd o; now := now o |}.

Definition setHandles (h : gmap nat OpenFile) (n : nat) (o : OS) : OS :=
  {| tree := tree o; handles := h; nextFd := n; cwd := cwd o; now := now o |}.

Definition newFd (k : list gostring) (o : OS) : nat * OS :=
  (nextFd o,
   setHandles (<[nextFd o := {| ofKey := k; ofPos := 0 |}]> (handles o))
              (S (nextFd o)) o).

(** [os.Open]: read-only open of an existing file or directory. *)
Definition Open (p : gostring) (o : OS) : (nat + error) * OS :=
  let k := resolve o p in
  match tree o !! k with
  | Some _ => let '(fd, o') := newFd k o in (inl fd, o')
  | None => (inr ENOENT, o)
  end.

(** [os.Create]: [O_RDWR|O_CREATE|O_TRUNC]. *)
Definition Create (p : gostring) (o : OS) : (nat + error) * OS :=
  let k := resolve o p in
  match tree o !! k with
  | Some (NDir _) => (inr EISDIR, o)
  | Some (NFile _ _) =>
      let '(fd, o') := newFd k (setTree (<[k := NFile [] (now o)]> (tree o)) o) in
      (inl fd, o')
  | None =>
      match k, tree o !! tail k with
      | _ :: _, Some (NDir _) =>
          let '(fd, o') :=
            newFd k (setTree (<[k := NFile [] (now o)]> (tree o)) o) in
          (inl fd, o')
      | _, Some (NFile _ _) => (inr ENOTDIR, o)
      | _, _ => (inr ENOENT, o)
      end
  end.

(** [os.MkdirAll] on a resolved key: nothing to do for a directory, an
    error for a file, and otherwise the parent first and then the
    directory itself. *)
Fixpoint mkdirAll (k : list gostring) (mtime : Z)
    (t : gmap (list gostring) Node) : option error * gmap (list gostring) Node :=
  match t !! k with
  | Some (NDir _) => (None, t)
  | Some (NFile _ _) => (Some ENOTDIR, t)
  | None =>
      match k with
      | [] => (None, <[k := NDir mtime]> t)
      | _ :: parent =>
          match mkdirAll parent mtime t with
          | (Some e, t') => (Some e, t')
          | (None, t') => (None, <[k := NDir mtime]> t')
          end
      end
  end.

Definition MkdirAll (p : gostring) (o : OS) : option error * OS :=
  let '(e, t) := mkdirAll (resolve o p) (now o) (tree o) in
  (e, setTree t o).

Definition hasChildren (k : list gostring) (t : gmap (list gostring) Node) : bool :=
  existsb (λ kn, match fst kn with
                 | _ :: parent => bool_decide (parent = k)
                 | [] => false
                 end) (map_to_list t).

(** [os.Remove]: a file, or an empty directory. *)
Definition Remove (p : gostring) (o : OS) : option error * OS :=
  let k := resolve o p in
  match tree o !! k with
  | None => (Some ENOENT, o)
  | Some (NFile _ _) => (None, setTree (delete k (tree o)) o)
  | Some (NDir _) =>
      if hasChildren k (tree o) then (Some ENOTEMPTY, o)
      else (None, setTree (delete k (tree o)) o)
  end.

Definition Stat (fd : nat) (o : OS) : (FileInfo + error) * OS :=
  match handles o !! fd with
  | None => (inr EBADF, o)
  | Some f =>
      match tree o !! ofKey f with
      | Some (NFile data mtime) =>
          (inl {| IsDir := false; ModTime := mtime;
                  Size := Z.of_nat (length data) |}, o)
      | Some (NDir mtime) =>
          (inl {| IsDir := true; ModTime := mtime; Size := 0 |}, o)
      | None => (inr ENOENT, o)
      end
  end.

Definition setPos (fd : nat) (f : OpenFile) (pos : nat) (o : OS) : OS :=
  setHandles (<[fd := {| ofKey := ofKey f; ofPos := pos |}]> (handles o))
             (nextFd o) o.

(** [File.Read]: up to [n] bytes from the position, [io.EOF] at the
    end of the file. *)
Definition Read (fd : nat) (n : nat) (o : OS) : (gostring * option error) * OS :=
  match handles o !! fd with
  | None => (([], Some EBADF), o)
  | Some f =>
      match tree o !! ofKey f with
      | Some (NFile data _) =>
          if bool_decide (length data ≤ ofPos f) then (([], Some EOF), o)
          else
            let chunk := take n (drop (ofPos f) data) in
            ((chunk, None), setPos fd f (ofPos f + length chunk) o)
      | Some (NDir _) => (([], Some EISDIR), o)
      | None => (([], Some ENOENT), o)
      end
  end.

(** The bytes of [old] with [data] written at [pos] (a gap is filled with
    zero bytes). *)
Definition writeAt (old : gostring) (pos : nat) (data : gostring) : gostring :=
  take pos old ++ replicate (pos - length old) zero ++ data
    ++ drop (pos + length data) old.

Definition Write (fd : nat) (data : gostring) (o : OS)
  : (nat * option error) * OS :=
  match handles o !! fd with
  | None => ((0, Some EBADF), o)
  | Some f =>
      match tree o !! ofKey f with
      | Some (NFile old _) =>
          let t := <[ofKey f := NFile (writeAt old (ofPos f) data) (now o)]> (tree o) in
          ((length data, None),
           setPos fd f (ofPos f + length data) (setTree t o))
      | Some (NDir _) => ((0, Some EISDIR), o)
      | None => ((0, Some ENOENT), o)
      end
  end.

(** [File.Seek]; [whence] is 0 (start), 1 (current) or 2 (end). *)
Definition Seek (fd : nat) (offset whence : Z) (o : OS)
  : (Z * option error) * OS :=
  match handles o !! fd with
  | None => ((0%Z, Some EBADF), o)
  | Some f =>
      let size := match tree o !! ofKey f with
                  | Some (NFile data _) => Z.of_nat (length data)
                  | _ => 0%Z
                  end in
      let base := if bool_decide (whence = 0%Z) then Some 0%Z
                  else if bool_decide (whence = 1%Z) then Some (Z.of_nat (ofPos f))
                  else if bool_decide (whence = 2%Z) then Some size
                  else None in
      match base with
      | None => ((0%Z, Some EINVAL), o)
      | Some b =>
          if bool_decide (b + offset < 0)%Z then ((0%Z, Some EINVAL), o)
          else (((b + offset)%Z, None), setPos fd f (Z.to_nat (b + offset)) o)
      end
  end.

Definition Close (fd : nat) (o : OS) : option error * OS :=
  match handles o !! fd with
  | None => (Some EBADF, o)
  | Some _ => (None, setHandles (delete fd (handles o)) (nextFd o) o)
  end.

End os.

(** ** [Dir]: the native file system restricted to a directory tree *)

Section DirMethods.
Variable d : gostring.

Definition Dir_Open (name : gostring) (o : OS) : (nat + error) * OS :=
  match sanitizePath unix d name with
  | inr err => (inr err, o)
  | inl p => os.Open p o
  end.

Definition Dir_Create (name : gostring) (o : OS) : (nat + error) * OS :=
  match sanitizePath unix d name with
  | inr err => (inr err, o)
  | inl p => os.Create p o
  end.

Definition Dir_Mkdir (name : gostring) (o : OS) : option error * OS :=
  match sanitizePath unix d name with
  | inr err => (Some err, o)
  | inl p => os.MkdirAll p o
  end.

Definition Dir_Remove (name : gostring) (o : OS) : option error * OS :=
  match sanitizePath unix d name with
  | inr err => (Some err, o)
  | inl p => os.Remove p o
  end.
End DirMethods.

Definition Dir (d : gostring) : FileSystem := {|
  fsState := OS;
  File := nat;
  Open := Dir_Open d;
  Create := Dir_Create d;
  Mkdir := Dir_Mkdir d;
  Remove := Dir_Remove d;
  Stat := os.Stat;
  Read := os.Read;
  Write := os.Write;
  Seek := os.Seek;
  Close := os.Close
|}.

(** ** Package [net/http], as far as the handlers use it

    A [ResponseWriter] records what a handler hands to it: the header map,
    the status line with the headers as they were when it was written, and
    the body bytes. *)

Record ResponseWriter := {
  header : gmap gostring gostring;
  sent : option (nat * gmap gostring gostring);
  body : gostring
}.

Definition newResponse : ResponseWriter :=
  {| header := ∅; sent := None; body := [] |}.

(** A request body: the chunks its [Read] delivers, then [io.EOF]
    ([None]) or a transport error. *)
Record Reader := {
  chunks : list gostring;
  readErr : option error
}.

Record URL := { Path : gostring }.

Record Request := {
  Method : gostring;
  Url : URL;
  RequestURI : gostring;
  IfModifiedSince : option Z;
  Body : Reader
}.

(** The tables of the Go library that [ServeContent] consults. *)
Record Library := {
  TypeByExtension : gostring → gostring;
  DetectContentType : gostring → gostring;
  FormatTime : Z → gostring
}.

Module http.

Definition SetHeader (k v : gostring) (w : ResponseWriter) : ResponseWriter :=
  {| header := <[k := v]> (header w); sent := sent w; body := body w |}.

Definition DelHeader (k : gostring) (w : ResponseWriter) : ResponseWriter :=
  {| header := delete k (header w); sent := sent w; body := body w |}.

(** [w.WriteHeader]: the first call fixes status and headers. *)
Definition WriteHeader (code : nat) (w : ResponseWriter) : ResponseWriter :=
  match sent w with
  | Some _ => w
  | None => {| header := header w; sent := Some (code, header w); body := body w |}
  end.

(** [w.Write]: an implicit [WriteHeader(200)] when none was written. *)
Definition Write (data : gostring) (w : ResponseWriter) : ResponseWriter :=
  let w1 := WriteHeader StatusOK w in
  {| header := header w1; sent := sent w1; body := body w1 ++ data |}.

(** [http.Error]. *)
Definition Error (msg : gostring) (code : nat) (w : ResponseWriter) : ResponseWriter :=
  let w1 := SetHeader (str "Content-Type") (str "text/plain; charset=utf-8") w in
  let w2 := SetHeader (str "X-Content-Type-Options") (str "nosniff") w1 in
  Write (msg ++ [ascii_of_nat 10]) (WriteHeader code w2).

(** The status a client sees. *)
Definition status (w : ResponseWriter) : nat :=
  match sent w with
  | Some (code, _) => code
  | None => StatusOK
  end.

(** The headers a client sees. *)
Definition sentHeaders (w : ResponseWriter) : gmap gostring gostring :=
  match sent w with
  | Some (_, h) => h
  | None => header w
  end.

(** Unix seconds of Go's zero [time.Time]. *)
Definition zeroTime : Z := (-62135596800)%Z.

Definition isZeroTime (t : Z) : bool :=
  bool_decide (t = zeroTime) || bool_decide (t = 0%Z).

Definition writeNotModified (w : ResponseWriter) : ResponseWriter :=
  let w1 := DelHeader (str "Content-Type") w in
  let w2 := DelHeader (str "Content-Length") w1 in
  let w3 := DelHeader (str "Content-Encoding") w2 in
  let w4 := match header w3 !! str "Etag" with
            | Some (_ :: _) => DelHeader (str "Last-Modified") w3
            | _ => w3
            end in
  WriteHeader StatusNotModified w4.

Inductive condResult := condNone | condTrue | condFalse.

Definition checkIfModifiedSince (r : Request) (modtime : Z) : condResult :=
  if negb (bool_decide (Method r = str "GET")) &&
     negb (bool_decide (Method r = str "HEAD")) then condNone
  else match IfModifiedSince r with
       | None => condNone
       | Some t =>
           if isZeroTime modtime then condNone
           else if bool_decide (modtime ≤ t)%Z then condFalse else condTrue
       end.

(** [strconv.FormatInt(n, 10)]. *)
Definition FormatInt (n : Z) : gostring :=
  str (DecimalString.NilZero.string_of_int (Z.to_int n)).

End http.

Module filepathExt.
(** [filepath.Ext]: the suffix from the last dot of the last element. *)
Fixpoint extRev (rp : gostring) (acc : gostring) : gostring :=
  match rp with
  | [] => []
  | c :: rp' =>
      if bool_decide (c = "/"%char) then []
      else if bool_decide (c = "."%char) then c :: acc
      else extRev rp' (c :: acc)
  end.

Definition Ext (p : gostring) : gostring := extRev (rev p) [].
End filepathExt.

(** ** The handler monad

    A handler runs against the backend state and the response writer.  The
    list [calls] is a record of the backend methods invoked, in order. *)

Section Backend.
Context {B : FileSystem}.

Inductive Call :=
| CallOpen (name : gostring)
| CallCreate (name : gostring)
| CallMkdir (name : gostring)
| CallRemove (name : gostring)
| CallStat (f : File B)
| CallRead (f : File B)
| CallWrite (f : File B) (data : gostring)
| CallSeek (f : File B)
| CallClose (f : File B).

Record Env := {
  backend : fsState B;
  calls : list Call;
  w : ResponseWriter
}.

Definition M (A : Type) : Type := Env → A * Env.

Definition ret {A} (a : A) : M A := λ e, (a, e).

Definition bind {A C} (m : M A) (k : A → M C) : M C :=
  λ e, let '(a, e') := m e in k a e'.

Definition call {A} (c : Call) (op : fsState B → A * fsState B) : M A :=
  λ e, let '(a, st) := op (backend e) in
       (a, {| backend := st; calls := calls e ++ [c]; w := w e |}).

Definition respond (f : ResponseWriter → ResponseWriter) : M unit :=
  λ e, (tt, {| backend := backend e; calls := calls e; w := f (w e) |}).

Definition getHeader : M (gmap gostring gostring) :=
  λ e, (header (w e), e).

Definition fsOpen (name : gostring) : M (File B + error) :=
  call (CallOpen name) (Open B name).
Definition fsCreate (name : gostring) : M (File B + error) :=
  call (CallCreate name) (Create B name).
Definition fsMkdir (name : gostring) : M (option error) :=
  call (CallMkdir name) (Mkdir B name).
Definition fsRemove (name : gostring) : M (option error) :=
  call (CallRemove name) (Remove B name).
Definition fStat (f : File B) : M (FileInfo + error) :=
  call (CallStat f) (Stat B f).
Definition fRead (f : File B) (n : nat) : M (gostring * option error) :=
  call (CallRead f) (Read B f n).
Definition fWrite (f : File B) (data : gostring) : M (nat * option error) :=
  call (CallWrite f data) (Write B f data).
Definition fSeek (f : File B) (offset whence : Z) : M (Z * option error) :=
  call (CallSeek f) (Seek B f offset whence).
Definition fClose (f : File B) : M (option error) :=
  call (CallClose f) (Close B f).

(** An [io.ReadSeeker]. *)
Record ReadSeeker := {
  rsRead : nat → M (gostring * option error);
  rsSeek : Z → Z → M (Z * option error)
}.

Definition fileReadSeeker (f : File B) : ReadSeeker :=
  {| rsRead := fRead f; rsSeek := fSeek f |}.

(** [emptyFile]: mockup zero content file aka only header. *)
Definition emptyFile : ReadSeeker :=
  {| rsRead := λ _, ret ([], Some EOF);
     rsSeek := λ _ _, ret (0%Z, None) |}.

End Backend.

Arguments Call : clear implicits.
Arguments Env : clear implicits.
Arguments M : clear implicits.
Arguments ReadSeeker : clear implicits.

Notation "'let*' x ':=' m 'in' k" := (bind m (λ x, k))
  (at level 10, x pattern, m at level 100, k at level 200).

(** ** [io.Copy], [io.ReadFull], [io.CopyN] and [http.ServeContent] *)

Section ServeContent.
Context {B : FileSystem}.
Variable lib : Library.

(** The loop of [io.Copy(file, r.Body)]: every chunk read is written;
    a failed or short write stops the copy. *)
Fixpoint copyChunks (file : File B) (cs : list gostring) : M B (option error) :=
  match cs with
  | [] => ret None
  | c :: rest =>
      if bool_decide (0 < length c) then
        let* res := fWrite file c in
        match snd res with
        | Some ew => ret (Some ew)
        | None =>
            if bool_decide (fst res = length c) then copyChunks file rest
            else ret (Some ErrShortWrite)
        end
      else copyChunks file rest
  end.

Definition ioCopy (file : File B) (src : Reader) : M B (option error) :=
  let* err := copyChunks file (chunks src) in
  match err with
  | Some e => ret (Some e)
  | None => ret (readErr src)
  end.

(** [io.ReadFull] into a buffer of [n] bytes. *)
Fixpoint readFull (content : ReadSeeker B) (fuel n : nat) : M B gostring :=
  match fuel with
  | 0 => ret []
  | S fuel' =>
      if bool_decide (n = 0) then ret []
      else
        let* res := rsRead content n in
        let chunk := take n (fst res) in
        match snd res with
        | Some _ => ret chunk
        | None =>
            let* more := readFull content fuel' (n - length chunk) in
            ret (chunk ++ more)
        end
  end.

(** [io.CopyN(w, content, n)]; the copy buffer is taken as large as what
    remains to be sent. *)
Fixpoint copyN (content : ReadSeeker B) (fuel n : nat) : M B unit :=
  match fuel with
  | 0 => ret tt
  | S fuel' =>
      if bool_decide (n = 0) then ret tt
      else
        let* res := rsRead content n in
        let chunk := take n (fst res) in
        let* _ := respond (http.Write chunk) in
        match snd res with
        | Some _ => ret tt
        | None => copyN content fuel' (n - length chunk)
        end
  end.

Definition sniffLen : nat := 512.

Definition seekerCantSeek : M B unit :=
  respond (http.Error (str "seeker can't seek") StatusInternalServerError).

(** The content type step of [serveContent]: by extension, else by
    sniffing the first bytes.  The result tells whether to go on. *)
Definition setContentType (name : gostring) (content : ReadSeeker B) : M B bool :=
  let* h := getHeader in
  match h !! str "Content-Type" with
  | Some _ => ret true
  | None =>
      let byExt := TypeByExtension lib (filepathExt.Ext name) in
      if bool_decide (byExt = []) then
        let* buf := readFull content (S sniffLen) sniffLen in
        let* res := rsSeek content 0%Z 0%Z in
        match snd res with
        | Some _ => let* _ := seekerCantSeek in ret false
        | None =>
            let* _ := respond (http.SetHeader (str "Content-Type")
                                 (DetectContentType lib buf)) in
            ret true
        end
      else
        let* _ := respond (http.SetHeader (str "Content-Type") byExt) in
        ret true
  end.

(** [http.ServeContent] for a request without [Range], [If-Match],
    [If-None-Match] and [If-Unmodified-Since] headers. *)
Definition ServeContent (r : Request) (name : gostring) (modtime : Z)
    (content : ReadSeeker B) : M B unit :=
  let* _ := respond (if http.isZeroTime modtime then id
                     else http.SetHeader (str "Last-Modified")
                            (FormatTime lib modtime)) in
  match http.checkIfModifiedSince r modtime with
  | http.condFalse => respond http.writeNotModified
  | _ =>
      let* ok := setContentType name content in
      if ok then
        let* e := rsSeek content 0%Z 2%Z in
        match snd e with
        | Some _ => seekerCantSeek
        | None =>
            let size := fst e in
            let* s := rsSeek content 0%Z 0%Z in
            match snd s with
            | Some _ => seekerCantSeek
            | None =>
                if bool_decide (size < 0)%Z then
                  respond (http.Error (str "negative content size computed")
                             StatusInternalServerError)
                else
                  let* _ := respond (http.SetHeader (str "Accept-Ranges") (str "bytes")) in
                  let* h := getHeader in
                  let* _ := respond (match h !! str "Content-Encoding" with
                                     | Some (_ :: _) => id
                                     | _ => http.SetHeader (str "Content-Length")
                                              (http.FormatInt size)
                                     end) in
                  let* _ := respond (http.WriteHeader StatusOK) in
                  if bool_decide (Method r = str "HEAD") then ret tt
                  else copyN content (S (Z.to_nat size)) (Z.to_nat size)
            end
        end
      else ret tt
  end.
End ServeContent.

(** ** [server.go]

    The file carries two revisions of the server.  They agree on everything
    but [doPut] (and on logging, which is left out): the definitions up to
    [doDelete] stand for both; [Rev1.doPut] is the [doPut] of the first
    revision in the file, [Rev2.doPut] that of the second. *)

Record Server := {
  TrimPrefix : gostring;
  ReadOnly : bool;
  Listings : bool;
  Fs : FileSystem
}.

(** [Handler] configures the file system with the [Server] struct. *)
Definition Handler (root : FileSystem) : Server :=
  {| TrimPrefix := []; ReadOnly := false; Listings := false; Fs := root |}.

Definition NewServer (dir prefix : gostring) (listDir : bool) : Server :=
  {| TrimPrefix := prefix; ReadOnly := false; Listings := listDir; Fs := Dir dir |}.

(** convert request url to path *)
Definition url2path (s : Server) (u : URL) : gostring :=
  if bool_decide (Path u = []) then str "/"
  else
    let p := strings.TrimPrefix (Path u) (TrimPrefix s) in
    if bool_decide (length p < length (Path u)) then strings.Trim p (str "/")
    else str "/".

Section Handlers.
Variable lib : Library.
Variable s : Server.

Definition pathExists (path : gostring) : M (Fs s) bool :=
  let* o := fsOpen path in
  match o with
  | inr _ => ret false
  | inl f => let* _ := fClose f in ret true
  end.

Definition pathIsDirectory (path : gostring) : M (Fs s) bool :=
  let* o := fsOpen path in
  match o with
  | inr _ => ret false
  | inl f =>
      let* st := fStat f in
      match st with
      | inr _ => let* _ := fClose f in ret false
      | inl fi =>
          let x := IsDir fi in
          let* _ := fClose f in ret x
      end
  end.

Definition serveResource (r : Request) (serveContent : bool) : M (Fs s) unit :=
  let path := url2path s (Url r) in
  let* o := fsOpen path in
  match o with
  | inr _ => respond (http.Error (RequestURI r) StatusNotFound)
  | inl f =>
      (* defer f.Close() *)
      let* st := fStat f in
      match st with
      | inr _ =>
          let* _ := respond (http.Error (RequestURI r) StatusNotFound) in
          let* _ := fClose f in ret tt
      | inl fi =>
          let modTime := ModTime fi in
          let* _ := if serveContent
                    then ServeContent lib r path modTime (fileReadSeeker f)
                    else ServeContent lib r path modTime emptyFile in
          let* _ := fClose f in ret tt
      end
  end.

Definition doGet (r : Request) : M (Fs s) unit := serveResource r true.

Definition doHead (r : Request) : M (Fs s) unit := serveResource r false.

Definition deleteResource (path : gostring) (r : Request) (setStatus : bool)
  : M (Fs s) bool :=
  let* ex := pathExists path in
  if negb ex then
    let* _ := respond (http.WriteHeader StatusNotFound) in ret false
  else
    let* isdir := pathIsDirectory path in
    let finish : M (Fs s) bool :=
      let* _ := if setStatus then respond (http.WriteHeader StatusNoContent)
                else ret tt in
      ret true in
    if negb isdir then
      let* err := fsRemove path in
      match err with
      | Some _ =>
          let* _ := respond (http.WriteHeader StatusInternalServerError) in
          ret false
      | None => finish
      end
    else
      (* XXX: Deleting entire paths is completely disabled. *)
      finish.

Definition doDelete (r : Request) : M (Fs s) unit :=
  if ReadOnly s then respond (http.WriteHeader StatusForbidden)
  else
    let* _ := deleteResource (url2path s (Url r)) r true in
    ret tt.

End Handlers.

Module Rev1.
Section Put.
Variable s : Server.

Definition doPut (r : Request) : M (Fs s) unit :=
  if ReadOnly s then respond (http.WriteHeader StatusForbidden)
  else
    let myPath := url2path s (Url r) in
    (* the directory test of the other revision is commented out here *)
    let* _ := fsMkdir (path.Dir myPath) in
    let* existed := pathExists s myPath in
    let* c := fsCreate myPath in
    match c with
    | inr _ => respond (http.WriteHeader StatusConflict)
    | inl file =>
        let* err := ioCopy file (Body r) in
        let* _ := match err with
                  | Some _ => respond (http.WriteHeader StatusConflict)
                  | None =>
                      if existed : bool
                      then respond (http.WriteHeader StatusNoContent)
                      else respond (http.WriteHeader StatusCreated)
                  end in
        let* _ := fClose file in ret tt
    end.
End Put.

Section Serve.
Variable lib : Library.
Variable s : Server.

Definition ServeHTTP (r : Request) : M (Fs s) unit :=
  if bool_decide (Method r = str "GET") then doGet lib s r
  else if bool_decide (Method r = str "HEAD") then doHead lib s r
  else if bool_decide (Method r = str "DELETE") then doDelete s r
  else if bool_decide (Method r = str "PUT") then doPut s r
  else respond (http.WriteHeader StatusBadRequest).
End Serve.
End Rev1.

Module Rev2.
Section Put.
Variable s : Server.

Definition doPut (r : Request) : M (Fs s) unit :=
  if ReadOnly s then respond (http.WriteHeader StatusForbidden)
  else
    let path := url2path s (Url r) in
    let* isdir := pathIsDirectory s path in
    if isdir : bool then
      (* use MKCOL instead *)
      respond (http.WriteHeader StatusMethodNotAllowed)
    else
      let* existed := pathExists s path in
      (* truncate file if exists *)
      let* c := fsCreate path in
      match c with
      | inr _ => respond (http.WriteHeader StatusConflict)
      | inl file =>
          let* err := ioCopy file (Body r) in
          let* _ := match err with
                    | Some _ =>
                        let* _ := respond (http.WriteHeader StatusConflict) in
                        let* _ := fClose file in ret tt
                    | None =>
                        if existed : bool
                        then respond (http.WriteHeader StatusNoContent)
                        else respond (http.WriteHeader StatusCreated)
                    end in
          let* _ := fClose file in ret tt
      end.
End Put.

Section Serve.
Variable lib : Library.
Variable s : Server.

Definition ServeHTTP (r : Request) : M (Fs s) unit :=
  if bool_decide (Method r = str "GET") then doGet lib s r
  else if bool_decide (Method r = str "HEAD") then doHead lib s r
  else if bool_decide (Method r = str "DELETE") then doDelete s r
  else if bool_decide (Method r = str "PUT") then doPut s r
  else respond (http.WriteHeader StatusBadRequest).
End Serve.
End Rev2.

(** Running a handler on a fresh response writer. *)
Definition start {B : FileSystem} (st : fsState B) : Env B :=
  {| backend := st; calls := []; w := newResponse |}.

(** ** Vocabulary of the statements *)

(** A path element that names an entry: not empty, free of separators, and
    neither [.] nor [..]. *)
Definition plainElem (sep : ascii) (e : gostring) : Prop :=
  e ≠ [] ∧ (sep ∉ e) ∧ e ≠ str "." ∧ e ≠ str "..".

(** The path that continues the clean path [root] with the elements [es]. *)
Definition attach (sep : ascii) (root : gostring) (es : list gostring) : gostring :=
  match es with
  | [] => root
  | _ :: _ =>
      if bool_decide (root = [sep]) then sep :: strings.Join es [sep]
      else if bool_decide (root = str ".") then strings.Join es [sep]
      else root ++ sep :: strings.Join es [sep]
  end.

(** [p] lies in the tree below [root]: it is the cleaned [root] continued
    by plain elements. *)
Definition inside (root p : gostring) : Prop :=
  ∃ es, Forall (plainElem "/"%char) es ∧
        p = attach "/"%char (filepath.unixClean root) es.

(** The handles closed by a sequence of backend calls, in order. *)
Definition closes {B : FileSystem} (cs : list (Call B)) : list (File B) :=
  omap (λ c, match c with CallClose f => Some f | _ => None end) cs.

(** The calls that can change what the backend stores. *)
Definition mutates {B : FileSystem} (c : Call B) : bool :=
  match c with
  | CallCreate _ | CallMkdir _ | CallRemove _ | CallWrite _ _ => true
  | _ => false
  end.

(** Backends whose [Open], [Stat] and [Close] leave the stored contents
    alone, as those of [Dir] do. *)
Class Probing (B : FileSystem) := {
  contents : Type;
  contentsOf : fsState B → contents;
  Open_keeps : ∀ name st, contentsOf (Open B name st).2 = contentsOf st;
  Stat_keeps : ∀ f st, contentsOf (Stat B f st).2 = contentsOf st;
  Close_keeps : ∀ f st, contentsOf (Close B f st).2 = contentsOf st
}.

(** A backend with injected faults: [Stat] and [Remove] can be made to
    fail. *)
Definition faulty (B : FileSystem) (statFails removeFails : bool) : FileSystem := {|
  fsState := fsState B;
  File := File B;
  Open := Open B;
  Create := Create B;
  Mkdir := Mkdir B;
  Remove := λ name st,
    if removeFails then (Some (ErrOS (str "injected fault")), st)
    else Remove B name st;
  Stat := λ f st,
    if statFails then (inr (ErrOS (str "injected fault")), st)
    else Stat B f st;
  Read := Read B;
  Write := Write B;
  Seek := Seek B;
  Close := Close B
|}.

(** ** A sample installation

    A host with the directory [/srv/dav], which holds the directory [docs]
    with the file [docs/a.txt], served under the prefix [/dav]. *)

Definition sampleTree : gmap (list gostring) Node :=
  {[ [] := NDir 0;
     [str "srv"] := NDir 0;
     [str "dav"; str "srv"] := NDir 0;
     [str "docs"; str "dav"; str "srv"] := NDir 0;
     [str "a.txt"; str "docs"; str "dav"; str "srv"] := NFile (str "abc") 1000%Z ]}.

Definition sampleOS : OS :=
  {| tree := sampleTree; handles := ∅; nextFd := 3; cwd := []; now := 2000%Z |}.

Definition sampleServer : Server := NewServer (str "/srv/dav") (str "/dav") false.

Definition sampleReadOnly : Server :=
  {| TrimPrefix := str "/dav"; ReadOnly := true; Listings := false;
     Fs := Dir (str "/srv/dav") |}.

Definition sampleFaulty (statFails removeFails : bool) : Server :=
  {| TrimPrefix := str "/dav"; ReadOnly := false; Listings := false;
     Fs := faulty (Dir (str "/srv/dav")) statFails removeFails |}.

Definition sampleLib : Library :=
  {| TypeByExtension := λ _, [];
     DetectContentType := λ _, str "text/plain; charset=utf-8";
     FormatTime := http.FormatInt |}.

Definition sampleRequest (method target : string) (data : list gostring) : Request :=
  {| Method := str method;
     Url := {| Path := str target |};
     RequestURI := str target;
     IfModifiedSince := None;
     Body := {| chunks := data; readErr := None |} |}.

(** A server on a [Dir] backend that accepts writes. *)
Definition dirServer (d prefix : gostring) (listDir : bool) : Server :=
  {| TrimPrefix := prefix; ReadOnly := false; Listings := listDir; Fs := Dir d |}.

(** A status in the 2xx range. *)
Definition succeeded (code : nat) : Prop := 200 ≤ code < 300.

(** The tree is well formed when every entry lies in a directory. *)
Definition wellFormed (t : gmap (list gostring) Node) : Prop :=
  ∀ c k n, t !! (c :: k) = Some n → ∃ m, t !! k = Some (NDir m).

Definition isDirAt (t : gmap (list gostring) Node) (k : list gostring) : Prop :=
  ∃ m, t !! k = Some (NDir m).

(** Two PUT requests in a row, the second on the state the first leaves. *)
Definition putTwice (doPut : ∀ s : Server, Request → M (Fs s) unit)
    (s : Server) (r1 r2 : Request) (st : fsState (Fs s)) : Env (Fs s) * Env (Fs s) :=
  let e1 := (doPut s r1 (start st)).2 in
  (e1, (doPut s r2 (start (backend e1))).2).

(** A decision procedure for [wellFormed], for concrete trees. *)
Definition wellFormedb (t : gmap (list gostring) Node) : bool :=
  forallb (λ kn : list gostring * Node,
             match kn.1 with
             | [] => true
             | _ :: parent =>
                 match t !! parent with
                 | Some (NDir _) => true
                 | _ => false
                 end
             end) (map_to_list t).

(** A PUT whose body breaks off after the first chunk. *)
Definition sampleBrokenPut : Request :=
  {| Method := str "PUT";
     Url := {| Path := str "/dav/x/y/z.txt" |};
     RequestURI := str "/dav/x/y/z.txt";
     IfModifiedSince := None;
     Body := {| chunks := [str "partial"];
                readErr := Some (ErrOS (str "connection reset")) |} |}.

(** * Facts about the cleaning loop *)

Section CleanLoopFacts.
Variable sep : ascii.
Hypothesis sep_not_dot : sep ≠ "."%char.
Variable rooted : bool.

#[local] Abbreviation dot := ("."%char).

#[local] Abbreviation plainFor := (plainElem sep).

Lemma isSep_true c : isSep sep c = true ↔ c = sep.
Proof. unfold isSep. apply bool_decide_eq_true. Qed.

Lemma isSep_false c : isSep sep c = false ↔ c ≠ sep.
Proof. unfold isSep. apply bool_decide_eq_false. Qed.

Lemma isSep_sep : isSep sep sep = true.
Proof. by apply isSep_true. Qed.

Lemma isSep_dot : isSep sep dot = false.
Proof. apply isSep_false. congruence. Qed.

Lemma isDot_sep : isDot sep = false.
Proof. unfold isDot. by apply bool_decide_eq_false. Qed.

Lemma elem_split p : p = elemBytes sep p ++ afterElem sep p.
Proof.
  induction p as [|c p IH]; [done|]. simpl.
  destruct (isSep sep c); [done|]. simpl. by f_equal.
Qed.

Lemma elemBytes_no_sep p : sep ∉ elemBytes sep p.
Proof.
  induction p as [|c p IH]; simpl; [by apply not_elem_of_nil|].
  destruct (isSep sep c) eqn:E; [by apply not_elem_of_nil|].
  apply isSep_false in E. apply not_elem_of_cons. split; [congruence|done].
Qed.

Lemma afterElem_endOrSep p : endOrSep sep (afterElem sep p) = true.
Proof.
  induction p as [|c p IH]; [done|]. simpl.
  destruct (isSep sep c) eqn:E; [by simpl|done].
Qed.

Lemma afterElem_length p : length (afterElem sep p) ≤ length p.
Proof.
  induction p as [|c p IH]; simpl; [lia|].
  destruct (isSep sep c); simpl; lia.
Qed.

Lemma elemBytes_app e rest :
  sep ∉ e → endOrSep sep rest = true → elemBytes sep (e ++ rest) = e.
Proof.
  intros He Hr. induction e as [|c e IH]; simpl.
  - destruct rest as [|d rest]; [done|]. simpl in *. by rewrite Hr.
  - apply not_elem_of_cons in He as [Hc He].
    assert (isSep sep c = false) as -> by (apply isSep_false; congruence).
    f_equal. by apply IH.
Qed.

Lemma afterElem_app e rest :
  sep ∉ e → endOrSep sep rest = true → afterElem sep (e ++ rest) = rest.
Proof.
  intros He Hr. induction e as [|c e IH]; simpl.
  - destruct rest as [|d rest]; [done|]. simpl in *. by rewrite Hr.
  - apply not_elem_of_cons in He as [Hc He].
    assert (isSep sep c = false) as -> by (apply isSep_false; congruence).
    by apply IH.
Qed.

Lemma endOrSep_app_no_sep e rest :
  endOrSep sep (e ++ rest) = true → sep ∉ e → e = [].
Proof.
  intros H He. destruct e as [|c e]; [done|]. simpl in H.
  apply isSep_true in H. subst c. exfalso. apply He. by left.
Qed.

Lemma endOrSep_app rest y :
  endOrSep sep rest = true → endOrSep sep (rest ++ sep :: y) = true.
Proof. destruct rest; simpl; [by rewrite isSep_sep|done]. Qed.

(** The loop does not depend on fuel beyond the length of the input. *)
Lemma cleanLoop_fuel f1 : ∀ f2 path out dd,
  length path ≤ f1 → length path ≤ f2 →
  cleanLoop sep rooted f1 path out dd = cleanLoop sep rooted f2 path out dd.
Proof.
  induction f1 as [|f1 IH]; intros f2 path out dd H1 H2.
  - destruct path; [|simpl in H1; lia]. by destruct f2.
  - destruct f2 as [|f2]; [destruct path; [done|simpl in H2; lia]|].
    destruct path as [|c rest]; [done|]. simpl in H1, H2.
    cbn [cleanLoop].
    destruct (isSep sep c) eqn:Ec; [apply IH; lia|].
    destruct (isDot c && endOrSep sep rest); [apply IH; lia|].
    match goal with |- (if ?b then _ else _) = _ => destruct b end.
    + assert (length (tail rest) ≤ length rest) by (destruct rest; simpl; lia).
      repeat case_bool_decide; try (destruct (negb rooted)); apply IH; lia.
    + pose proof (afterElem_length (c :: rest)) as Hl.
      assert (afterElem sep (c :: rest) = afterElem sep rest) as Hae
        by (simpl; by rewrite Ec).
      pose proof (afterElem_length rest).
      rewrite Hae. apply IH; lia.
Qed.

#[local] Abbreviation go := (run sep rooted).

Lemma run_nil out dd : go [] out dd = (out, dd).
Proof. done. Qed.

Lemma run_sep rest out dd : go (sep :: rest) out dd = go rest out dd.
Proof. unfold run. simpl. by rewrite isSep_sep. Qed.

Lemma run_dot rest out dd :
  endOrSep sep rest = true → go (dot :: rest) out dd = go rest out dd.
Proof.
  intros H. unfold run. simpl. rewrite isSep_dot, H. done.
Qed.

Lemma run_dotdot rest2 out dd :
  endOrSep sep rest2 = true →
  go (dot :: dot :: rest2) out dd =
    if bool_decide (dd < length out) then
      go rest2 (take (backtrack sep out dd (length out - 1)) out) dd
    else if negb rooted then
      let out1 := if bool_decide (0 < length out) then out ++ [sep] else out in
      let out2 := out1 ++ [dot; dot] in
      go rest2 out2 (length out2)
    else go rest2 out dd.
Proof.
  intros H. unfold run. simpl length.
  remember (S (length rest2)) as n eqn:Hn. cbn [cleanLoop].
  rewrite isSep_dot. cbn [endOrSep]. rewrite isSep_dot, H.
  replace (isDot dot) with true by done. cbn [andb tail].
  repeat case_bool_decide; try destruct (negb rooted);
    apply cleanLoop_fuel; lia.
Qed.

Lemma run_elem e rest out dd :
  plainFor e → endOrSep sep rest = true →
  go (e ++ rest) out dd =
    go rest ((if needSlash rooted out then out ++ [sep] else out) ++ e) dd.
Proof.
  intros (Hne & Hns & Hd & Hdd) Hr.
  destruct e as [|c e']; [done|].
  assert (c ≠ sep) as Hc by (intros ->; apply Hns; by left).
  assert (sep ∉ e') as Hns' by (intros ?; apply Hns; by right).
  unfold run. simpl length. rewrite <- app_comm_cons.
  remember (length (e' ++ rest)) as n eqn:Hn. cbn [cleanLoop].
  assert (isSep sep c = false) as Ec by (by apply isSep_false).
  rewrite Ec.
  assert (isDot c && endOrSep sep (e' ++ rest) = false) as ->.
  { apply andb_false_iff. destruct (isDot c) eqn:Edot; [right|by left].
    apply bool_decide_eq_true in Edot. subst c.
    destruct (endOrSep sep (e' ++ rest)) eqn:E; [|done].
    apply endOrSep_app_no_sep in E; [|done]. by subst e'. }
  match goal with |- (if ?b then _ else _) = _ =>
    assert (b = false) as -> end.
  { apply andb_false_iff. destruct (isDot c) eqn:Edot; [right|by left].
    apply bool_decide_eq_true in Edot. subst c.
    destruct e' as [|d e'']; simpl.
    - destruct rest as [|d rest]; [done|]. simpl in Hr.
      apply isSep_true in Hr. subst d. by rewrite isDot_sep.
    - destruct (isDot d) eqn:Ed; [|done]. simpl.
      apply bool_decide_eq_true in Ed. subst d.
      destruct (endOrSep sep (e'' ++ rest)) eqn:E; [|done].
      apply endOrSep_app_no_sep in E; [|by intros ?; apply Hns'; right].
      by subst e''. }
  rewrite app_comm_cons.
  rewrite elemBytes_app, afterElem_app by done.
  apply cleanLoop_fuel; [|done]. subst n. rewrite length_app. lia.
Qed.

(** What the input starts with. *)
Inductive headKind : gostring → Prop :=
| HSep rest : headKind (sep :: rest)
| HDot rest : endOrSep sep rest = true → headKind (dot :: rest)
| HDotDot rest : endOrSep sep rest = true → headKind (dot :: dot :: rest)
| HElem e rest : plainFor e → endOrSep sep rest = true → headKind (e ++ rest).

Lemma classify p : p ≠ [] → headKind p.
Proof.
  intros Hp. destruct p as [|c rest]; [done|].
  destruct (decide (c = sep)) as [->|Hc]; [constructor|].
  pose proof (elem_split (c :: rest)) as Hsplit.
  pose proof (elemBytes_no_sep (c :: rest)) as Hns.
  pose proof (afterElem_endOrSep (c :: rest)) as Hend.
  set (e := elemBytes sep (c :: rest)) in *.
  set (r := afterElem sep (c :: rest)) in *.
  assert (e ≠ []) as Hne.
  { subst e. simpl. assert (isSep sep c = false) as -> by (by apply isSep_false).
    done. }
  rewrite Hsplit.
  destruct (decide (e = [dot])) as [->|Hd]; [by apply HDot|].
  destruct (decide (e = [dot; dot])) as [->|Hdd]; [by apply HDotDot|].
  by apply HElem.
Qed.

(** Processing stops and resumes at a separator. *)
Lemma go_app x : ∀ y out dd,
  go (x ++ sep :: y) out dd = go y (go x out dd).1 (go x out dd).2.
Proof.
  remember (length x) as n eqn:Hn. revert x Hn.
  induction n as [n IH] using lt_wf_ind. intros x Hn y out dd.
  destruct (decide (x = [])) as [->|Hx].
  { simpl. by rewrite run_sep. }
  destruct (classify x Hx) as [rest|rest Hr|rest Hr|e rest He Hr].
  - rewrite <- app_comm_cons, !run_sep.
    apply (IH (length rest)); [subst n; simpl; lia|done].
  - rewrite <- app_comm_cons.
    rewrite (run_dot (rest ++ sep :: y)) by (by apply endOrSep_app).
    rewrite (run_dot rest) by done.
    apply (IH (length rest)); [subst n; simpl; lia|done].
  - rewrite <- !app_comm_cons.
    rewrite (run_dotdot (rest ++ sep :: y)) by (by apply endOrSep_app).
    rewrite (run_dotdot rest) by done. cbv zeta.
    repeat case_bool_decide; try destruct (negb rooted);
      apply (IH (length rest)); subst n; simpl; (lia || done).
  - rewrite <- app_assoc.
    rewrite (run_elem e (rest ++ sep :: y)) by (done || by apply endOrSep_app).
    rewrite (run_elem e rest) by done.
    apply (IH (length rest)); [|done].
    destruct He as (Hne & _). destruct e; [done|].
    subst n. simpl. rewrite length_app. lia.
Qed.

(** ** [strings.Join] with a one-byte separator *)

#[local] Abbreviation join := (λ l, strings.Join l [sep]).

Lemma Join_cons e l : l ≠ [] → join (e :: l) = e ++ sep :: join l.
Proof. destruct l; [done|]. done. Qed.

Lemma Join_snoc l e : l ≠ [] → join (l ++ [e]) = join l ++ sep :: e.
Proof.
  induction l as [|a l IH]; [done|]. intros _.
  destruct l as [|b l]; [done|].
  change ((a :: b :: l) ++ [e]) with (a :: ((b :: l) ++ [e])).
  rewrite Join_cons by (by destruct l).
  rewrite IH by done. rewrite (Join_cons a (b :: l)) by done.
  by rewrite <- app_assoc.
Qed.

Lemma Join_app_prefix l es :
  ∃ r, join (l ++ es) = join l ++ r ∧
       (es ≠ [] → Forall (λ e, e ≠ []) es → r ≠ []).
Proof.
  induction es as [|e es IH] using rev_ind.
  - exists []. rewrite !app_nil_r. done.
  - destruct IH as (r & Hr & Hne). rewrite app_assoc.
    destruct (decide (l ++ es = [])) as [Hnil|Hnn].
    + apply app_eq_nil in Hnil as [-> ->]. simpl. exists e. split; [done|].
      intros _ H. simpl in H. by inversion H.
    + rewrite Join_snoc by done. rewrite Hr, <- app_assoc.
      exists (r ++ sep :: e). split; [done|].
      intros _ _. by destruct r.
Qed.

Lemma Join_nil_inv l : Forall (λ e : gostring, e ≠ []) l → join l = [] → l = [].
Proof.
  intros Hl H. destruct l as [|e l]; [done|]. exfalso.
  inversion Hl as [|? ? He Hl']; subst.
  destruct l as [|b l]; simpl in H; [done|]. by destruct e.
Qed.

(** ** The shape of the output buffer *)

Definition pre : gostring := if rooted then [sep] else [].

Definition dots (k : nat) : list gostring := replicate k [dot; dot].

Definition shape (out : gostring) (dd : nat) : Prop :=
  ∃ k es, (rooted = true → k = 0) ∧ Forall plainFor es ∧
          out = pre ++ join (dots k ++ es) ∧
          dd = length (pre ++ join (dots k)).

Lemma plain_nonempty es : Forall plainFor es → Forall (λ e : gostring, e ≠ []) es.
Proof. intros H. eapply Forall_impl; [done|]. by intros e (? & _). Qed.

Lemma dots_nonempty k : Forall (λ e : gostring, e ≠ []) (dots k).
Proof. apply Forall_replicate. done. Qed.

Lemma dots_snoc k : dots k ++ [[dot; dot]] = dots (S k).
Proof. unfold dots. induction k; simpl; [done|]. by f_equal. Qed.

(** The scan of [..] over a buffer that ends with a separator and an
    element. *)
Lemma backtrack_elem P e dd j :
  sep ∉ e → dd ≤ length P → j ≤ length e →
  backtrack sep (P ++ sep :: e) dd (length P + j) = length P.
Proof.
  intros He Hdd. induction j as [|j IH]; intros Hj.
  - rewrite Nat.add_0_r. destruct (length P) as [|n] eqn:HP; [done|].
    cbn [backtrack].
    assert (nth (S n) (P ++ sep :: e) sep = sep) as ->.
    { rewrite <- HP, app_nth2 by lia. by rewrite Nat.sub_diag. }
    rewrite isSep_sep. by rewrite andb_false_r.
  - rewrite Nat.add_succ_r. cbn [backtrack].
    rewrite bool_decide_eq_true_2 by lia.
    assert (isSep sep (nth (S (length P + j)) (P ++ sep :: e) sep) = false) as ->.
    { apply isSep_false. rewrite app_nth2 by lia.
      replace (S (length P + j) - length P) with (S j) by lia. simpl.
      intros Heq. apply He. rewrite <- Heq.
      apply list_elem_of_In, nth_In. lia. }
    simpl. apply IH. lia.
Qed.

(** The scan of [..] over a buffer whose last element starts at
    [dotdot]. *)
Lemma backtrack_floor P e j :
  sep ∉ e → j < length e →
  backtrack sep (P ++ e) (length P) (length P + j) = length P.
Proof.
  intros He. induction j as [|j IH]; intros Hj.
  - rewrite Nat.add_0_r. destruct (length P) as [|n] eqn:HP; [done|].
    cbn [backtrack]. rewrite bool_decide_eq_false_2 by lia. done.
  - rewrite Nat.add_succ_r. cbn [backtrack].
    rewrite bool_decide_eq_true_2 by lia.
    assert (isSep sep (nth (S (length P + j)) (P ++ e) sep) = false) as ->.
    { apply isSep_false. rewrite app_nth2 by lia.
      replace (S (length P + j) - length P) with (S j) by lia.
      intros Heq. apply He. rewrite <- Heq.
      apply list_elem_of_In, nth_In. lia. }
    simpl. apply IH. lia.
Qed.

(** An element of the buffer: a plain one or [..]. *)
Definition okElem (e : gostring) : Prop := e ≠ [] ∧ (sep ∉ e) ∧ e ≠ [dot].

Lemma plain_ok es : Forall plainFor es → Forall okElem es.
Proof. intros H. eapply Forall_impl; [done|]. by intros e (? & ? & ? & _). Qed.

Lemma dots_ok k : Forall okElem (dots k).
Proof.
  apply Forall_replicate. split_and!; [done| |done].
  intros H. apply elem_of_cons in H as [H|H]; [done|].
  apply elem_of_cons in H as [H|H]; [done|]. by apply elem_of_nil in H.
Qed.

Lemma ok_nonempty l : Forall okElem l → Forall (λ e : gostring, e ≠ []) l.
Proof. intros H. eapply Forall_impl; [done|]. by intros e (? & _). Qed.

Lemma Join_nil_iff l : Forall okElem l → join l = [] ↔ l = [].
Proof.
  intros Hl. split; [|by intros ->].
  apply Join_nil_inv. by apply ok_nonempty.
Qed.

Lemma needSlash_join l :
  Forall okElem l →
  needSlash rooted (pre ++ join l) = bool_decide (l ≠ []).
Proof.
  intros Hl. unfold needSlash, pre.
  destruct (decide (l = [])) as [->|Hne].
  - rewrite (bool_decide_eq_false_2 (_ ≠ _)) by (by intros ?).
    by destruct rooted.
  - rewrite (bool_decide_eq_true_2 (_ ≠ _)) by done.
    assert (join l ≠ []) as Hj by (by rewrite Join_nil_iff).
    destruct rooted; apply negb_true_iff, bool_decide_eq_false;
      rewrite length_app; destruct (join l); simpl; (done || lia).
Qed.

(** Appending a real path element to the buffer. *)
Definition push (out e : gostring) : gostring :=
  (if needSlash rooted out then out ++ [sep] else out) ++ e.

Lemma push_join l e :
  Forall okElem l → push (pre ++ join l) e = pre ++ join (l ++ [e]).
Proof.
  intros Hl. unfold push. rewrite needSlash_join by done.
  case_bool_decide as Hne.
  - rewrite Join_snoc by done. rewrite <- !app_assoc. done.
  - subst l. simpl. by rewrite app_nil_r.
Qed.

Lemma shape_push out dd e :
  shape out dd → plainFor e → shape (push out e) dd.
Proof.
  intros (k & es & Hk & Hes & -> & ->) He.
  exists k, (es ++ [e]). split_and!; [done| | |done].
  - apply Forall_app. split; [done|]. by apply Forall_singleton.
  - rewrite app_assoc, <- push_join; [done|].
    apply Forall_app. split; [apply dots_ok|by apply plain_ok].
Qed.

(** The [..] step on the buffer. *)
Definition pop (out : gostring) (dd : nat) : gostring * nat :=
  if bool_decide (dd < length out) then
    (take (backtrack sep out dd (length out - 1)) out, dd)
  else if negb rooted then
    let out2 := (if bool_decide (0 < length out) then out ++ [sep] else out)
                  ++ [dot; dot] in
    (out2, length out2)
  else (out, dd).

Lemma run_dotdot_pop rest out dd :
  endOrSep sep rest = true →
  go (dot :: dot :: rest) out dd = go rest (pop out dd).1 (pop out dd).2.
Proof.
  intros H. rewrite run_dotdot by done. unfold pop.
  repeat case_bool_decide; try destruct (negb rooted); done.
Qed.

Lemma Join_length_mono l es :
  Forall okElem es → es ≠ [] → length (join l) < length (join (l ++ es)).
Proof.
  intros Hes Hne. destruct (Join_app_prefix l es) as (r & -> & Hr).
  rewrite length_app.
  specialize (Hr Hne (ok_nonempty _ Hes)). destruct r; [done|]. simpl. lia.
Qed.

(** What [..] does to a buffer of the expected shape: it removes the last
    plain element, or, when there is none, keeps the root or appends
    [..]. *)
Lemma pop_cases out dd :
  shape out dd →
  (∃ k es e, (rooted = true → k = 0) ∧ Forall plainFor es ∧ plainFor e ∧
     out = pre ++ join (dots k ++ es ++ [e]) ∧
     dd = length (pre ++ join (dots k)) ∧
     pop out dd = (pre ++ join (dots k ++ es), dd))
  ∨ (∃ k, (rooted = true → k = 0) ∧ out = pre ++ join (dots k) ∧
     dd = length out ∧
     pop out dd = if rooted then (out, dd)
                  else (pre ++ join (dots (S k)),
                        length (pre ++ join (dots (S k))))).
Proof.
  intros (k & es & Hk & Hes & -> & ->). unfold pop.
  pose proof (dots_ok k) as Hdots. pose proof (plain_ok _ Hes) as Hes'.
  case_bool_decide as Hlt.
  - (* backtrack over the last element *)
    left. destruct (decide (es = [])) as [->|Hnil0].
    { rewrite app_nil_r in Hlt. lia. }
    destruct (exists_last Hnil0) as (es0 & e & ->). rename es0 into es.
    apply Forall_app in Hes as [Hes He]. rewrite Forall_singleton in He.
    apply Forall_app in Hes' as [Hes' _].
    pose proof He as (Hne & Hns & _).
    exists k, es, e. split_and!; [done..|]. f_equal.
    rewrite app_assoc.
    destruct (decide (dots k ++ es = [])) as [Hnil|Hnn].
    + rewrite Hnil. apply app_eq_nil in Hnil as [Hk0 ->]. simpl.
      rewrite !app_nil_r.
      replace (length (pre ++ e) - 1) with (length pre + (length e - 1)).
      2:{ rewrite length_app. destruct e; [done|]. simpl. lia. }
      rewrite Hk0 in Hlt |- *. simpl. rewrite !app_nil_r.
      rewrite backtrack_floor; [|done|destruct e; [done|simpl; lia]].
      by rewrite take_app_length.
    + rewrite Join_snoc by done.
      rewrite (app_assoc pre). set (P := pre ++ join (dots k ++ es)).
      replace (length (P ++ sep :: e) - 1) with (length P + length e)
        by (rewrite length_app; simpl; lia).
      rewrite backtrack_elem; [by rewrite take_app_length|done| |done].
      subst P. rewrite !length_app.
      destruct (decide (es = [])) as [->|Hes0]; [by rewrite app_nil_r|].
      pose proof (Join_length_mono (dots k) es Hes' Hes0). lia.
  - (* nothing to remove *)
    right. assert (es = []) as ->.
    { destruct (decide (es = [])) as [|Hes0]; [done|]. exfalso. apply Hlt.
      rewrite !length_app.
      pose proof (Join_length_mono (dots k) es Hes' Hes0). lia. }
    rewrite app_nil_r in *.
    exists k. split_and!; [done..|].
    destruct (negb rooted) eqn:Hroot; simpl.
    + apply negb_true_iff in Hroot.
      assert ((if bool_decide (0 < length (pre ++ join (dots k)))
               then (pre ++ join (dots k)) ++ [sep]
               else pre ++ join (dots k)) ++ [dot; dot]
              = pre ++ join (dots (S k))) as Heq.
      { unfold pre. rewrite Hroot. rewrite !app_nil_l.
        rewrite <- dots_snoc.
        destruct (decide (dots k = [])) as [Hd|Hd]; [by rewrite Hd|].
        rewrite Join_snoc by done.
        assert (join (dots k) ≠ []) as Hj by (by rewrite Join_nil_iff).
        rewrite bool_decide_eq_true_2; [by rewrite <- app_assoc|].
        destruct (join (dots k)); [done|simpl; lia]. }
      rewrite Heq. by rewrite Hroot.
    + apply negb_false_iff in Hroot. by rewrite Hroot.
Qed.

Lemma shape_pop out dd : shape out dd → shape (pop out dd).1 (pop out dd).2.
Proof.
  intros Hs.
  destruct (pop_cases out dd Hs)
    as [(k & es & e & Hk & Hes & He & -> & -> & ->)
       |(k & Hk & Hout & Hdd & ->)].
  - by exists k, es.
  - destruct (negb rooted) eqn:Hroot.
    + apply negb_true_iff in Hroot. rewrite Hroot. simpl.
      exists (S k), []. rewrite app_nil_r. split_and!; [|done..].
      intros Hr. by rewrite Hr in Hroot.
    + apply negb_false_iff in Hroot. rewrite Hroot. simpl.
      exists k, []. rewrite app_nil_r. subst. done.
Qed.

(** The buffer keeps its shape throughout the loop. *)
Lemma go_shape path : ∀ out dd,
  shape out dd → shape (go path out dd).1 (go path out dd).2.
Proof.
  remember (length path) as n eqn:Hn. revert path Hn.
  induction n as [n IH] using lt_wf_ind. intros path Hn out dd Hs.
  destruct (decide (path = [])) as [->|Hp]; [done|].
  destruct (classify path Hp) as [rest|rest Hr|rest Hr|e rest He Hr].
  - rewrite run_sep. apply (IH (length rest)); [subst n; simpl; lia|done..].
  - rewrite run_dot by done.
    apply (IH (length rest)); [subst n; simpl; lia|done..].
  - rewrite run_dotdot_pop by done.
    apply (IH (length rest)); [subst n; simpl; lia|done|].
    by apply shape_pop.
  - rewrite run_elem by done.
    apply (IH (length rest)); [|done|by apply shape_push].
    destruct He as (Hne & _). destruct e; [done|].
    subst n. simpl. rewrite length_app. lia.
Qed.

(** A path made of plain elements is copied element by element. *)
Lemma go_join es : ∀ out dd,
  Forall plainFor es → go (join es) out dd = (fold_left push es out, dd).
Proof.
  induction es as [|e es IH]; intros out dd Hes; [done|].
  inversion Hes as [|? ? He Hes']; subst.
  destruct es as [|e2 es].
  - simpl. rewrite <- (app_nil_r e) at 1. by rewrite run_elem.
  - rewrite Join_cons by done. rewrite run_elem by (done || by simpl; rewrite isSep_sep).
    rewrite run_sep. rewrite IH by done. done.
Qed.

Lemma pushAll_join es : ∀ l,
  Forall okElem l → Forall plainFor es →
  fold_left push es (pre ++ join l) = pre ++ join (l ++ es).
Proof.
  induction es as [|e es IH]; intros l Hl Hes; simpl.
  - by rewrite app_nil_r.
  - inversion Hes as [|? ? He Hes']; subst.
    rewrite push_join by done. rewrite IH; [|apply Forall_app; split|done].
    + by rewrite <- app_assoc.
    + done.
    + apply Forall_singleton. by destruct He as (? & ? & ? & _).
Qed.

Lemma Join_app l1 l2 :
  l1 ≠ [] → l2 ≠ [] → join (l1 ++ l2) = join l1 ++ sep :: join l2.
Proof.
  intros H1 H2. induction l1 as [|a l1 IH]; [done|].
  destruct l1 as [|b l1].
  - simpl app. by rewrite Join_cons.
  - change ((a :: b :: l1) ++ l2) with (a :: ((b :: l1) ++ l2)).
    rewrite Join_cons by done. rewrite IH by done.
    rewrite (Join_cons a (b :: l1)) by done. by rewrite <- app_assoc.
Qed.

(** The first byte of a non-empty joined list is not a separator, and
    the list is not the single element [.]. *)
Lemma Join_head l :
  Forall okElem l → l ≠ [] → join l ≠ [sep] ∧ join l ≠ [dot] ∧ join l ≠ [].
Proof.
  intros Hl Hne. destruct l as [|f l]; [done|].
  inversion Hl as [|? ? (Hf & Hs & Hd) Hl']; subst.
  destruct f as [|c f]; [done|].
  assert (c ≠ sep) by (intros ->; apply Hs; by left).
  destruct l as [|b l].
  - simpl. split_and!; [|done|done]. intros [= -> ->]. done.
  - rewrite Join_cons by done. simpl. split_and!; [| |done].
    + intros [= -> ?]. done.
    + intros [= -> Hrest]. by destruct f.
Qed.
End CleanLoopFacts.

(** * [Clean], as a whole *)

Section CleanFacts.
Variable sep : ascii.
Hypothesis sep_not_dot : sep ≠ "."%char.

Definition finish (out : gostring) : gostring :=
  if bool_decide (length out = 0) then str "." else out.

Lemma cleanWith_rooted rest :
  cleanWith sep (sep :: rest) = finish (run sep true rest [sep] 1).1.
Proof.
  unfold cleanWith, run. rewrite isSep_sep.
  rewrite (cleanLoop_fuel sep true _ (length rest)) by (simpl; lia).
  by destruct (cleanLoop sep true (length rest) rest [sep] 1).
Qed.

Lemma cleanWith_unrooted c rest :
  c ≠ sep →
  cleanWith sep (c :: rest) = finish (run sep false (c :: rest) [] 0).1.
Proof.
  intros Hc. unfold cleanWith, run.
  assert (isSep sep c = false) as -> by (by apply isSep_false).
  by destruct (cleanLoop sep false (length (c :: rest)) (c :: rest) [] 0).
Qed.

Lemma shape_rooted_start : shape sep true [sep] 1.
Proof. exists 0, []. done. Qed.

Lemma shape_unrooted_start : shape sep false [] 0.
Proof. exists 0, []. done. Qed.

(** Cleaning a rooted path yields the separator followed by plain
    elements: every [.] and [..] is gone. *)
Lemma cleanWith_rooted_plain name :
  ∃ es, Forall (plainElem sep) es ∧
        cleanWith sep (sep :: name) = sep :: strings.Join es [sep].
Proof.
  rewrite cleanWith_rooted.
  destruct (go_shape sep sep_not_dot true name [sep] 1 shape_rooted_start)
    as (k & es & Hk & Hes & Hout & _).
  rewrite (Hk eq_refl) in Hout. simpl in Hout.
  exists es. split; [done|]. rewrite Hout. done.
Qed.

(** Cleaning [dir], two separators and plain elements continues the
    cleaned [dir] by these elements. *)
Lemma cleanWith_attach dir es :
  dir ≠ [] → Forall (plainElem sep) es →
  cleanWith sep (dir ++ sep :: sep :: strings.Join es [sep])
  = attach sep (cleanWith sep dir) es.
Proof.
  intros Hdir Hes. destruct dir as [|c dir]; [done|].
  pose proof (plain_ok sep es Hes) as Hes'.
  destruct (decide (c = sep)) as [->|Hc].
  - (* rooted *)
    rewrite <- app_comm_cons, !cleanWith_rooted.
    rewrite go_app, run_sep by done.
    destruct (go_shape sep sep_not_dot true dir [sep] 1 shape_rooted_start)
      as (k & es0 & Hk & Hes0 & Hout & Hdd).
    rewrite (Hk eq_refl) in Hout. simpl in Hout.
    pose proof (plain_ok sep es0 Hes0) as Hes0'.
    rewrite go_join by done. simpl fst.
    rewrite Hout. change (sep :: strings.Join es0 [sep])
      with (pre sep true ++ strings.Join es0 [sep]).
    rewrite pushAll_join by done. unfold finish, pre. simpl.
    destruct es as [|e es]; [by rewrite app_nil_r|].
    unfold attach.
    destruct (decide (es0 = [])) as [->|Hne0].
    + simpl app. by rewrite bool_decide_eq_true_2.
    + destruct (Join_head sep es0 Hes0' Hne0) as (_ & _ & Hj).
      rewrite bool_decide_eq_false_2.
      2:{ intros [= Heq]. done. }
      rewrite bool_decide_eq_false_2.
      2:{ intros [= Heq _]. done. }
      rewrite Join_app by done. done.
  - (* relative *)
    rewrite <- app_comm_cons, !cleanWith_unrooted by done.
    rewrite app_comm_cons, go_app, run_sep by done.
    destruct (go_shape sep sep_not_dot false (c :: dir) [] 0 shape_unrooted_start)
      as (k & es0 & Hk & Hes0 & Hout & Hdd).
    simpl in Hout.
    assert (Forall (okElem sep) (dots k ++ es0)) as Hl.
    { apply Forall_app. split; [by apply dots_ok|by apply plain_ok]. }
    rewrite go_join by done. simpl fst. rewrite Hout.
    change (strings.Join (dots k ++ es0) [sep])
      with (pre sep false ++ strings.Join (dots k ++ es0) [sep]).
    rewrite pushAll_join by done. unfold pre. rewrite !app_nil_l.
    destruct es as [|e es]; [by rewrite app_nil_r|].
    unfold attach.
    assert (Forall (okElem sep) ((dots k ++ es0) ++ e :: es)) as Hall
      by (by apply Forall_app).
    assert ((dots k ++ es0) ++ e :: es ≠ []) as Hnn by (by destruct (dots k ++ es0)).
    destruct (Join_head sep _ Hall Hnn) as (_ & _ & Hj).
    unfold finish at 1.
    rewrite bool_decide_eq_false_2 by (by intros ?%nil_length_inv).
    unfold finish. destruct (decide (dots k ++ es0 = [])) as [Hnil|Hne0].
    + rewrite Hnil. simpl.
      rewrite bool_decide_eq_false_2 by (intros [= ?]; done). done.
    + destruct (Join_head sep _ Hl Hne0) as (H1 & H2 & H3).
      rewrite (bool_decide_eq_false_2 (length _ = 0))
        by (by intros ?%nil_length_inv).
      rewrite !bool_decide_eq_false_2 by done.
      rewrite Join_app by done. done.
Qed.
End CleanFacts.

(** * [strings] and [os] helpers *)

Lemma HasPrefix_cons_nil s c :
  strings.HasPrefix s [c] = match s with d :: _ => bool_decide (c = d) | [] => false end.
Proof. destruct s as [|d s]; [done|]. simpl. destruct s; by rewrite andb_true_r. Qed.

Lemma Contains_byte s c : strings.Contains s [c] = true ↔ c ∈ s.
Proof.
  induction s as [|d s IH]; cbn [strings.Contains].
  - rewrite HasPrefix_cons_nil. split; [done|]. by intros ?%elem_of_nil.
  - rewrite HasPrefix_cons_nil, orb_true_iff, IH, bool_decide_eq_true, elem_of_cons.
    done.
Qed.

Lemma IndexRune_ge0 s c : (0 ≤ strings.IndexRune s c)%Z ↔ c ∈ s.
Proof.
  assert (∀ s, (-1 ≤ strings.IndexRune s c)%Z) as Hlow.
  { clear. induction s as [|d s IH]; simpl; [lia|].
    case_bool_decide; [lia|]. destruct (Z.ltb_spec (strings.IndexRune s c) 0); lia. }
  induction s as [|d s IH]; simpl.
  - split; [lia|]. by intros ?%elem_of_nil.
  - rewrite elem_of_cons. case_bool_decide as Hd.
    + split; [intros _; by left|lia].
    + specialize (Hlow s).
      destruct (Z.ltb_spec (strings.IndexRune s c) 0) as [Hlt|Hge].
      * split; [lia|]. intros [->|Hin]; [done|]. apply IH in Hin. lia.
      * split; [intros _; right; apply IH; lia|lia].
Qed.

Lemma unixJoin_two dir x :
  dir ≠ [] → filepath.unixJoin [dir; x] = filepath.unixClean (dir ++ "/"%char :: x).
Proof. intros H. simpl. by rewrite bool_decide_eq_false_2. Qed.

Lemma cleanWith_nonempty sep p : cleanWith sep p ≠ [].
Proof.
  unfold cleanWith. destruct p as [|c rest]; [done|].
  destruct (isSep sep c).
  - destruct (cleanLoop sep true _ rest [sep] 1) as [out dd].
    case_bool_decide as H; [done|]. by intros ->.
  - destruct (cleanLoop sep false _ (c :: rest) [] 0) as [out dd].
    case_bool_decide as H; [done|]. by intros ->.
Qed.

Lemma fields_nonempty x : os.fields x ≠ [].
Proof.
  destruct x as [|c x]; [done|]. simpl.
  case_bool_decide; [done|]. by destruct (os.fields x).
Qed.

Lemma fields_app x y :
  os.fields (x ++ "/"%char :: y) = os.fields x ++ os.fields y.
Proof.
  induction x as [|c x IH]; simpl.
  - done.
  - case_bool_decide; [by rewrite IH|].
    rewrite IH. pose proof (fields_nonempty x). by destruct (os.fields x).
Qed.

Lemma fields_no_slash e : "/"%char ∉ e → os.fields e = [e].
Proof.
  induction e as [|c e IH]; [done|]. intros H.
  apply not_elem_of_cons in H as [Hc He]. simpl.
  rewrite bool_decide_eq_false_2 by done. by rewrite IH.
Qed.

Lemma fields_join es :
  Forall (plainElem "/"%char) es → es ≠ [] →
  os.fields (strings.Join es (str "/")) = es.
Proof.
  induction es as [|e es IH]; [done|]. intros Hes _.
  inversion Hes as [|? ? (_ & He & _) Hes']; subst.
  destruct es as [|e2 es].
  - by apply fields_no_slash.
  - change (strings.Join (e :: e2 :: es) (str "/"))
      with (e ++ "/"%char :: strings.Join (e2 :: es) (str "/")).
    rewrite fields_app, fields_no_slash by done. rewrite IH by done. done.
Qed.

Lemma walk_plain es k :
  Forall (plainElem "/"%char) es → fold_left os.walk es k = rev es ++ k.
Proof.
  revert k. induction es as [|e es IH]; intros k Hes; [done|].
  inversion Hes as [|? ? (H1 & _ & H3 & H4) Hes']; subst. simpl.
  unfold os.walk at 2. rewrite !bool_decide_eq_false_2 by done. simpl.
  rewrite IH by done. by rewrite <- app_assoc.
Qed.

(** * [Clean] and path resolution

    [Clean] is purely lexical; on the host modelled here (no symbolic
    links) the cleaned path resolves to the location of the original. *)

Lemma slash_not_dot : "/"%char ≠ "."%char.
Proof. done. Qed.

Section Resolution.
Variable rooted : bool.
Variable start : list gostring.
Hypothesis rooted_start : rooted = true → start = [].

#[local] Abbreviation slash := ("/"%char).

(** Where the host arrives by walking the buffer of [Clean] from
    [start]. *)
Definition reach (out : gostring) : list gostring :=
  fold_left os.walk (os.fields out) start.

Lemma walk_nil k : os.walk k [] = k.
Proof. reflexivity. Qed.

Lemma walk_fields_elem e rest k :
  slash ∉ e → endOrSep slash rest = true →
  fold_left os.walk (os.fields (e ++ rest)) k
  = fold_left os.walk (os.fields rest) (os.walk k e).
Proof.
  intros He Hr. destruct rest as [|c rest].
  - rewrite app_nil_r, fields_no_slash by done. simpl.
    by rewrite walk_nil.
  - simpl in Hr. apply isSep_true in Hr as ->.
    rewrite fields_app, fold_left_app, (fields_no_slash e) by done.
    change (os.fields (slash :: rest)) with ([] :: os.fields rest).
    simpl. by rewrite walk_nil.
Qed.

Lemma reach_push out dd e :
  shape slash rooted out dd → slash ∉ e →
  reach (push slash rooted out e) = os.walk (reach out) e.
Proof.
  intros (k & es & Hk & Hes & -> & _) He.
  assert (Forall (okElem slash) (dots k ++ es)) as Hl.
  { apply Forall_app. split; [by apply dots_ok|by apply plain_ok]. }
  rewrite push_join by done. unfold reach.
  destruct (decide (dots k ++ es = [])) as [->|Hne].
  - simpl. rewrite app_nil_r. unfold pre. destruct rooted.
    + change ([slash] ++ e) with ([] ++ slash :: e).
      rewrite fields_app, fold_left_app, (fields_no_slash e) by done. done.
    + simpl. rewrite fields_no_slash by done. done.
  - rewrite Join_snoc by done. rewrite app_assoc.
    rewrite fields_app, fold_left_app, (fields_no_slash e) by done. done.
Qed.

Lemma reach_pop out dd :
  shape slash rooted out dd →
  reach (pop slash rooted out dd).1 = tail (reach out).
Proof.
  intros Hs.
  destruct (pop_cases slash slash_not_dot rooted out dd Hs)
    as [(k & es & e & Hk & Hes & He & -> & -> & ->)
       |(k & Hk & Hout & Hdd & ->)].
  - assert (Forall (okElem slash) (dots k ++ es)) as Hl.
    { apply Forall_app. split; [by apply dots_ok|by apply plain_ok]. }
    simpl fst. rewrite (app_assoc (dots k)), <- push_join by done.
    rewrite (reach_push _ (length (pre slash rooted ++ strings.Join (dots k) [slash]))).
    + destruct He as (H1 & _ & H3 & H4). unfold os.walk.
      by rewrite !bool_decide_eq_false_2.
    + by exists k, es.
    + by destruct He as (_ & ? & _).
  - destruct (negb rooted) eqn:Hroot.
    + apply negb_true_iff in Hroot.
      set (P := pre slash rooted ++ strings.Join (dots (S k)) [slash]).
      rewrite Hroot. simpl fst. subst P.
      rewrite <- dots_snoc, <- push_join by (by apply dots_ok).
      rewrite <- Hout. rewrite (reach_push _ dd).
      * done.
      * exists k, []. rewrite app_nil_r. split_and!; [done..|]. by rewrite <- Hout.
      * intros H. apply elem_of_cons in H as [H|H]; [done|].
        apply elem_of_cons in H as [H|H]; [done|]. by apply elem_of_nil in H.
    + apply negb_false_iff in Hroot. rewrite Hroot. simpl fst.
      rewrite (Hk Hroot) in Hout. subst out. unfold reach, pre.
      rewrite Hroot. simpl. by rewrite (rooted_start Hroot).
Qed.

(** The loop of [Clean] walks the buffer as the host walks the input. *)
Lemma reach_go path : ∀ out dd,
  shape slash rooted out dd →
  reach (run slash rooted path out dd).1
  = fold_left os.walk (os.fields path) (reach out).
Proof.
  remember (length path) as n eqn:Hn. revert path Hn.
  induction n as [n IH] using lt_wf_ind. intros path Hn out dd Hs.
  destruct (decide (path = [])) as [->|Hp]; [done|].
  destruct (classify slash path Hp) as [rest|rest Hr|rest Hr|e rest He Hr].
  - rewrite run_sep. rewrite (IH (length rest)); [done|subst n; simpl; lia|done..].
  - rewrite run_dot by done.
    rewrite (IH (length rest)); [|subst n; simpl; lia|done..].
    change ("."%char :: rest) with ([("."%char : ascii)] ++ rest).
    rewrite walk_fields_elem; [done| |done].
    intros H. apply elem_of_cons in H as [H|H]; [done|]. by apply elem_of_nil in H.
  - rewrite run_dotdot_pop by done.
    rewrite (IH (length rest)); [|subst n; simpl; lia|done|by apply shape_pop].
    rewrite reach_pop by done.
    change ("."%char :: "."%char :: rest) with (str ".." ++ rest).
    rewrite walk_fields_elem; [done| |done].
    intros H. apply elem_of_cons in H as [H|H]; [done|].
    apply elem_of_cons in H as [H|H]; [done|]. by apply elem_of_nil in H.
  - rewrite run_elem by done.
    rewrite (IH (length rest)); [| |done|by apply shape_push].
    + change ((if needSlash rooted out then out ++ [slash] else out) ++ e)
        with (push slash rooted out e).
      rewrite (reach_push _ dd) by (done || by destruct He as (_ & ? & _)).
      rewrite walk_fields_elem; [done| |done]. by destruct He as (_ & ? & _).
    + destruct He as (Hne & _). destruct e; [done|].
      subst n. simpl. rewrite length_app. lia.
Qed.
End Resolution.

(** The host resolves a cleaned path to the location of the path itself. *)
Lemma resolve_cleanWith o x :
  os.resolve o (cleanWith "/"%char x) = os.resolve o x.
Proof.
  destruct x as [|c rest]; [done|].
  destruct (decide (c = "/"%char)) as [->|Hc].
  - rewrite cleanWith_rooted.
    pose proof (go_shape "/"%char slash_not_dot true rest ["/"%char] 1
                  (shape_rooted_start "/"%char)) as (k & es & Hk & Hes & Hout & _).
    pose proof (reach_go true [] (λ _, eq_refl) rest ["/"%char] 1
                  (shape_rooted_start "/"%char)) as Hreach.
    rewrite (Hk eq_refl) in Hout. simpl in Hout.
    unfold finish. rewrite bool_decide_eq_false_2 by (by rewrite Hout).
    assert (∀ t, os.resolve o ("/"%char :: t) = reach [] ("/"%char :: t)) as Habs.
    { intros t. unfold os.resolve, reach. change (str "/") with ["/"%char].
      by rewrite HasPrefix_cons_nil, bool_decide_eq_true_2. }
    rewrite Hout, !Habs, <- Hout, Hreach. reflexivity.
  - rewrite cleanWith_unrooted by done.
    pose proof (go_shape "/"%char slash_not_dot false (c :: rest) [] 0
                  (shape_unrooted_start "/"%char)) as (k & es & Hk & Hes & Hout & _).
    assert (rooted_irrelevant : false = true → cwd o = []) by done.
    pose proof (reach_go false (cwd o) rooted_irrelevant (c :: rest) [] 0
                  (shape_unrooted_start "/"%char)) as Hreach.
    simpl in Hout.
    assert (Forall (okElem "/"%char) (dots k ++ es)) as Hl.
    { apply Forall_app. split; [by apply dots_ok|by apply plain_ok]. }
    assert (os.resolve o (c :: rest)
            = fold_left os.walk (os.fields (c :: rest)) (cwd o)) as ->.
    { unfold os.resolve. change (str "/") with ["/"%char].
      rewrite HasPrefix_cons_nil. by rewrite bool_decide_eq_false_2. }
    unfold finish. case_bool_decide as Hlen.
    + apply nil_length_inv in Hlen. rewrite Hlen in Hreach.
      change (reach (cwd o) []) with (cwd o) in Hreach.
      rewrite <- Hreach. reflexivity.
    + change (reach (cwd o) []) with (cwd o) in Hreach.
      rewrite <- Hreach. unfold os.resolve, reach.
      assert (strings.HasPrefix (run "/"%char false (c :: rest) [] 0).1 (str "/")
              = false) as ->; [|done].
      rewrite Hout. destruct (dots k ++ es) as [|f l] eqn:Hfl.
      { exfalso. apply Hlen. by rewrite Hout. }
      inversion Hl as [|? ? (Hf & Hsl & _) _]; subst.
      destruct f as [|c0 f]; [done|].
      assert (c0 ≠ "/"%char) by (intros ->; apply Hsl; by left).
      change (str "/") with ["/"%char]. rewrite HasPrefix_cons_nil.
      destruct l; simpl; by rewrite bool_decide_eq_false_2.
Qed.

(** The host resolves a path continued by plain elements to a descendant
    of what the path itself resolves to. *)
Lemma resolve_attach o root es :
  root ≠ [] → Forall (plainElem "/"%char) es →
  os.resolve o (attach "/"%char root es) = rev es ++ os.resolve o root.
Proof.
  intros Hroot Hes. destruct es as [|e es]; [done|]. unfold attach.
  assert (e :: es ≠ []) as Hne by done.
  pose proof (fields_join (e :: es) Hes Hne) as Hf.
  change (str "/") with ["/"%char] in Hf.
  case_bool_decide as H1; [|case_bool_decide as H2].
  - subst root. change (os.resolve o ["/"%char]) with (@nil gostring).
    unfold os.resolve. change (str "/") with ["/"%char].
    rewrite HasPrefix_cons_nil, bool_decide_eq_true_2 by done.
    change (os.fields ("/"%char :: ?x)) with ([] :: os.fields x).
    rewrite Hf.
    change (fold_left os.walk ([] :: e :: es) []) with (fold_left os.walk (e :: es) []).
    by rewrite (walk_plain (e :: es)).
  - subst root. unfold os.resolve. rewrite Hf.
    assert (strings.HasPrefix (strings.Join (e :: es) ["/"%char]) (str "/") = false) as ->.
    { inversion Hes as [|? ? (Hn & Hs & _) _]; subst.
      destruct e as [|c e]; [done|].
      assert (c ≠ "/"%char) by (intros ->; apply Hs; by left).
      change (str "/") with ["/"%char]. rewrite HasPrefix_cons_nil.
      destruct es; simpl; by rewrite bool_decide_eq_false_2. }
    rewrite walk_plain by done. done.
  - unfold os.resolve. rewrite fields_app, Hf, fold_left_app.
    assert (strings.HasPrefix (root ++ "/"%char :: strings.Join (e :: es) ["/"%char]) (str "/")
            = strings.HasPrefix root (str "/")) as ->.
    { change (str "/") with ["/"%char]. rewrite !HasPrefix_cons_nil.
      by destruct root. }
    by rewrite walk_plain.
Qed.

(** * [Dir.sanitizePath] *)

Lemma sanitizePath_guard (h : Host) (name : gostring) :
  (negb (bool_decide (Separator h = "/"%char)) &&
   bool_decide (0 ≤ strings.IndexRune name (Separator h))%Z)
  || strings.Contains name [zero]
  = bool_decide ((Separator h ≠ "/"%char ∧ Separator h ∈ name) ∨ zero ∈ name).
Proof.
  apply eq_true_iff_eq.
  rewrite orb_true_iff, andb_true_iff, negb_true_iff, !bool_decide_eq_true,
    bool_decide_eq_false, IndexRune_ge0, Contains_byte.
  done.
Qed.

(** C1.  For every logical path name, [Dir.sanitizePath] either fails with
    [ErrInvalidCharPath] — exactly when the name holds a null byte or, on a
    host whose separator is not the slash, that separator — or returns the
    host path obtained by cleaning ["/" + name] and joining it onto the
    root.  On a Unix host the returned path is the cleaned root continued
    by plain elements (no [.], no [..], no separator inside), and the host
    resolves it to the location of the root itself followed by these
    elements: the root's own location or a descendant of it. *)
Theorem sanitizePath_confined (d name : gostring) :
  let dir := if bool_decide (d = []) then str "." else d in
  (∀ h : Host,
     sanitizePath h d name =
       if bool_decide ((Separator h ≠ "/"%char ∧ Separator h ∈ name) ∨ zero ∈ name)
       then inr ErrInvalidCharPath
       else inl (filepath.Join h
                   [dir; filepath.FromSlash h (path.Clean (str "/" ++ name))]))
  ∧ match sanitizePath unix d name with
    | inr err => err = ErrInvalidCharPath ∧ zero ∈ name
    | inl p =>
        (zero ∉ name) ∧
        ∃ es, Forall (plainElem "/"%char) es ∧
              path.Clean (str "/" ++ name) = "/"%char :: strings.Join es (str "/") ∧
              p = attach "/"%char (filepath.unixClean dir) es ∧
              inside dir p ∧
              ∀ o, os.resolve o p = rev es ++ os.resolve o dir
    end.
Proof.
  intros dir.
  assert (∀ h : Host,
     sanitizePath h d name =
       if bool_decide ((Separator h ≠ "/"%char ∧ Separator h ∈ name) ∨ zero ∈ name)
       then inr ErrInvalidCharPath
       else inl (filepath.Join h
                   [dir; filepath.FromSlash h (path.Clean (str "/" ++ name))]))
    as Hform.
  { intros h. unfold sanitizePath. by rewrite sanitizePath_guard. }
  split; [done|]. rewrite (Hform unix).
  case_bool_decide as Hbad.
  - split; [done|]. destruct Hbad as [[Hsep _]|Hz]; [done|done].
  - assert (zero ∉ name) as Hz by (intros ?; apply Hbad; by right).
    split; [done|].
    destruct (cleanWith_rooted_plain "/"%char slash_not_dot name) as (es & Hes & Hclean).
    assert (dir ≠ []) as Hdir by (subst dir; by case_bool_decide).
    assert (filepath.Join unix [dir; filepath.FromSlash unix (path.Clean (str "/" ++ name))]
            = attach "/"%char (filepath.unixClean dir) es) as Hp.
    { change (filepath.FromSlash unix ?x) with x.
      change (filepath.Join unix ?x) with (filepath.unixJoin x).
      rewrite unixJoin_two by done.
      change (str "/" ++ name) with ("/"%char :: name).
      unfold path.Clean. rewrite Hclean.
      apply (cleanWith_attach "/"%char slash_not_dot); done. }
    exists es. split_and!; [done|done|done| |].
    + exists es. by rewrite Hp.
    + intros o. rewrite Hp, resolve_attach; [|apply cleanWith_nonempty|done].
      unfold filepath.unixClean. by rewrite resolve_cleanWith.
Qed.

(** The notion [inside] tells paths apart: a path elsewhere in the host
    tree is not inside the root. *)
Lemma inside_excludes_sibling : ¬ inside (str "/srv/dav") (str "/etc/passwd").
Proof.
  intros (es & Hes & Heq).
  change (filepath.unixClean (str "/srv/dav")) with (str "/srv/dav") in Heq.
  destruct es as [|e es]; [done|]. unfold attach in Heq.
  rewrite !bool_decide_eq_false_2 in Heq by done. done.
Qed.

Lemma inside_excludes_parent : ¬ inside (str "/srv/dav") (str "/srv").
Proof.
  intros (es & Hes & Heq).
  change (filepath.unixClean (str "/srv/dav")) with (str "/srv/dav") in Heq.
  destruct es as [|e es]; [done|]. unfold attach in Heq.
  rewrite !bool_decide_eq_false_2 in Heq by done. done.
Qed.

(** * The handlers *)

Ltac munfold :=
  unfold fsOpen, fsCreate, fsMkdir, fsRemove, fStat, fRead, fWrite, fSeek, fClose in *;
  unfold bind, ret, call, respond, getHeader in *.

Lemma status_WriteHeader code : http.status (http.WriteHeader code newResponse) = code.
Proof. done. Qed.

(** C7.  On a read-only server PUT and DELETE answer 403 before any
    interaction with the storage backend: no backend method is called and
    the backend state is what it was.  This holds for the [doPut] of both
    revisions, for [doDelete], and through the dispatch of [ServeHTTP]. *)
Theorem readonly_forbidden (lib : Library) (s : Server) (r : Request) (st : fsState (Fs s)) :
  ReadOnly s = true →
  let untouched (e' : Env (Fs s)) :=
    http.status (w e') = StatusForbidden ∧ calls e' = [] ∧ backend e' = st in
  untouched (Rev1.doPut s r (start st)).2 ∧
  untouched (Rev2.doPut s r (start st)).2 ∧
  untouched (doDelete s r (start st)).2 ∧
  (Method r = str "PUT" ∨ Method r = str "DELETE" →
   untouched (Rev1.ServeHTTP lib s r (start st)).2 ∧
   untouched (Rev2.ServeHTTP lib s r (start st)).2).
Proof.
  intros Hro untouched.
  assert (untouched (Rev1.doPut s r (start st)).2) as H1.
  { unfold untouched, Rev1.doPut. rewrite Hro. done. }
  assert (untouched (Rev2.doPut s r (start st)).2) as H2.
  { unfold untouched, Rev2.doPut. rewrite Hro. done. }
  assert (untouched (doDelete s r (start st)).2) as H3.
  { unfold untouched, doDelete. rewrite Hro. done. }
  split_and!; [done..|].
  intros [Hm|Hm]; unfold Rev1.ServeHTTP, Rev2.ServeHTTP; rewrite Hm;
    repeat (case_bool_decide; [done|]); done.
Qed.

Lemma readonly_forbidden_witness :
  ReadOnly sampleReadOnly = true ∧
  http.status (w (Rev1.ServeHTTP sampleLib sampleReadOnly
                    (sampleRequest "PUT" "/dav/docs/a.txt" [str "xyz"])
                    (start (B:=Fs sampleReadOnly) sampleOS)).2) = StatusForbidden ∧
  backend (doDelete sampleReadOnly (sampleRequest "DELETE" "/dav/docs/a.txt" [])
             (start (B:=Fs sampleReadOnly) sampleOS)).2 = sampleOS.
Proof.
  split; [reflexivity|].
  pose proof (readonly_forbidden sampleLib sampleReadOnly
                (sampleRequest "PUT" "/dav/docs/a.txt" [str "xyz"]) sampleOS eq_refl)
    as (_ & _ & _ & H).
  pose proof (readonly_forbidden sampleLib sampleReadOnly
                (sampleRequest "DELETE" "/dav/docs/a.txt" []) sampleOS eq_refl)
    as (_ & _ & (_ & _ & Hd) & _).
  split; [|exact Hd].
  destruct (H (or_introl eq_refl)) as ((Hs & _) & _). exact Hs.
Defined.

(** ** Running the probes *)

Section Probes.
Variable s : Server.

Lemma pathExists_run (p : gostring) (e : Env (Fs s)) :
  pathExists s p e =
    match Open (Fs s) p (backend e) with
    | (inl f, st1) =>
        (true, {| backend := (Close (Fs s) f st1).2;
                  calls := calls e ++ [CallOpen p; CallClose f];
                  w := w e |})
    | (inr _, st1) =>
        (false, {| backend := st1; calls := calls e ++ [CallOpen p]; w := w e |})
    end.
Proof.
  unfold pathExists. munfold.
  destruct (Open (Fs s) p (backend e)) as [[f|err] st1]; simpl; [|done].
  destruct (Close (Fs s) f st1) as [c st2]. simpl.
  by rewrite <- app_assoc.
Qed.

Lemma pathIsDirectory_run (p : gostring) (e : Env (Fs s)) :
  pathIsDirectory s p e =
    match Open (Fs s) p (backend e) with
    | (inr _, st1) =>
        (false, {| backend := st1; calls := calls e ++ [CallOpen p]; w := w e |})
    | (inl f, st1) =>
        (match (Stat (Fs s) f st1).1 with
         | inl fi => IsDir fi
         | inr _ => false
         end,
         {| backend := (Close (Fs s) f (Stat (Fs s) f st1).2).2;
            calls := calls e ++ [CallOpen p; CallStat f; CallClose f];
            w := w e |})
    end.
Proof.
  unfold pathIsDirectory. munfold.
  destruct (Open (Fs s) p (backend e)) as [[f|err] st1]; simpl; [|done].
  destruct (Stat (Fs s) f st1) as [[fi|err] st2]; simpl;
    destruct (Close (Fs s) f st2) as [c st3]; simpl;
    by rewrite <- !app_assoc.
Qed.

(** The probes only open, stat and close. *)
Lemma pathExists_frame (p : gostring) (e : Env (Fs s)) :
  let e1 := (pathExists s p e).2 in
  w e1 = w e ∧
  (∃ cs, calls e1 = calls e ++ cs ∧ Forall (λ c, mutates c = false) cs) ∧
  ∀ P : Probing (Fs s),
    @contentsOf _ P (backend e1) = @contentsOf _ P (backend e).
Proof.
  rewrite pathExists_run.
  pose proof (λ P : Probing (Fs s), @Open_keeps _ P p (backend e)) as HO.
  destruct (Open (Fs s) p (backend e)) as [[f|err] st1]; simpl in *.
  - split_and!; [done|eexists; split; [done|by repeat constructor]|].
    intros P. by rewrite Close_keeps, <- (HO P).
  - split_and!; [done|eexists; split; [done|by repeat constructor]|].
    intros P. by rewrite <- (HO P).
Qed.

Lemma pathIsDirectory_frame (p : gostring) (e : Env (Fs s)) :
  let e1 := (pathIsDirectory s p e).2 in
  w e1 = w e ∧
  (∃ cs, calls e1 = calls e ++ cs ∧ Forall (λ c, mutates c = false) cs) ∧
  ∀ P : Probing (Fs s),
    @contentsOf _ P (backend e1) = @contentsOf _ P (backend e).
Proof.
  rewrite pathIsDirectory_run.
  pose proof (λ P : Probing (Fs s), @Open_keeps _ P p (backend e)) as HO.
  destruct (Open (Fs s) p (backend e)) as [[f|err] st1]; simpl in *.
  - split_and!; [done|eexists; split; [done|by repeat constructor]|].
    intros P. by rewrite Close_keeps, Stat_keeps, <- (HO P).
  - split_and!; [done|eexists; split; [done|by repeat constructor]|].
    intros P. by rewrite <- (HO P).
Qed.
End Probes.

(** ** DELETE *)

Definition answer {B : FileSystem} (code : nat) (e : Env B) : Env B :=
  {| backend := backend e; calls := calls e; w := http.WriteHeader code (w e) |}.

Lemma doDelete_run (s : Server) (r : Request) (e : Env (Fs s)) :
  ReadOnly s = false →
  let p := url2path s (Url r) in
  (doDelete s r e).2 =
    match pathExists s p e with
    | (false, e1) => answer StatusNotFound e1
    | (true, e1) =>
        match pathIsDirectory s p e1 with
        | (true, e2) => answer StatusNoContent e2
        | (false, e2) =>
            match Remove (Fs s) p (backend e2) with
            | (Some _, st3) =>
                {| backend := st3; calls := calls e2 ++ [CallRemove p];
                   w := http.WriteHeader StatusInternalServerError (w e2) |}
            | (None, st3) =>
                {| backend := st3; calls := calls e2 ++ [CallRemove p];
                   w := http.WriteHeader StatusNoContent (w e2) |}
            end
        end
    end.
Proof.
  intros Hro p. unfold doDelete, deleteResource. rewrite Hro. fold p.
  unfold bind at 1 2.
  destruct (pathExists s p e) as [[|] e1]; cbn [negb]; [|done].
  unfold bind at 1.
  destruct (pathIsDirectory s p e1) as [[|] e2]; cbn [negb]; [done|].
  munfold. destruct (Remove (Fs s) p (backend e2)) as [[err|] st3]; done.
Qed.

(** C8.  DELETE on a server that is not read-only: when the backend cannot
    open the path the answer is 404 and nothing else is called; when the
    path exists and is not a directory the handler calls [Remove] on it,
    and answers 500 if [Remove] fails and 204 if it succeeds. *)
Theorem doDelete_outcomes (s : Server) (r : Request) (st : fsState (Fs s)) :
  ReadOnly s = false →
  let p := url2path s (Url r) in
  let e' := (doDelete s r (start st)).2 in
  (∀ err st1, Open (Fs s) p st = (inr err, st1) →
     http.status (w e') = StatusNotFound ∧
     calls e' = [CallOpen p] ∧ backend e' = st1) ∧
  (∀ e1 e2, pathExists s p (start st) = (true, e1) →
     pathIsDirectory s p e1 = (false, e2) →
     calls e' = calls e2 ++ [CallRemove p] ∧
     backend e' = (Remove (Fs s) p (backend e2)).2 ∧
     http.status (w e') =
       match (Remove (Fs s) p (backend e2)).1 with
       | Some _ => StatusInternalServerError
       | None => StatusNoContent
       end).
Proof.
  intros Hro p e'. subst e'. rewrite doDelete_run by done. fold p. split.
  - intros err st1 Hopen. rewrite pathExists_run. simpl backend.
    rewrite Hopen. done.
  - intros e1 e2 Hex Hdir. rewrite Hex, Hdir.
    pose proof (pathExists_frame s p (start st)) as (Hw1 & _).
    pose proof (pathIsDirectory_frame s p e1) as (Hw2 & _).
    rewrite Hex in Hw1. rewrite Hdir in Hw2. simpl in Hw1, Hw2.
    destruct (Remove (Fs s) p (backend e2)) as [[err|] st3]; simpl;
      rewrite Hw2, Hw1; done.
Qed.
Lemma doDelete_outcomes_witness :
  ReadOnly sampleServer = false ∧
  (* a missing path *)
  http.status (w (doDelete sampleServer (sampleRequest "DELETE" "/dav/nope" [])
                    (start (B:=Fs sampleServer) sampleOS)).2) = StatusNotFound ∧
  (* a plain file *)
  http.status (w (doDelete sampleServer (sampleRequest "DELETE" "/dav/docs/a.txt" [])
                    (start (B:=Fs sampleServer) sampleOS)).2) = StatusNoContent ∧
  (* a plain file that the backend fails to remove *)
  http.status (w (doDelete (sampleFaulty false true)
                    (sampleRequest "DELETE" "/dav/docs/a.txt" [])
                    (start (B:=Fs (sampleFaulty false true)) sampleOS)).2)
    = StatusInternalServerError.
Proof.
  split; [reflexivity|]. split_and!.
  - pose proof (doDelete_outcomes sampleServer (sampleRequest "DELETE" "/dav/nope" [])
                  sampleOS eq_refl) as (H & _).
    exact (proj1 (H os.ENOENT sampleOS ltac:(vm_compute; reflexivity))).
  - pose proof (doDelete_outcomes sampleServer (sampleRequest "DELETE" "/dav/docs/a.txt" [])
                  sampleOS eq_refl) as (_ & H).
    specialize (H _ _ eq_refl eq_refl) as (_ & _ & H). exact H.
  - pose proof (doDelete_outcomes (sampleFaulty false true)
                  (sampleRequest "DELETE" "/dav/docs/a.txt" [])
                  sampleOS eq_refl) as (_ & H).
    specialize (H _ _ eq_refl eq_refl) as (_ & _ & H). exact H.
Defined.

(** ** [Dir] only reads when it probes *)

Lemma os_Open_tree p o : tree (os.Open p o).2 = tree o.
Proof. unfold os.Open. by destruct (tree o !! os.resolve o p). Qed.

Lemma os_Stat_state fd o : (os.Stat fd o).2 = o.
Proof.
  unfold os.Stat. destruct (handles o !! fd) as [f|]; [|done].
  by destruct (tree o !! ofKey f) as [[]|].
Qed.

Lemma os_Close_tree fd o : tree (os.Close fd o).2 = tree o.
Proof. unfold os.Close. by destruct (handles o !! fd). Qed.

Lemma Dir_Open_tree d name o : tree (Dir_Open d name o).2 = tree o.
Proof.
  unfold Dir_Open. destruct (sanitizePath unix d name); [|done].
  apply os_Open_tree.
Qed.

#[global] Instance Dir_probing (d : gostring) : Probing (Dir d) :=
  Build_Probing (Dir d) (gmap (list gostring) Node) tree
    (Dir_Open_tree d)
    (λ f st, f_equal tree (os_Stat_state f st))
    os_Close_tree.

(** C5.  DELETE of a path that exists and is a directory answers 204 and
    removes nothing: the handler only opens, stats and closes, it never
    calls [Remove], and what the backend stores is unchanged (for [Dir]:
    the whole tree, hence the directory and all of its contents). *)
Theorem doDelete_directory_kept (s : Server) (P : Probing (Fs s))
    (r : Request) (st : fsState (Fs s)) (e1 e2 : Env (Fs s)) :
  ReadOnly s = false →
  let p := url2path s (Url r) in
  pathExists s p (start st) = (true, e1) →
  pathIsDirectory s p e1 = (true, e2) →
  let e' := (doDelete s r (start st)).2 in
  http.status (w e') = StatusNoContent ∧
  Forall (λ c, mutates c = false) (calls e') ∧
  contentsOf (backend e') = contentsOf st.
Proof.
  intros Hro p Hex Hdir e'. subst e'. rewrite doDelete_run by done. fold p.
  rewrite Hex, Hdir.
  pose proof (pathExists_frame s p (start st)) as (Hw1 & (cs1 & Hc1 & Hm1) & Hk1).
  pose proof (pathIsDirectory_frame s p e1) as (Hw2 & (cs2 & Hc2 & Hm2) & Hk2).
  rewrite Hex in Hw1, Hc1, Hk1. rewrite Hdir in Hw2, Hc2, Hk2.
  simpl in Hw1, Hc1, Hk1, Hw2, Hc2, Hk2.
  unfold answer. simpl. split_and!.
  - by rewrite Hw2, Hw1.
  - rewrite Hc2, Hc1. simpl. by apply Forall_app.
  - by rewrite Hk2, Hk1.
Qed.

Lemma doDelete_directory_kept_witness :
  ReadOnly sampleServer = false ∧
  pathExists sampleServer (str "docs") (start (B:=Fs sampleServer) sampleOS)
    = (true, (pathExists sampleServer (str "docs") (start (B:=Fs sampleServer) sampleOS)).2) ∧
  (pathIsDirectory sampleServer (str "docs")
     (pathExists sampleServer (str "docs") (start (B:=Fs sampleServer) sampleOS)).2).1 = true ∧
  http.status (w (doDelete sampleServer (sampleRequest "DELETE" "/dav/docs/" [])
                    (start (B:=Fs sampleServer) sampleOS)).2) = StatusNoContent ∧
  tree (backend (doDelete sampleServer (sampleRequest "DELETE" "/dav/docs/" [])
                   (start (B:=Fs sampleServer) sampleOS)).2) = sampleTree.
Proof.
  split; [reflexivity|]. split; [reflexivity|]. split; [reflexivity|].
  pose proof (doDelete_directory_kept sampleServer (Dir_probing (str "/srv/dav"))
                (sampleRequest "DELETE" "/dav/docs/" []) sampleOS _ _
                eq_refl eq_refl eq_refl) as (Hs & _ & Hk).
  split; [exact Hs|exact Hk].
Defined.

(** ** PUT *)

Definition logged {B : FileSystem} (c : Call B) (st : fsState B) (e : Env B) : Env B :=
  {| backend := st; calls := calls e ++ [c]; w := w e |}.

(** What [doPut] does from [Create] on, in the second and in the first
    revision. *)
Definition putTail2 (s : Server) (p : gostring) (src : Reader) (existed : bool)
    (e2 : Env (Fs s)) : Env (Fs s) :=
  match Create (Fs s) p (backend e2) with
  | (inr _, st3) => answer StatusConflict (logged (CallCreate p) st3 e2)
  | (inl file, st3) =>
      match ioCopy file src (logged (CallCreate p) st3 e2) with
      | (Some _, e4) =>
          (fClose file (fClose file (answer StatusConflict e4)).2).2
      | (None, e4) =>
          (fClose file
             (answer (if existed then StatusNoContent else StatusCreated) e4)).2
      end
  end.

Definition putTail1 (s : Server) (p : gostring) (src : Reader) (existed : bool)
    (e2 : Env (Fs s)) : Env (Fs s) :=
  match Create (Fs s) p (backend e2) with
  | (inr _, st3) => answer StatusConflict (logged (CallCreate p) st3 e2)
  | (inl file, st3) =>
      match ioCopy file src (logged (CallCreate p) st3 e2) with
      | (err, e4) =>
          (fClose file
             (answer match err with
                     | Some _ => StatusConflict
                     | None => if existed then StatusNoContent
                               else StatusCreated
                     end e4)).2
      end
  end.

Lemma Rev2_doPut_run (s : Server) (r : Request) (e : Env (Fs s)) :
  ReadOnly s = false →
  let p := url2path s (Url r) in
  (Rev2.doPut s r e).2 =
    match pathIsDirectory s p e with
    | (true, e1) => answer StatusMethodNotAllowed e1
    | (false, e1) =>
        match pathExists s p e1 with
        | (existed, e2) => putTail2 s p (Body r) existed e2
        end
    end.
Proof.
  intros Hro p. unfold Rev2.doPut, putTail2. rewrite Hro. fold p.
  unfold bind at 1.
  destruct (pathIsDirectory s p e) as [[|] e1]; [done|].
  unfold bind at 1. destruct (pathExists s p e1) as [existed e2].
  unfold bind at 1. unfold fsCreate at 1, call at 1.
  destruct (Create (Fs s) p (backend e2)) as [[file|err] st3]; [|done].
  fold (logged (CallCreate p) st3 e2).
  unfold bind at 1.
  destruct (ioCopy file (Body r) (logged (CallCreate p) st3 e2)) as [[err|] e4].
  - unfold bind, respond, ret, answer. simpl.
    destruct (fClose file _) as [c1 e5]. simpl.
    by destruct (fClose file e5).
  - unfold bind, ret, answer. destruct existed; simpl;
      by destruct (fClose file _).
Qed.

Lemma Rev1_doPut_run (s : Server) (r : Request) (e : Env (Fs s)) :
  ReadOnly s = false →
  let p := url2path s (Url r) in
  (Rev1.doPut s r e).2 =
    match pathExists s p (fsMkdir (path.Dir p) e).2 with
    | (existed, e2) => putTail1 s p (Body r) existed e2
    end.
Proof.
  intros Hro p. unfold Rev1.doPut, putTail1. rewrite Hro. fold p.
  unfold bind at 1. destruct (fsMkdir (path.Dir p) e) as [merr e0]. simpl.
  unfold bind at 1. destruct (pathExists s p e0) as [existed e2].
  unfold bind at 1. unfold fsCreate at 1, call at 1.
  destruct (Create (Fs s) p (backend e2)) as [[file|err] st3]; [|done].
  fold (logged (CallCreate p) st3 e2).
  unfold bind at 1.
  destruct (ioCopy file (Body r) (logged (CallCreate p) st3 e2)) as [[err|] e4].
  - unfold bind, respond, ret, answer. simpl. by destruct (fClose file _).
  - unfold bind, ret, answer. destruct existed; simpl;
      by destruct (fClose file _).
Qed.

(** The copy only writes to the file. *)
Lemma copyChunks_frame {B : FileSystem} (file : File B) (cs : list gostring) :
  ∀ e : Env B,
    w (copyChunks file cs e).2 = w e ∧
    ∃ ws, calls (copyChunks file cs e).2 = calls e ++ ws ∧
          Forall (λ c, ∃ data, c = CallWrite file data) ws.
Proof.
  induction cs as [|c rest IH]; intros e; simpl.
  - split; [done|]. exists []. by rewrite app_nil_r.
  - case_bool_decide; [|apply IH].
    unfold bind, fWrite, call.
    destruct (Write B file c (backend e)) as [[n [err|]] st1]; simpl.
    + split; [done|]. exists [CallWrite file c]. split; [done|].
      constructor; [by eexists|done].
    + case_bool_decide.
      * match goal with |- context [copyChunks file rest ?e1] =>
          destruct (IH e1) as (Hw & ws & Hc & Hws) end.
        split; [done|]. exists (CallWrite file c :: ws). simpl in Hc.
        rewrite Hc, <- app_assoc. split; [done|].
        constructor; [by eexists|done].
      * simpl. split; [done|]. exists [CallWrite file c]. split; [done|].
        constructor; [by eexists|done].
Qed.

Lemma ioCopy_frame {B : FileSystem} (file : File B) (src : Reader) (e : Env B) :
  w (ioCopy file src e).2 = w e ∧
  ∃ ws, calls (ioCopy file src e).2 = calls e ++ ws ∧
        Forall (λ c, ∃ data, c = CallWrite file data) ws.
Proof.
  unfold ioCopy, bind.
  pose proof (copyChunks_frame file (chunks src) e) as H.
  destruct (copyChunks file (chunks src) e) as [[err|] e1]; exact H.
Qed.

Lemma fClose_calls {B : FileSystem} (file : File B) (e : Env B) :
  w (fClose file e).2 = w e ∧ calls (fClose file e).2 = calls e ++ [CallClose file].
Proof. unfold fClose, call. by destruct (Close B file (backend e)). Qed.

(** The first revision answers a PUT that reaches [Create] with 201, 204
    or 409. *)
Lemma putTail1_frame (s : Server) (p : gostring) (src : Reader) (existed : bool)
    (e2 : Env (Fs s)) :
  let e' := putTail1 s p src existed e2 in
  (∃ code, w e' = http.WriteHeader code (w e2) ∧
           (code = StatusConflict ∨ code = StatusNoContent ∨ code = StatusCreated)) ∧
  ∃ rest, calls e' = calls e2 ++ CallCreate p :: rest.
Proof.
  unfold putTail1.
  destruct (Create (Fs s) p (backend e2)) as [[file|err] st3].
  - pose proof (ioCopy_frame file src (logged (CallCreate p) st3 e2))
      as (Hw & ws & Hc & _).
    destruct (ioCopy file src (logged (CallCreate p) st3 e2)) as [err e4].
    simpl in Hw, Hc.
    match goal with |- context [fClose file ?e5] =>
      pose proof (fClose_calls file e5) as (Hwc & Hcc) end.
    split.
    + eexists. rewrite Hwc. unfold answer. simpl. rewrite Hw. split; [done|].
      destruct err; [by left|]. destruct existed; [right; by left|right; by right].
    + exists (ws ++ [CallClose file]). rewrite Hcc. unfold answer. simpl.
      rewrite Hc. simpl. by rewrite <- !app_assoc.
  - split.
    + exists StatusConflict. split; [done|by left].
    + exists []. done.
Qed.

(** * The host file system under the handlers *)

(** ** [os.MkdirAll] *)

Lemma mkdirAll_keeps k mtime : ∀ t e t',
  os.mkdirAll k mtime t = (e, t') →
  ∀ k' n, t !! k' = Some n → t' !! k' = Some n.
Proof.
  induction k as [|c parent IH]; intros t e t' H k' n Hn; simpl in H.
  - destruct (t !! []) as [[]|] eqn:Hk; simplify_eq; [done..|].
    rewrite lookup_insert_ne; [done|]. intros <-. congruence.
  - destruct (t !! (c :: parent)) as [[]|] eqn:Hk; simplify_eq; [done..|].
    destruct (os.mkdirAll parent mtime t) as [[err|] t1] eqn:Hrec; simplify_eq.
    + by eapply IH.
    + rewrite lookup_insert_ne; [by eapply IH|].
      intros <-. eapply IH in Hrec; [|done].
      assert (t !! (c :: parent) = Some n) by done. congruence.
Qed.

Lemma mkdirAll_adds_dirs k mtime : ∀ t e t',
  os.mkdirAll k mtime t = (e, t') →
  ∀ k' n, t' !! k' = Some n → t !! k' = Some n ∨ n = NDir mtime.
Proof.
  induction k as [|c parent IH]; intros t e t' H k' n Hn; simpl in H.
  - destruct (t !! []) as [[]|] eqn:Hk; simplify_eq; [by left..|].
    destruct (decide (k' = [])) as [->|Hne].
    + rewrite lookup_insert_eq in Hn. right. congruence.
    + rewrite lookup_insert_ne in Hn by done. by left.
  - destruct (t !! (c :: parent)) as [[]|] eqn:Hk; simplify_eq; [by left..|].
    destruct (os.mkdirAll parent mtime t) as [[err|] t1] eqn:Hrec; simplify_eq.
    + by eapply IH.
    + destruct (decide (k' = c :: parent)) as [->|Hne].
      * rewrite lookup_insert_eq in Hn. right. congruence.
      * rewrite lookup_insert_ne in Hn by done. by eapply IH.
Qed.

Lemma suffix_cons_cases {A} (k' : list A) c parent :
  k' `suffix_of` c :: parent → k' = c :: parent ∨ k' `suffix_of` parent.
Proof.
  intros ([|a front] & H); simpl in H.
  - by left.
  - right. exists front. congruence.
Qed.

Lemma wellFormed_ancestors t k :
  wellFormed t → isDirAt t k → ∀ k', k' `suffix_of` k → isDirAt t k'.
Proof.
  intros Hwf. induction k as [|c parent IH]; intros Hk k' Hsuf.
  - apply suffix_nil_inv in Hsuf. by subst.
  - apply suffix_cons_cases in Hsuf as [->|Hsuf]; [done|].
    apply IH; [|done]. destruct Hk as (m & Hk). by eapply Hwf.
Qed.

(** After a successful [MkdirAll] the directory and all of its ancestors
    exist. *)
Lemma mkdirAll_creates k mtime : ∀ t t',
  wellFormed t → os.mkdirAll k mtime t = (None, t') →
  ∀ k', k' `suffix_of` k → isDirAt t' k'.
Proof.
  induction k as [|c parent IH]; intros t t' Hwf H k' Hsuf; simpl in H.
  - apply suffix_nil_inv in Hsuf. subst k'.
    destruct (t !! []) as [[]|] eqn:Hk; simplify_eq.
    + by eexists.
    + eexists. apply lookup_insert_eq.
  - destruct (t !! (c :: parent)) as [[]|] eqn:Hk; simplify_eq.
    + eapply wellFormed_ancestors; [done| |done]. by eexists.
    + destruct (os.mkdirAll parent mtime t) as [[err|] t1] eqn:Hrec; simplify_eq.
      apply suffix_cons_cases in Hsuf as [->|Hsuf].
      * eexists. apply lookup_insert_eq.
      * destruct (IH _ _ Hwf Hrec k' Hsuf) as (m & Hm).
        exists m. rewrite lookup_insert_ne; [done|].
        intros <-. apply suffix_length in Hsuf. simpl in Hsuf. lia.
Qed.

(** ** The operations of [Dir] on the tree *)

(** Two host states with the same tree, working directory and clock. *)
Definition sameStore (o o' : OS) : Prop :=
  tree o' = tree o ∧ cwd o' = cwd o ∧ now o' = now o.

Lemma sameStore_refl o : sameStore o o.
Proof. done. Qed.

Lemma sameStore_trans o1 o2 o3 : sameStore o1 o2 → sameStore o2 o3 → sameStore o1 o3.
Proof. intros (? & ? & ?) (? & ? & ?). split_and!; congruence. Qed.

Lemma resolve_cwd o o' p : cwd o' = cwd o → os.resolve o' p = os.resolve o p.
Proof. intros H. unfold os.resolve. by rewrite H. Qed.

Lemma os_Close_sameStore fd o : sameStore o (os.Close fd o).2.
Proof. unfold os.Close. by destruct (handles o !! fd). Qed.

Lemma os_Open_sameStore p o : sameStore o (os.Open p o).2.
Proof. unfold os.Open. by destruct (tree o !! os.resolve o p). Qed.

Lemma os_Create_ok p o fd o' :
  os.Create p o = (inl fd, o') →
  let k := os.resolve o p in
  tree o' = <[k := NFile [] (now o)]> (tree o) ∧
  cwd o' = cwd o ∧ now o' = now o ∧
  handles o' !! fd = Some {| ofKey := k; ofPos := 0 |} ∧
  ¬ isDirAt (tree o) k.
Proof.
  intros H. cbv zeta. unfold os.Create, os.newFd in H.
  generalize dependent (os.resolve o p). intros k H.
  destruct (tree o !! k) as [[data mt|mt]|] eqn:Hk.
  - simpl in H. simplify_eq. simpl.
    split_and!; [done..|apply lookup_insert_eq|].
    intros (m & Hm). congruence.
  - done.
  - destruct k as [|c parent]; [by destruct (tree o !! tail []) as [[]|]|].
    destruct (tree o !! tail (c :: parent)) as [[]|]; simpl in H; simplify_eq.
    simpl. split_and!; [done..|apply lookup_insert_eq|].
    intros (m & Hm). congruence.
Qed.

Lemma os_Create_fails p o err o' : os.Create p o = (inr err, o') → o' = o.
Proof.
  unfold os.Create. intros H.
  destruct (tree o !! os.resolve o p) as [[data mt|mt]|]; simplify_eq; [done|].
  destruct (os.resolve o p) as [|c parent];
    destruct (tree o !! tail _) as [[]|]; by simplify_eq.
Qed.

Lemma os_Create_dir p o m :
  tree o !! os.resolve o p = Some (NDir m) → os.Create p o = (inr os.EISDIR, o).
Proof. unfold os.Create. by intros ->. Qed.

Lemma os_Create_file p o data m :
  tree o !! os.resolve o p = Some (NFile data m) → ∃ fd o', os.Create p o = (inl fd, o').
Proof. unfold os.Create. intros ->. by eexists _, _. Qed.

Lemma writeAt_end acc data : os.writeAt acc (length acc) data = acc ++ data.
Proof.
  unfold os.writeAt. rewrite firstn_all, Nat.sub_diag. simpl.
  rewrite drop_ge by lia. by rewrite app_nil_r.
Qed.

Section DirCopy.
Variable d : gostring.

(** Copying the chunks of a body into a file open at its end appends
    them. *)
Lemma Dir_copyChunks (fd : nat) (k : list gostring) (cs : list gostring) :
  ∀ (e : Env (Dir d)) acc mt,
    handles (backend e) !! fd = Some {| ofKey := k; ofPos := length acc |} →
    tree (backend e) !! k = Some (NFile acc mt) →
    ∃ e' mt',
      copyChunks (B:=Dir d) fd cs e = (None, e') ∧
      tree (backend e') = <[k := NFile (acc ++ concat cs) mt']> (tree (backend e)) ∧
      cwd (backend e') = cwd (backend e) ∧ now (backend e') = now (backend e) ∧
      w e' = w e ∧
      (∃ ws, calls e' = calls e ++ ws).
Proof.
  induction cs as [|c rest IH]; intros e acc mt Hfd Hk; simpl.
  - exists e, mt. rewrite app_nil_r. split_and!; [done| |done..|by exists []; rewrite app_nil_r].
    by rewrite insert_id.
  - case_bool_decide as Hlen.
    + unfold bind at 1. unfold fWrite, call. simpl.
      unfold os.Write. rewrite Hfd. simpl. rewrite Hk. simpl.
      rewrite bool_decide_eq_true_2 by done.
      rewrite writeAt_end.
      match goal with |- context [copyChunks fd rest ?e1] =>
        destruct (IH e1 (acc ++ c) (now (backend e))) as (e' & mt' & Hrun & Ht & Hc & Hn & Hw & (ws & Hcalls))
      end.
      { simpl. rewrite lookup_insert_eq. by rewrite length_app. }
      { simpl. by rewrite lookup_insert_eq. }
      exists e', mt'. rewrite Hrun. simpl in *.
      split_and!; [done| |done..|].
      * rewrite Ht, insert_insert_eq. by rewrite <- app_assoc.
      * exists ([CallWrite (B:=Dir d) fd c] ++ ws). by rewrite Hcalls, <- app_assoc.
    + assert (c = []) as -> by (destruct c; [done|simpl in Hlen; lia]).
      simpl. by eapply IH.
Qed.
End DirCopy.

Section DirHandlers.
Variables (d prefix : gostring) (listDir : bool).

#[local] Abbreviation srv := (dirServer d prefix listDir).

(** Whether the cleaned name is an entry of the tree. *)
Definition entryAt (o : OS) (p : gostring) : option Node :=
  match sanitizePath unix d p with
  | inl hp => tree o !! os.resolve o hp
  | inr _ => None
  end.

Lemma entryAt_sameStore o o' p : sameStore o o' → entryAt o' p = entryAt o p.
Proof.
  intros (Ht & Hc & _). unfold entryAt.
  destruct (sanitizePath unix d p); [|done]. by rewrite Ht, (resolve_cwd o o').
Qed.

Lemma Dir_pathExists (p : gostring) (e : Env (Dir d)) :
  ∃ e2 : Env (Dir d),
        pathExists srv p e = (bool_decide (is_Some (entryAt (backend e) p)), e2) ∧
        sameStore (backend e) (backend e2) ∧ w e2 = w e.
Proof.
  rewrite pathExists_run. change (Fs srv) with (Dir d).
  change (Open (Dir d)) with (Dir_Open d). change (Close (Dir d)) with os.Close.
  unfold entryAt, Dir_Open.
  destruct (sanitizePath unix d p) as [hp|err].
  - unfold os.Open. cbv zeta.
    destruct (tree (backend e) !! os.resolve (backend e) hp) as [n|] eqn:Hn.
    + cbn [os.newFd]. eexists. rewrite bool_decide_eq_true_2 by done.
      split; [reflexivity|]. split; [|done]. cbn [backend].
      eapply sameStore_trans; [|apply os_Close_sameStore]. done.
    + eexists. rewrite bool_decide_eq_false_2 by (by intros [? ?]).
      split; [reflexivity|done].
  - eexists. rewrite bool_decide_eq_false_2 by (by intros [? ?]).
    split; [reflexivity|done].
Qed.

Lemma Dir_pathIsDirectory (p : gostring) (e : Env (Dir d)) :
  ∃ e2 : Env (Dir d),
        pathIsDirectory srv p e
          = (match entryAt (backend e) p with
             | Some (NDir _) => true
             | _ => false
             end, e2) ∧
        sameStore (backend e) (backend e2) ∧ w e2 = w e.
Proof.
  rewrite pathIsDirectory_run. change (Fs srv) with (Dir d).
  change (Open (Dir d)) with (Dir_Open d). change (Close (Dir d)) with os.Close.
  change (Stat (Dir d)) with os.Stat.
  unfold entryAt, Dir_Open.
  destruct (sanitizePath unix d p) as [hp|err];
    [|eexists; split; [reflexivity|done]].
  unfold os.Open. cbv zeta.
  destruct (tree (backend e) !! os.resolve (backend e) hp) as [n|] eqn:Hn;
    [|eexists; split; [reflexivity|done]].
  cbn [os.newFd]. eexists. split; [|split].
  - apply (f_equal2 pair); [|reflexivity].
    unfold os.Stat. simpl. rewrite lookup_insert_eq. simpl.
    rewrite Hn. by destruct n.
  - cbn [backend]. rewrite os_Stat_state.
    eapply sameStore_trans; [|apply os_Close_sameStore]. done.
  - done.
Qed.

(** [Create] and the copy of the body, on [Dir]. *)
Lemma Dir_create_copy (p : gostring) (src : Reader) (e2 : Env (Dir d)) :
  match Create (Dir d) p (backend e2) with
  | (inr _, st3) =>
      st3 = backend e2
  | (inl file, st3) =>
      ∃ hp (e4 : Env (Dir d)) mt,
        sanitizePath unix d p = inl hp ∧
        ¬ isDirAt (tree (backend e2)) (os.resolve (backend e2) hp) ∧
        ioCopy file src (logged (CallCreate p) st3 e2) = (readErr src, e4) ∧
        tree (backend e4)
          = <[os.resolve (backend e2) hp := NFile (concat (chunks src)) mt]>
              (tree (backend e2)) ∧
        cwd (backend e4) = cwd (backend e2) ∧
        now (backend e4) = now (backend e2) ∧
        w e4 = w e2
  end.
Proof.
  simpl. unfold Dir_Create.
  destruct (sanitizePath unix d p) as [hp|err]; [|done].
  destruct (os.Create hp (backend e2)) as [[fd|err] st3] eqn:Hc.
  - apply os_Create_ok in Hc as (Ht & Hcwd & Hnow & Hfd & Hnd).
    destruct (Dir_copyChunks d fd (os.resolve (backend e2) hp) (chunks src)
                (logged (B:=Dir d) (CallCreate p) st3 e2) [] (now (backend e2)))
      as (e4 & mt & Hrun & Ht4 & Hc4 & Hn4 & Hw4 & _).
    { done. }
    { simpl. rewrite Ht. apply lookup_insert_eq. }
    exists hp, e4, mt. unfold ioCopy, bind. rewrite Hrun. simpl in *.
    split_and!; [done|done|by destruct (readErr src)| |congruence..|done].
    rewrite Ht4, Ht. by rewrite insert_insert_eq.
  - by apply os_Create_fails in Hc.
Qed.

Lemma fClose_frame (fd : nat) (e : Env (Dir d)) :
  sameStore (backend e) (backend (fClose (B:=Dir d) fd e).2) ∧
  w (fClose (B:=Dir d) fd e).2 = w e.
Proof.
  unfold fClose, call. simpl.
  pose proof (os_Close_sameStore fd (backend e)).
  by destruct (os.Close fd (backend e)).
Qed.
End DirHandlers.

Section DirPut.
Variables (d prefix : gostring) (listDir : bool).

#[local] Abbreviation srv := (dirServer d prefix listDir).

Lemma not_succeeded_405 : ¬ succeeded StatusMethodNotAllowed.
Proof. unfold succeeded, StatusMethodNotAllowed. lia. Qed.

Lemma not_succeeded_409 : ¬ succeeded StatusConflict.
Proof. unfold succeeded, StatusConflict. lia. Qed.

(** What the last part of a PUT does to the host, on a fresh response
    writer: the answer is 2xx only if the file was created and the body
    copied in full, and then the file holds the body; directories stay. *)
Definition tailEffect (p : gostring) (src : Reader) (existed : bool)
    (e2 e' : Env (Dir d)) : Prop :=
  (succeeded (http.status (w e')) →
   ∃ hp mt,
     sanitizePath unix d p = inl hp ∧
     http.status (w e') = (if existed then StatusNoContent else StatusCreated) ∧
     tree (backend e') !! os.resolve (backend e2) hp
       = Some (NFile (concat (chunks src)) mt)) ∧
  (∀ hp m, sanitizePath unix d p = inl hp →
     tree (backend e2) !! os.resolve (backend e2) hp = Some (NDir m) →
     http.status (w e') = StatusConflict ∧ tree (backend e') = tree (backend e2)) ∧
  (∀ k m, tree (backend e2) !! k = Some (NDir m) →
          tree (backend e') !! k = Some (NDir m)) ∧
  cwd (backend e') = cwd (backend e2).

Lemma tailEffect_fail (p : gostring) (src : Reader) (existed : bool)
    (e2 e' : Env (Dir d)) :
  http.status (w e') = StatusConflict →
  tree (backend e') = tree (backend e2) →
  cwd (backend e') = cwd (backend e2) →
  tailEffect p src existed e2 e'.
Proof.
  intros Hst Ht Hc. unfold tailEffect. split_and!; [|done| |done].
  - rewrite Hst. intros H. by apply not_succeeded_409 in H.
  - intros k m. by rewrite Ht.
Qed.

Lemma putTail_Dir (p : gostring) (src : Reader) (existed : bool) (e2 : Env (Dir d)) :
  w e2 = newResponse →
  tailEffect p src existed e2 (putTail1 srv p src existed e2) ∧
  tailEffect p src existed e2 (putTail2 srv p src existed e2).
Proof.
  intros Hw2. unfold putTail1, putTail2. change (Fs srv) with (Dir d).
  pose proof (Dir_create_copy d p src e2) as Hcc.
  destruct (Create (Dir d) p (backend e2)) as [[file|err] st3] eqn:Hcreate.
  2:{ subst st3. split; apply tailEffect_fail; unfold answer, logged; simpl;
        by rewrite ?Hw2. }
  destruct Hcc as (hp & e4 & mt & Hsan & Hnd & -> & Ht & Hc & Hn & Hw4).
  assert (∀ k m, tree (backend e2) !! k = Some (NDir m) →
                 tree (backend e4) !! k = Some (NDir m)) as Hdirs.
  { intros k m Hk. rewrite Ht, lookup_insert_ne; [done|].
    intros <-. apply Hnd. by exists m. }
  assert (∀ hp' m, sanitizePath unix d p = inl hp' →
            tree (backend e2) !! os.resolve (backend e2) hp' = Some (NDir m) → False)
    as Hnodir.
  { intros hp' m Hsan' Hk. rewrite Hsan in Hsan'. simplify_eq.
    apply Hnd. by exists m. }
  assert (∀ code (e5 : Env (Dir d)),
            sameStore (backend e4) (backend e5) → w e5 = http.WriteHeader code (w e4) →
            ((succeeded code → code = if existed then StatusNoContent else StatusCreated) →
             tailEffect p src existed e2 e5)) as Hfin.
  { intros code e5 (Ht5 & Hc5 & _) Hw5 Hcode.
    assert (http.status (w e5) = code) as Hst
      by (by rewrite Hw5, Hw4, Hw2).
    unfold tailEffect. rewrite Hst. split_and!.
    - intros Hok. exists hp, mt. split_and!; [done|by apply Hcode|].
      rewrite Ht5, Ht. apply lookup_insert_eq.
    - intros hp' m Hsan' Hk. exfalso. by eapply Hnodir.
    - intros k m Hk. rewrite Ht5. by apply Hdirs.
    - by rewrite Hc5. }
  destruct (readErr src) as [rerr|].
  - split.
    + pose proof (fClose_frame d file (answer StatusConflict e4)) as (Hs & Hwc).
      apply (Hfin StatusConflict); [done|done|].
      intros H. by apply not_succeeded_409 in H.
    + pose proof (fClose_frame d file (answer StatusConflict e4)) as (Hs & Hwc).
      pose proof (fClose_frame d file (fClose (B:=Dir d) file (answer StatusConflict e4)).2)
        as (Hs' & Hwc').
      apply (Hfin StatusConflict);
        [by eapply sameStore_trans|by rewrite Hwc', Hwc|].
      intros H. by apply not_succeeded_409 in H.
  - pose proof (fClose_frame d file
                  (answer (if existed then StatusNoContent else StatusCreated) e4))
      as (Hs & Hwc).
    split; by apply (Hfin (if existed then StatusNoContent else StatusCreated)).
Qed.
End DirPut.

Section DirPutOnce.
Variables (d prefix : gostring) (listDir : bool).

#[local] Abbreviation srv := (dirServer d prefix listDir).

Lemma Dir_Mkdir_facts (name : gostring) (o : OS) :
  let o1 := (Dir_Mkdir d name o).2 in
  cwd o1 = cwd o ∧ now o1 = now o ∧
  (∀ k n, tree o !! k = Some n → tree o1 !! k = Some n) ∧
  (∀ k n, tree o1 !! k = Some n → tree o !! k = Some n ∨ ∃ m, n = NDir m).
Proof.
  unfold Dir_Mkdir. destruct (sanitizePath unix d name) as [hp|err].
  - unfold os.MkdirAll.
    destruct (os.mkdirAll (os.resolve o hp) (now o) (tree o)) as [e t] eqn:Hm.
    simpl. split_and!; [done..| |].
    + intros k n. by eapply mkdirAll_keeps.
    + intros k n Hn. eapply mkdirAll_adds_dirs in Hn; [|done].
      destruct Hn as [Hn|Hn]; [by left|]. right. by eexists.
  - simpl. split_and!; [done..|]. intros k n. by left.
Qed.

(** A PUT that succeeds, in either revision: the status tells whether
    the path was an entry before, and the file then holds the body. *)
Definition putOnce (e' : Env (Dir d)) (p : gostring) (src : Reader) (o : OS) : Prop :=
  succeeded (http.status (w e')) →
  ∃ hp mt,
    sanitizePath unix d p = inl hp ∧
    http.status (w e') = (if bool_decide (is_Some (entryAt d o p))
                          then StatusNoContent else StatusCreated) ∧
    tree (backend e') !! os.resolve o hp = Some (NFile (concat (chunks src)) mt) ∧
    cwd (backend e') = cwd o.

Lemma Rev2_put_once (r : Request) (o : OS) :
  putOnce (Rev2.doPut srv r (start (B:=Dir d) o)).2 (url2path srv (Url r)) (Body r) o.
Proof.
  unfold putOnce. rewrite Rev2_doPut_run by done.
  set (p := url2path srv (Url r)). change (Fs srv) with (Dir d).
  destruct (Dir_pathIsDirectory d prefix listDir p (start (B:=Dir d) o))
    as (e1 & -> & Hs1 & Hw1).
  destruct (match entryAt d (backend (start (B:=Dir d) o)) p with
            | Some (NDir _) => true
            | _ => false
            end).
  { intros H. exfalso. apply not_succeeded_405. revert H.
    unfold answer. simpl. by rewrite Hw1. }
  destruct (Dir_pathExists d prefix listDir p e1) as (e2 & -> & Hs2 & Hw2).
  rewrite (entryAt_sameStore d _ _ p Hs1). simpl backend.
  destruct (putTail_Dir d prefix listDir p (Body r)
              (bool_decide (is_Some (entryAt d o p))) e2)
    as (_ & Hsucc & _ & _ & Hcwd); [by rewrite Hw2, Hw1|].
  intros Hok. destruct (Hsucc Hok) as (hp & mt & Hsan & Hst & Ht).
  pose proof (sameStore_trans _ _ _ Hs1 Hs2) as (Ht2 & Hc2 & _).
  simpl in Ht2, Hc2.
  assert (os.resolve (backend e2) hp = os.resolve o hp) as Hres
    by (by apply resolve_cwd).
  rewrite Hres in Ht.
  exists hp, mt. split_and!; [done|done|done|congruence].
Qed.

Lemma Rev1_put_once (r : Request) (o : OS) :
  putOnce (Rev1.doPut srv r (start (B:=Dir d) o)).2 (url2path srv (Url r)) (Body r) o.
Proof.
  unfold putOnce. rewrite Rev1_doPut_run by done.
  set (p := url2path srv (Url r)). change (Fs srv) with (Dir d).
  set (e0 := (fsMkdir (B:=Dir d) (path.Dir p) (start (B:=Dir d) o)).2).
  assert (w e0 = newResponse ∧ backend e0 = (Dir_Mkdir d (path.Dir p) o).2)
    as (Hw0 & Hb0).
  { subst e0. unfold fsMkdir, call. simpl.
    by destruct (Dir_Mkdir d (path.Dir p) o). }
  pose proof (Dir_Mkdir_facts (path.Dir p) o) as (Hc0 & Hn0 & Hkeep & Hnew).
  rewrite <- Hb0 in Hc0, Hn0, Hkeep, Hnew.
  destruct (Dir_pathExists d prefix listDir p e0) as (e2 & -> & Hs2 & Hw2).
  destruct (putTail_Dir d prefix listDir p (Body r)
              (bool_decide (is_Some (entryAt d (backend e0) p))) e2)
    as ((Hsucc & Hisdir & _ & Hcwd) & _); [by rewrite Hw2, Hw0|].
  intros Hok. destruct (Hsucc Hok) as (hp & mt & Hsan & Hst & Ht).
  destruct Hs2 as (Ht2 & Hc2 & _).
  assert (os.resolve (backend e2) hp = os.resolve o hp) as Hres
    by (apply resolve_cwd; congruence).
  rewrite Hres in Ht.
  exists hp, mt. split_and!; [done| |done|congruence].
  rewrite Hst. unfold entryAt. rewrite Hsan.
  rewrite (resolve_cwd o (backend e0)) by done.
  destruct (tree o !! os.resolve o hp) as [n|] eqn:Hn.
  - rewrite (Hkeep _ _ Hn). by rewrite !bool_decide_eq_true_2.
  - destruct (tree (backend e0) !! os.resolve o hp) as [n'|] eqn:Hn'.
    + exfalso. destruct (Hnew _ _ Hn') as [?|(m & ->)]; [congruence|].
      destruct (Hisdir hp m Hsan) as (H409 & _); [by rewrite Ht2, Hres|].
      rewrite H409 in Hok. by apply not_succeeded_409 in Hok.
    + by rewrite !bool_decide_eq_false_2 by (by intros [? ?]).
Qed.
End DirPutOnce.

(** * PUT on a directory *)

(** C2 (as amended).  PUT on a path that is a directory, on a server that
    is not read-only.  The second revision answers 405 after it has opened,
    stat'ed and closed the path: no [Create], no [Mkdir], no [Write], and
    what the backend stores is unchanged.  The first revision, whose
    directory test is commented out, does not answer 405: it calls [Mkdir]
    on the parent, probes, calls [Create], and answers 409, 204 or 201. *)
Theorem doPut_on_directory (s : Server) (P : Probing (Fs s)) (r : Request)
    (st : fsState (Fs s)) (e1 : Env (Fs s)) :
  ReadOnly s = false →
  let p := url2path s (Url r) in
  pathIsDirectory s p (start st) = (true, e1) →
  (let e' := (Rev2.doPut s r (start st)).2 in
   http.status (w e') = StatusMethodNotAllowed ∧
   Forall (λ c, mutates c = false) (calls e') ∧
   contentsOf (backend e') = contentsOf st) ∧
  (let e' := (Rev1.doPut s r (start st)).2 in
   (http.status (w e') = StatusConflict ∨
    http.status (w e') = StatusNoContent ∨
    http.status (w e') = StatusCreated) ∧
   ∃ mid rest, calls e' = CallMkdir (path.Dir p) :: mid ++ CallCreate p :: rest).
Proof.
  intros Hro p Hdir. split.
  - cbv zeta. rewrite Rev2_doPut_run by done. fold p. rewrite Hdir.
    pose proof (pathIsDirectory_frame s p (start st)) as (Hw & (cs & Hc & Hm) & Hk).
    rewrite Hdir in Hw, Hc, Hk. simpl in Hw, Hc, Hk.
    unfold answer. simpl. split_and!.
    + by rewrite Hw.
    + by rewrite Hc.
    + apply Hk.
  - cbv zeta. rewrite Rev1_doPut_run by done. fold p.
    set (e0 := (fsMkdir (path.Dir p) (start st)).2).
    assert (w e0 = newResponse ∧ calls e0 = [CallMkdir (path.Dir p)]) as (Hw0 & Hc0).
    { subst e0. unfold fsMkdir, call. simpl.
      by destruct (Mkdir (Fs s) (path.Dir p) st). }
    pose proof (pathExists_frame s p e0) as (Hw1 & (cs & Hc1 & _) & _).
    destruct (pathExists s p e0) as [existed e2]. simpl in Hw1, Hc1.
    pose proof (putTail1_frame s p (Body r) existed e2)
      as ((code & Hw2 & Hcode) & rest & Hc2).
    split.
    + rewrite Hw2, Hw1, Hw0. simpl.
      destruct Hcode as [->| [->| ->]]; auto.
    + exists cs, rest. by rewrite Hc2, Hc1, Hc0.
Qed.

Lemma doPut_on_directory_witness :
  ReadOnly sampleServer = false ∧
  (pathIsDirectory sampleServer (str "docs") (start (B:=Fs sampleServer) sampleOS)).1
    = true ∧
  http.status (w (Rev2.doPut sampleServer (sampleRequest "PUT" "/dav/docs" [str "x"])
                    (start (B:=Fs sampleServer) sampleOS)).2)
    = StatusMethodNotAllowed ∧
  tree (backend (Rev2.doPut sampleServer (sampleRequest "PUT" "/dav/docs" [str "x"])
                   (start (B:=Fs sampleServer) sampleOS)).2) = sampleTree.
Proof.
  split; [reflexivity|]. split; [reflexivity|].
  pose proof (doPut_on_directory sampleServer (Dir_probing (str "/srv/dav"))
                (sampleRequest "PUT" "/dav/docs" [str "x"]) sampleOS _
                eq_refl eq_refl) as ((Hs & _ & Hk) & _).
  split; [exact Hs|exact Hk].
Defined.

(** The first revision on the sample installation: PUT on the directory
    [docs] is answered with 409, not 405, and PUT on [docs/new/..] , which
    names the same directory, adds the directory [docs/new] to it. *)
Lemma doPut_on_directory_first_revision :
  (pathIsDirectory sampleServer (str "docs") (start (B:=Fs sampleServer) sampleOS)).1
    = true ∧
  http.status (w (Rev1.doPut sampleServer (sampleRequest "PUT" "/dav/docs" [str "x"])
                    (start (B:=Fs sampleServer) sampleOS)).2)
    = StatusConflict ∧
  (pathIsDirectory sampleServer (str "docs/new/..") (start (B:=Fs sampleServer) sampleOS)).1
    = true ∧
  sampleTree !! [str "new"; str "docs"; str "dav"; str "srv"] = None ∧
  tree (backend (Rev1.doPut sampleServer
                   (sampleRequest "PUT" "/dav/docs/new/.." [str "x"])
                   (start (B:=Fs sampleServer) sampleOS)).2)
    !! [str "new"; str "docs"; str "dav"; str "srv"] = Some (NDir 2000).
Proof. vm_compute. done. Qed.

(** * PUT twice *)

Lemma put_once_both (d prefix : gostring) (listDir : bool)
    (doPut : ∀ s : Server, Request → M (Fs s) unit) (r : Request) (o : OS) :
  doPut = Rev1.doPut ∨ doPut = Rev2.doPut →
  putOnce d (doPut (dirServer d prefix listDir) r (start (B:=Dir d) o)).2
    (url2path (dirServer d prefix listDir) (Url r)) (Body r) o.
Proof. intros [->| ->]; [apply Rev1_put_once|apply Rev2_put_once]. Qed.

(** C4.  On a [Dir] backend that accepts writes, in either revision: when
    the path does not exist, a PUT that succeeds answers 201; a second PUT
    to the same path that succeeds answers 204; and the file then holds
    exactly the bytes of the second body ([Create] truncates, the copy
    starts from an empty file). *)
Theorem put_twice (d prefix : gostring) (listDir : bool)
    (doPut : ∀ s : Server, Request → M (Fs s) unit) (r1 r2 : Request) (o : OS) :
  let s := dirServer d prefix listDir in
  let p := url2path s (Url r1) in
  let e1 := (putTwice doPut s r1 r2 o).1 in
  let e2 := (putTwice doPut s r1 r2 o).2 in
  doPut = Rev1.doPut ∨ doPut = Rev2.doPut →
  url2path s (Url r2) = p →
  (pathExists s p (start (B:=Dir d) o)).1 = false →
  succeeded (http.status (w e1)) →
  succeeded (http.status (w e2)) →
  http.status (w e1) = StatusCreated ∧
  http.status (w e2) = StatusNoContent ∧
  ∃ hp mt, sanitizePath unix d p = inl hp ∧
           tree (backend e2) !! os.resolve o hp
             = Some (NFile (concat (chunks (Body r2))) mt).
Proof.
  intros s p e1 e2 Hrev Hsame Hnew Hok1 Hok2.
  subst e1 e2 p s. unfold putTwice in *. cbn [fst snd] in *.
  change (Fs (dirServer d prefix listDir)) with (Dir d) in *.
  set (s := dirServer d prefix listDir) in *.
  pose proof (put_once_both d prefix listDir doPut r1 o Hrev) as H1.
  pose proof (put_once_both d prefix listDir doPut r2
                (backend (doPut s r1 (start (B:=Dir d) o)).2) Hrev) as H2.
  fold s in H1, H2. change (Fs s) with (Dir d) in *. rewrite Hsame in H2.
  destruct (H1 Hok1) as (hp & mt1 & Hsan & Hst1 & Ht1 & Hc1).
  destruct (H2 Hok2) as (hp' & mt2 & Hsan' & Hst2 & Ht2 & Hc2).
  assert (hp' = hp) as -> by congruence.
  destruct (Dir_pathExists d prefix listDir (url2path s (Url r1)) (start (B:=Dir d) o))
    as (ex & Hex & _).
  fold s in Hex. rewrite Hex in Hnew. simpl in Hnew.
  split_and!.
  - rewrite Hst1. by rewrite Hnew.
  - rewrite Hst2. rewrite bool_decide_eq_true_2; [done|].
    unfold entryAt. rewrite Hsan.
    rewrite (resolve_cwd o _ hp Hc1). by rewrite Ht1.
  - exists hp, mt2. split; [done|].
    rewrite <- (resolve_cwd o _ hp Hc1). exact Ht2.
Qed.

Lemma put_twice_witness :
  let s := dirServer (str "/srv/dav") (str "/dav") false in
  let r1 := sampleRequest "PUT" "/dav/docs/new.txt" [str "hello "; str "world"] in
  let r2 := sampleRequest "PUT" "/dav/docs/new.txt" [str "xy"] in
  let e1 := (putTwice Rev2.doPut s r1 r2 sampleOS).1 in
  let e2 := (putTwice Rev2.doPut s r1 r2 sampleOS).2 in
  (pathExists s (str "docs/new.txt") (start (B:=Fs s) sampleOS)).1 = false ∧
  succeeded (http.status (w e1)) ∧
  succeeded (http.status (w e2)) ∧
  http.status (w e1) = StatusCreated ∧
  http.status (w e2) = StatusNoContent ∧
  ∃ hp mt, sanitizePath unix (str "/srv/dav") (str "docs/new.txt") = inl hp ∧
           tree (backend e2) !! os.resolve sampleOS hp = Some (NFile (str "xy") mt).
Proof.
  intros s r1 r2 e1 e2.
  assert ((pathExists s (str "docs/new.txt") (start (B:=Fs s) sampleOS)).1 = false)
    as Hnew by reflexivity.
  assert (succeeded (http.status (w e1))) as Hok1
    by (vm_compute; split; repeat constructor).
  assert (succeeded (http.status (w e2))) as Hok2
    by (vm_compute; split; repeat constructor).
  split; [exact Hnew|]. split; [exact Hok1|]. split; [exact Hok2|].
  exact (put_twice (str "/srv/dav") (str "/dav") false Rev2.doPut r1 r2 sampleOS
           (or_intror eq_refl) eq_refl Hnew Hok1 Hok2).
Defined.

(** * PUT creates the parent directories (first revision) *)

Lemma wellFormedb_sound t : wellFormedb t = true → wellFormed t.
Proof.
  unfold wellFormedb, wellFormed. intros H c k n Hn.
  rewrite forallb_forall in H.
  specialize (H (c :: k, n)). simpl in H.
  destruct (t !! k) as [[|m]|]; [| by exists m|].
  - discriminate H. apply list_elem_of_In. by apply elem_of_map_to_list.
  - discriminate H. apply list_elem_of_In. by apply elem_of_map_to_list.
Qed.

(** C10.  In the first revision, a PUT on a server that accepts writes
    first calls [Mkdir] on [path.Dir] of the resolved path, before it
    probes and before it calls [Create].  On [Dir] this is [os.MkdirAll]:
    when it reports success, the directory and every ancestor of it exist
    afterwards; and every directory that exists after [Mkdir] still exists
    when the handler returns, whatever the status (also when [Create] or
    the copy of the body fails). *)
Theorem doPut_makes_parents (d prefix : gostring) (listDir : bool)
    (r : Request) (o : OS) (hp : gostring) :
  let s := dirServer d prefix listDir in
  let p := url2path s (Url r) in
  let e' := (Rev1.doPut s r (start (B:=Dir d) o)).2 in
  let o1 := (Mkdir (Dir d) (path.Dir p) o).2 in
  wellFormed (tree o) →
  sanitizePath unix d (path.Dir p) = inl hp →
  (Mkdir (Dir d) (path.Dir p) o).1 = None →
  (∃ mid rest,
     calls e' = CallMkdir (path.Dir p) :: mid ++ CallCreate p :: rest ∧
     Forall (λ c, mutates c = false) mid) ∧
  (∀ k, k `suffix_of` os.resolve o hp → isDirAt (tree o1) k) ∧
  (∀ k, isDirAt (tree o1) k → isDirAt (tree (backend e')) k).
Proof.
  intros s p e' o1 Hwf Hsan Hok. subst e' o1.
  rewrite Rev1_doPut_run by done. fold s p.
  change (Fs s) with (Dir d) in *.
  set (e0 := (fsMkdir (B:=Dir d) (path.Dir p) (start (B:=Dir d) o)).2).
  assert (w e0 = newResponse ∧ calls e0 = [CallMkdir (path.Dir p)] ∧
          backend e0 = (Mkdir (Dir d) (path.Dir p) o).2) as (Hw0 & Hc0 & Hb0).
  { subst e0. unfold fsMkdir, call. simpl.
    by destruct (Dir_Mkdir d (path.Dir p) o). }
  rewrite <- Hb0.
  pose proof (pathExists_frame s p e0) as (Hw1 & (cs & Hc1 & Hm1) & _).
  destruct (Dir_pathExists d prefix listDir p e0) as (e2 & Hex & Hs2 & Hw2).
  fold s in Hex. change (Fs s) with (Dir d) in *. rewrite Hex in *.
  simpl in Hw1, Hc1.
  pose proof (putTail1_frame s p (Body r)
                (bool_decide (is_Some (entryAt d (backend e0) p))) e2)
    as (_ & rest & Hc2).
  destruct (putTail_Dir d prefix listDir p (Body r)
              (bool_decide (is_Some (entryAt d (backend e0) p))) e2)
    as ((_ & _ & Hdirs & _) & _); [by rewrite Hw2, Hw0|].
  fold s in Hdirs. change (Fs s) with (Dir d) in *.
  split_and!.
  - exists cs, rest. split; [|done]. by rewrite Hc2, Hc1, Hc0.
  - intros k Hk. rewrite Hb0. clear -Hwf Hsan Hok Hk.
    simpl in *. unfold Dir_Mkdir in *. rewrite Hsan in *.
    unfold os.MkdirAll in *.
    destruct (os.mkdirAll (os.resolve o hp) (now o) (tree o)) as [err t] eqn:Hm.
    simpl in *. subst err. by eapply mkdirAll_creates.
  - intros k (m & Hk). exists m. apply Hdirs.
    destruct Hs2 as (-> & _). done.
Qed.

Lemma doPut_makes_parents_witness :
  let s := dirServer (str "/srv/dav") (str "/dav") false in
  let e' := (Rev1.doPut s sampleBrokenPut (start (B:=Fs s) sampleOS)).2 in
  wellFormed (tree sampleOS) ∧
  sanitizePath unix (str "/srv/dav") (path.Dir (str "x/y/z.txt")) = inl (str "/srv/dav/x/y") ∧
  (Mkdir (Dir (str "/srv/dav")) (path.Dir (str "x/y/z.txt")) sampleOS).1 = None ∧
  sampleTree !! [str "x"; str "dav"; str "srv"] = None ∧
  http.status (w e') = StatusConflict ∧
  isDirAt (tree (backend e')) [str "y"; str "x"; str "dav"; str "srv"] ∧
  isDirAt (tree (backend e')) [str "x"; str "dav"; str "srv"].
Proof.
  intros s e'.
  assert (wellFormed (tree sampleOS)) as Hwf
    by (apply wellFormedb_sound; vm_compute; reflexivity).
  assert (sanitizePath unix (str "/srv/dav") (path.Dir (str "x/y/z.txt"))
          = inl (str "/srv/dav/x/y")) as Hsan by (vm_compute; reflexivity).
  assert ((Mkdir (Dir (str "/srv/dav")) (path.Dir (str "x/y/z.txt")) sampleOS).1 = None)
    as Hok by (vm_compute; reflexivity).
  destruct (doPut_makes_parents (str "/srv/dav") (str "/dav") false sampleBrokenPut
              sampleOS (str "/srv/dav/x/y") Hwf Hsan Hok) as (_ & Hmade & Hstay).
  split_and!; [exact Hwf|exact Hsan|exact Hok|vm_compute; reflexivity
              |vm_compute; reflexivity| |].
  - apply Hstay, Hmade. exists []. vm_compute. reflexivity.
  - apply Hstay, Hmade. exists [str "y"]. vm_compute. reflexivity.
Defined.

(** * GET and HEAD *)

Section Quiet.
Context {B : FileSystem}.

(** A computation that closes no handle. *)
Definition quiet {A} (m : M B A) : Prop :=
  ∀ e, closes (calls (m e).2) = closes (calls e).

Lemma quiet_ret {A} (a : A) : quiet (ret a).
Proof. done. Qed.

Lemma quiet_bind {A C} (m : M B A) (k : A → M B C) :
  quiet m → (∀ a, quiet (k a)) → quiet (bind m k).
Proof.
  intros Hm Hk e. unfold bind. specialize (Hm e).
  destruct (m e) as [a e1]. simpl in Hm. by rewrite Hk.
Qed.

Lemma quiet_respond f : quiet (respond (B:=B) f).
Proof. done. Qed.

Lemma quiet_getHeader : quiet (getHeader (B:=B)).
Proof. done. Qed.

Lemma quiet_call {A} (c : Call B) (op : fsState B → A * fsState B) :
  closes [c] = [] → quiet (call c op).
Proof.
  intros Hc e. unfold call. destruct (op (backend e)) as [a st]. simpl.
  unfold closes in *. by rewrite omap_app, Hc, app_nil_r.
Qed.

Definition quietRS (rs : ReadSeeker B) : Prop :=
  (∀ n, quiet (rsRead rs n)) ∧ (∀ a b, quiet (rsSeek rs a b)).

Lemma quiet_file (f : File B) : quietRS (fileReadSeeker f).
Proof. split; intros; by apply quiet_call. Qed.

Lemma quiet_emptyFile : quietRS emptyFile.
Proof. split; intros; apply quiet_ret. Qed.

Lemma quiet_readFull rs fuel : ∀ n, quietRS rs → quiet (readFull rs fuel n).
Proof.
  induction fuel as [|fuel IH]; intros n Hrs; simpl; [apply quiet_ret|].
  case_bool_decide; [apply quiet_ret|].
  apply quiet_bind; [apply Hrs|]. intros [chunk [err|]]; simpl.
  - apply quiet_ret.
  - apply quiet_bind; [by apply IH|]. intros ?. apply quiet_ret.
Qed.

Lemma quiet_copyN rs fuel : ∀ n, quietRS rs → quiet (copyN rs fuel n).
Proof.
  induction fuel as [|fuel IH]; intros n Hrs; simpl; [apply quiet_ret|].
  case_bool_decide; [apply quiet_ret|].
  apply quiet_bind; [apply Hrs|]. intros [chunk [err|]]; simpl.
  - apply quiet_bind; [apply quiet_respond|]. intros ?. apply quiet_ret.
  - apply quiet_bind; [apply quiet_respond|]. intros ?. by apply IH.
Qed.

Lemma quiet_setContentType lib name rs :
  quietRS rs → quiet (setContentType lib name rs).
Proof.
  intros Hrs. unfold setContentType, seekerCantSeek.
  apply quiet_bind; [apply quiet_getHeader|]. intros h.
  destruct (h !! str "Content-Type"); [apply quiet_ret|].
  case_bool_decide.
  - apply quiet_bind; [by apply quiet_readFull|]. intros buf.
    apply quiet_bind; [apply Hrs|]. intros [pos [err|]]; simpl.
    + apply quiet_bind; [apply quiet_respond|]. intros ?. apply quiet_ret.
    + apply quiet_bind; [apply quiet_respond|]. intros ?. apply quiet_ret.
  - apply quiet_bind; [apply quiet_respond|]. intros ?. apply quiet_ret.
Qed.

(** [ServeContent] never closes what it serves. *)
Lemma quiet_ServeContent lib r name modtime rs :
  quietRS rs → quiet (ServeContent lib r name modtime rs).
Proof.
  intros Hrs. unfold ServeContent, seekerCantSeek.
  apply quiet_bind; [apply quiet_respond|]. intros _.
  destruct (http.checkIfModifiedSince r modtime); try apply quiet_respond.
  all: apply quiet_bind; [by apply quiet_setContentType|]; intros [|];
    [|apply quiet_ret];
    apply quiet_bind; [apply Hrs|]; intros [size [err|]]; simpl;
    [apply quiet_respond|];
    apply quiet_bind; [apply Hrs|]; intros [pos [err|]]; simpl;
    [apply quiet_respond|];
    case_bool_decide; [apply quiet_respond|];
    apply quiet_bind; [apply quiet_respond|]; intros _;
    apply quiet_bind; [apply quiet_getHeader|]; intros h;
    apply quiet_bind; [apply quiet_respond|]; intros _;
    apply quiet_bind; [apply quiet_respond|]; intros _;
    case_bool_decide;
    [apply quiet_ret
    |exact (quiet_copyN rs (S (Z.to_nat size)) (Z.to_nat size) Hrs)].
Qed.
End Quiet.

Lemma Error_fresh msg code :
  http.status (http.Error msg code newResponse) = code ∧
  body (http.Error msg code newResponse) = msg ++ [ascii_of_nat 10].
Proof. done. Qed.

Lemma serveResource_run (lib : Library) (s : Server) (r : Request)
    (serveContent : bool) (e : Env (Fs s)) :
  let p := url2path s (Url r) in
  (serveResource lib s r serveContent e).2 =
    match Open (Fs s) p (backend e) with
    | (inr _, st1) =>
        (respond (http.Error (RequestURI r) StatusNotFound)
           (logged (CallOpen p) st1 e)).2
    | (inl f, st1) =>
        match Stat (Fs s) f st1 with
        | (inr _, st2) =>
            (fClose f
               (respond (http.Error (RequestURI r) StatusNotFound)
                  (logged (CallStat f) st2 (logged (CallOpen p) st1 e))).2).2
        | (inl fi, st2) =>
            (fClose f
               (ServeContent lib r p (ModTime fi)
                  (if serveContent then fileReadSeeker f else emptyFile)
                  (logged (CallStat f) st2 (logged (CallOpen p) st1 e))).2).2
        end
    end.
Proof.
  intros p. unfold serveResource, logged. fold p.
  unfold bind at 1. unfold fsOpen at 1, call at 1.
  destruct (Open (Fs s) p (backend e)) as [[f|err] st1]; [|done].
  unfold bind at 1. unfold fStat at 1, call at 1. cbn [backend calls w].
  destruct (Stat (Fs s) f st1) as [[fi|err] st2].
  - unfold bind, ret. destruct serveContent;
      match goal with |- context [ServeContent ?a ?b ?c ?d ?rs ?e2] =>
        destruct (ServeContent a b c d rs e2) as [[] e3] end;
      cbn [snd]; by destruct (fClose f e3).
  - unfold bind, ret, respond. cbn [snd].
    match goal with |- context [fClose f ?e3] =>
      by destruct (fClose f e3) end.
Qed.

(** C9.  GET and HEAD: when the backend cannot open the path, or cannot
    stat the handle it opened, the answer is 404 and the body is the
    request URI followed by a newline.  Whenever a handle was opened it is
    closed exactly once, as the last backend call, on each of the three
    ways out (stat error, content served, headers only); when none was
    opened none is closed. *)
Theorem serveResource_missing_and_release (lib : Library) (s : Server)
    (r : Request) (serveContent : bool) (st : fsState (Fs s)) :
  let p := url2path s (Url r) in
  let e' := (serveResource lib s r serveContent (start st)).2 in
  match Open (Fs s) p st with
  | (inr _, _) =>
      http.status (w e') = StatusNotFound ∧
      body (w e') = RequestURI r ++ [ascii_of_nat 10] ∧
      closes (calls e') = []
  | (inl f, st1) =>
      closes (calls e') = [f] ∧
      last (calls e') = Some (CallClose f) ∧
      match (Stat (Fs s) f st1).1 with
      | inr _ =>
          http.status (w e') = StatusNotFound ∧
          body (w e') = RequestURI r ++ [ascii_of_nat 10]
      | inl fi =>
          e' = (fClose f
                  (ServeContent lib r p (ModTime fi)
                     (if serveContent then fileReadSeeker f else emptyFile)
                     (logged (CallStat f) (Stat (Fs s) f st1).2
                        (logged (CallOpen p) st1 (start st)))).2).2
      end
  end.
Proof.
  intros p e'. subst e'. rewrite serveResource_run. fold p. simpl backend.
  destruct (Open (Fs s) p st) as [[f|err] st1]; [|done].
  destruct (Stat (Fs s) f st1) as [[fi|err] st2]; cbn [fst snd].
  - set (rs := if serveContent then fileReadSeeker f else emptyFile).
    set (e2 := logged (CallStat f) st2 (logged (CallOpen p) st1 (start st))).
    assert (quietRS rs) as Hrs
      by (subst rs; destruct serveContent; [apply quiet_file|apply quiet_emptyFile]).
    pose proof (quiet_ServeContent lib r p (ModTime fi) rs Hrs e2) as Hq.
    pose proof (fClose_calls f (ServeContent lib r p (ModTime fi) rs e2).2) as (_ & Hc).
    split_and!; [|by rewrite Hc, last_snoc|done].
    rewrite Hc. unfold closes in *. by rewrite omap_app, Hq.
  - pose proof (fClose_calls f
        (respond (http.Error (RequestURI r) StatusNotFound)
           (logged (CallStat f) st2 (logged (CallOpen p) st1 (start st)))).2)
      as (Hw & Hc).
    split_and!; [by rewrite Hc|by rewrite Hc, last_snoc|by rewrite Hw|by rewrite Hw].
Qed.

(** * HEAD against GET *)

(** C6, at the file [docs/a.txt] of the sample installation (three bytes).
    GET and HEAD both answer 200 and HEAD sends no body, but the headers
    differ: [ServeContent] takes the length from the stream it is given,
    and for HEAD that stream is [emptyFile], so HEAD announces
    [Content-Length: 0] where GET announces [Content-Length: 3]. *)
Theorem head_headers_differ_from_get :
  let get := (doGet sampleLib sampleServer (sampleRequest "GET" "/dav/docs/a.txt" [])
                (start (B:=Fs sampleServer) sampleOS)).2 in
  let head := (doHead sampleLib sampleServer (sampleRequest "HEAD" "/dav/docs/a.txt" [])
                 (start (B:=Fs sampleServer) sampleOS)).2 in
  http.status (w get) = StatusOK ∧
  http.status (w head) = StatusOK ∧
  body (w get) = str "abc" ∧
  body (w head) = [] ∧
  http.sentHeaders (w get) !! str "Content-Length" = Some (str "3") ∧
  http.sentHeaders (w head) !! str "Content-Length" = Some (str "0") ∧
  http.sentHeaders (w get) !! str "Last-Modified"
    = http.sentHeaders (w head) !! str "Last-Modified".
Proof. vm_compute. done. Qed.

(** * [url2path] *)

Lemma TrimPrefix_length s prefix :
  length (strings.TrimPrefix s prefix) < length s ↔
  strings.HasPrefix s prefix = true ∧ prefix ≠ [].
Proof.
  unfold strings.TrimPrefix.
  assert (∀ s prefix, strings.HasPrefix s prefix = true → length prefix ≤ length s)
    as Hlen.
  { clear. induction s as [|c s IH]; intros [|d prefix]; simpl; intros H;
      [lia|done|lia|].
    apply andb_true_iff in H as [_ H]. specialize (IH _ H). lia. }
  destruct (strings.HasPrefix s prefix) eqn:Hp.
  - specialize (Hlen _ _ Hp). rewrite length_drop.
    destruct prefix; simpl in *; split; try lia.
    + by intros [_ ?].
    + done.
  - split; [lia|]. by intros [? _].
Qed.

(** What [url2path] computes: the prefix is stripped only when it is not
    empty. *)
Lemma url2path_cases (s : Server) (u : URL) :
  url2path s u =
    if bool_decide (Path u = []) then str "/"
    else if strings.HasPrefix (Path u) (TrimPrefix s)
            && negb (bool_decide (TrimPrefix s = []))
         then strings.Trim (drop (length (TrimPrefix s)) (Path u)) (str "/")
         else str "/".
Proof.
  unfold url2path. case_bool_decide; [done|].
  pose proof (TrimPrefix_length (Path u) (TrimPrefix s)) as Hl.
  case_bool_decide as Hlt.
  - apply Hl in Hlt as [Hp Hne]. unfold strings.TrimPrefix. rewrite Hp.
    by rewrite bool_decide_eq_false_2.
  - destruct (strings.HasPrefix (Path u) (TrimPrefix s)) eqn:Hp; [|done].
    case_bool_decide as He; [done|]. exfalso. apply Hlt, Hl. done.
Qed.

(** C3, for the server that [Handler] builds: its prefix is empty, so
    every URL path starts with the prefix; yet [url2path] maps every path
    to ["/"], where stripping the prefix and trimming the slashes would
    give, for ["/foo"], the path ["foo"]. *)
Theorem url2path_empty_prefix (root : FileSystem) (raw : gostring) :
  strings.HasPrefix raw (TrimPrefix (Handler root)) = true ∧
  url2path (Handler root) {| Path := raw |} = str "/" ∧
  strings.Trim (strings.TrimPrefix (str "/foo") (TrimPrefix (Handler root))) (str "/")
    = str "foo" ∧
  url2path (Handler root) {| Path := str "/foo" |} = str "/".
Proof.
  assert (url2path (Handler root) {| Path := raw |} = str "/") as H.
  { rewrite url2path_cases. simpl. case_bool_decide; [done|].
    by rewrite andb_false_r. }
  split_and!; [by destruct raw|done|done|done].
Qed.

(** With a prefix that is not empty, [url2path] is what the specification
    says. *)
Lemma url2path_nonempty_prefix (s : Server) (u : URL) :
  TrimPrefix s ≠ [] →
  url2path s u =
    if bool_decide (Path u = []) then str "/"
    else if strings.HasPrefix (Path u) (TrimPrefix s)
         then strings.Trim (drop (length (TrimPrefix s)) (Path u)) (str "/")
         else str "/".
Proof.
  intros Hne. rewrite url2path_cases.
  by rewrite (bool_decide_eq_false_2 (TrimPrefix s = [])), andb_true_r.
Qed.

Lemma url2path_nonempty_prefix_witness :
  TrimPrefix sampleServer ≠ [] ∧
  url2path sampleServer {| Path := str "/dav/docs/a.txt" |} = str "docs/a.txt" ∧
  url2path sampleServer {| Path := str "/other/a.txt" |} = str "/".
Proof.
  split; [done|].
  pose proof (url2path_nonempty_prefix sampleServer {| Path := str "/dav/docs/a.txt" |}
                ltac:(done)) as H1.
  pose proof (url2path_nonempty_prefix sampleServer {| Path := str "/other/a.txt" |}
                ltac:(done)) as H2.
  split; [exact H1|exact H2].
Defined.
(** * More of [constants.go] and [server.go] *)

(** ** [StatusText] *)

Definition StatusAccepted : nat := 202.
Definition StatusMovedPermanently : nat := 301.
Definition StatusMovedTemporarily : nat := 302.
Definition StatusUnauthorized : nat := 401.
Definition StatusNotImplemented : nat := 501.
Definition StatusPreconditionFailed : nat := 412.

(** extended status codes *)
Definition StatusMulti : nat := 207.
Definition StatusLocked : nat := 423.
Definition StatusFailedDependency : nat := 424.
Definition StatusInsufficientStorage : nat := 507.

Definition statusText : gmap Z gostring :=
  {[ Z.of_nat StatusMovedTemporarily := str "Moved Temporarily";
     Z.of_nat StatusMulti := str "Multi-Status";
     Z.of_nat StatusLocked := str "Locked";
     Z.of_nat StatusFailedDependency := str "Failed Dependency";
     Z.of_nat StatusInsufficientStorage := str "Insufficient Storage" ]}.

Section StatusText.
(** [http.StatusText], the table of the Go library. *)
Variable httpStatusText : Z → gostring.

Definition StatusText (code : Z) : gostring :=
  match statusText !! code with
  | Some t => t
  | None => httpStatusText code
  end.
End StatusText.

(** The codes that [constants.go] gives a text of its own. *)
Definition ownCodes : list Z := [207; 302; 423; 424; 507]%Z.

(** X1.  [StatusText] answers from the package's own table for the five
    codes 207, 302, 423, 424 and 507, whatever [http.StatusText] says about
    them (so 302 reads "Moved Temporarily"); for every other code,
    negative ones included, it is [http.StatusText].  Hence it returns the
    empty string exactly for the codes outside the table that the library
    does not know. *)
Theorem StatusText_table (httpStatusText : Z → gostring) (code : Z) :
  ((code ∈ ownCodes) →
   StatusText httpStatusText code = StatusText (λ _, []) code ∧
   StatusText httpStatusText code ≠ []) ∧
  ((code ∉ ownCodes) → StatusText httpStatusText code = httpStatusText code) ∧
  StatusText httpStatusText 302%Z = str "Moved Temporarily" ∧
  (StatusText httpStatusText code = [] ↔
   (code ∉ ownCodes) ∧ httpStatusText code = []).
Proof.
  assert (code ∈ ownCodes →
          StatusText httpStatusText code = StatusText (λ _, []) code ∧
          StatusText httpStatusText code ≠ []) as Hown.
  { unfold ownCodes. rewrite !elem_of_cons, elem_of_nil.
    intros [->|[->|[->|[->|[->|[]]]]]]; done. }
  assert (code ∉ ownCodes → StatusText httpStatusText code = httpStatusText code)
    as Hother.
  { unfold ownCodes. rewrite !not_elem_of_cons. intros (H1 & H2 & H3 & H4 & H5 & _).
    unfold StatusText, statusText.
    rewrite !lookup_insert_ne by (intros <-; done).
    by rewrite lookup_singleton_ne by (intros <-; done). }
  split_and!; [done|done|done|].
  destruct (decide (code ∈ ownCodes)) as [Hin|Hout].
  - split; [intros H; by apply Hown in H|by intros [? _]].
  - rewrite Hother by done. split; [done|by intros [_ ?]].
Qed.

Lemma StatusText_table_witness :
  (423%Z ∈ ownCodes) ∧
  StatusText (λ _, str "from net/http") 423%Z = str "Locked" ∧
  (200%Z ∉ ownCodes) ∧
  StatusText (λ _, str "from net/http") 200%Z = str "from net/http".
Proof.
  pose proof (proj1 (StatusText_table (λ _, str "from net/http") 423%Z)) as H1.
  pose proof (proj1 (proj2 (StatusText_table (λ _, str "from net/http") 200%Z))) as H2.
  assert (423%Z ∈ ownCodes) as Hin
    by (unfold ownCodes; rewrite !elem_of_cons; right; right; by left).
  assert (200%Z ∉ ownCodes) as Hout
    by (unfold ownCodes; rewrite !not_elem_of_cons; split_and!; try done;
        apply not_elem_of_nil).
  split; [exact Hin|]. split; [exact (proj1 (H1 Hin))|].
  split; [exact Hout|exact (H2 Hout)].
Defined.

(** ** [url2path] *)

Lemma HasPrefix_split s prefix :
  strings.HasPrefix s prefix = true → s = prefix ++ drop (length prefix) s.
Proof.
  revert s. induction prefix as [|c prefix IH]; intros s H; [done|].
  destruct s as [|d s]; [done|]. simpl in H.
  apply andb_true_iff in H as [Hc H]. apply bool_decide_eq_true in Hc as ->.
  simpl. f_equal. by apply IH.
Qed.

Lemma TrimLeft_split s cut :
  ∃ a, s = a ++ strings.TrimLeft s cut ∧ Forall (λ c, c ∈ cut) a ∧
       ∀ c, head (strings.TrimLeft s cut) = Some c → c ∉ cut.
Proof.
  induction s as [|c s (a & Hs & Ha & Hh)]; simpl.
  - exists []. done.
  - unfold strings.inCutset. case_bool_decide as Hc.
    + exists (c :: a). split_and!; [simpl; by f_equal|by constructor|done].
    + exists []. split_and!; [done|done|]. by intros ? [= <-].
Qed.

Lemma last_rev {A} (l : list A) : last (rev l) = head l.
Proof. destruct l as [|c l]; [done|]. simpl. by rewrite last_snoc. Qed.

Lemma TrimRight_split s cut :
  ∃ b, s = strings.TrimRight s cut ++ b ∧ Forall (λ c, c ∈ cut) b ∧
       ∀ c, last (strings.TrimRight s cut) = Some c → c ∉ cut.
Proof.
  unfold strings.TrimRight.
  destruct (TrimLeft_split (rev s) cut) as (a & Hs & Ha & Hh).
  exists (rev a). split_and!.
  - rewrite <- rev_app_distr, <- Hs. by rewrite rev_involutive.
  - by apply Forall_rev.
  - intros c Hc. apply Hh. by rewrite <- Hc, last_rev.
Qed.

Lemma Trim_split s cut :
  ∃ a b, s = a ++ strings.Trim s cut ++ b ∧
         Forall (λ c, c ∈ cut) a ∧ Forall (λ c, c ∈ cut) b ∧
         (∀ c, head (strings.Trim s cut) = Some c → c ∉ cut) ∧
         (∀ c, last (strings.Trim s cut) = Some c → c ∉ cut).
Proof.
  unfold strings.Trim.
  destruct (TrimRight_split s cut) as (b & Hs & Hb & Hl).
  destruct (TrimLeft_split (strings.TrimRight s cut) cut) as (a & Ht & Ha & Hh).
  exists a, b. split_and!; [|done..|].
  - rewrite Hs at 1. rewrite Ht at 1. by rewrite <- app_assoc.
  - intros c Hc. apply Hl. rewrite Ht.
    destruct (strings.TrimLeft (strings.TrimRight s cut) cut) as [|x t] eqn:Ht';
      [done|].
    by rewrite last_app, Hc.
Qed.

(** X2.  The path that [url2path] hands to the file system is either the
    fallback ["/"], or the URL path without the prefix and without the
    slashes around the rest: the URL path is the prefix, some slashes, the
    result, and some slashes again, and the result neither starts nor ends
    with a slash.  It may be empty (the URL path was the prefix itself). *)
Theorem url2path_shape (s : Server) (u : URL) :
  let p := url2path s u in
  p = str "/" ∨
  (TrimPrefix s ≠ [] ∧
   (∃ a b, Path u = TrimPrefix s ++ a ++ p ++ b ∧
           Forall (λ c, c = "/"%char) a ∧ Forall (λ c, c = "/"%char) b) ∧
   head p ≠ Some "/"%char ∧ last p ≠ Some "/"%char).
Proof.
  intros p. subst p. rewrite url2path_cases.
  case_bool_decide as Hempty; [by left|].
  destruct (strings.HasPrefix (Path u) (TrimPrefix s)) eqn:Hp; [|by left].
  case_bool_decide as Hpre; [by left|]. right. simpl.
  destruct (Trim_split (drop (length (TrimPrefix s)) (Path u)) (str "/"))
    as (a & b & Hs & Ha & Hb & Hh & Hl).
  assert (∀ l : gostring, Forall (λ c, c ∈ str "/") l → Forall (λ c, c = "/"%char) l)
    as Hcut.
  { intros l Hall. eapply Forall_impl; [done|]. intros c Hc. simpl in Hc.
    apply elem_of_cons in Hc as [->|Hc]; [done|]. by apply elem_of_nil in Hc. }
  split_and!; [done| | |].
  - exists a, b. split_and!; [|by apply Hcut..].
    rewrite (HasPrefix_split _ _ Hp) at 1. by rewrite Hs at 1.
  - intros Hc. apply Hh in Hc. apply Hc. by left.
  - intros Hc. apply Hl in Hc. apply Hc. by left.
Qed.

(** ** [ServeHTTP] *)

(** X3.  [ServeHTTP] knows the four methods GET, HEAD, DELETE and PUT, and
    compares the method byte for byte.  Any other method (the WebDAV
    methods PROPFIND and MKCOL, or a lower-case [get]) is answered with 400
    and an empty body, without a single call to the storage backend, in
    both revisions. *)
Theorem ServeHTTP_unknown_method (lib : Library) (s : Server) (r : Request)
    (st : fsState (Fs s)) :
  Method r ∉ [str "GET"; str "HEAD"; str "DELETE"; str "PUT"] →
  let rejected (e' : Env (Fs s)) :=
    http.status (w e') = StatusBadRequest ∧ body (w e') = [] ∧
    http.sentHeaders (w e') = ∅ ∧ calls e' = [] ∧ backend e' = st in
  rejected (Rev1.ServeHTTP lib s r (start st)).2 ∧
  rejected (Rev2.ServeHTTP lib s r (start st)).2.
Proof.
  rewrite !not_elem_of_cons. intros (H1 & H2 & H3 & H4 & _) rejected.
  unfold Rev1.ServeHTTP, Rev2.ServeHTTP.
  rewrite !bool_decide_eq_false_2 by done. done.
Qed.

Lemma ServeHTTP_unknown_method_witness :
  http.status (w (Rev2.ServeHTTP sampleLib sampleServer
                    (sampleRequest "MKCOL" "/dav/docs/new" [])
                    (start (B:=Fs sampleServer) sampleOS)).2) = StatusBadRequest ∧
  backend (Rev1.ServeHTTP sampleLib sampleServer
             (sampleRequest "get" "/dav/docs/a.txt" [])
             (start (B:=Fs sampleServer) sampleOS)).2 = sampleOS.
Proof.
  assert (∀ m : string,
            m ≠ "GET"%string → m ≠ "HEAD"%string → m ≠ "DELETE"%string →
            m ≠ "PUT"%string →
            str m ∉ [str "GET"; str "HEAD"; str "DELETE"; str "PUT"]) as Hnot.
  { intros m H1 H2 H3 H4. rewrite !not_elem_of_cons.
    assert (∀ a b : string, str a = str b → a = b) as Hinj.
    { intros a b Hab. rewrite <- (string_of_list_ascii_of_string a),
        <- (string_of_list_ascii_of_string b). unfold str in Hab. by rewrite Hab. }
    split_and!; try (intros Heq; apply Hinj in Heq; done). apply not_elem_of_nil. }
  split.
  - exact (proj1 (proj2 (ServeHTTP_unknown_method sampleLib sampleServer
                    (sampleRequest "MKCOL" "/dav/docs/new" []) sampleOS
                    (Hnot "MKCOL"%string ltac:(done) ltac:(done) ltac:(done) ltac:(done))))).
  - exact (proj2 (proj2 (proj2 (proj2 (proj1 (ServeHTTP_unknown_method sampleLib sampleServer
                    (sampleRequest "get" "/dav/docs/a.txt" []) sampleOS
                    (Hnot "get"%string ltac:(done) ltac:(done) ltac:(done) ltac:(done)))))))).
Defined.

(** ** Requests that only read *)

Section Tame.
Context {B : FileSystem}.
Variable I : fsState B → Prop.

(** A computation that makes no mutating call and keeps the invariant
    [I] of the backend state. *)
Definition tame {A} (m : M B A) : Prop :=
  ∀ e, I (backend e) →
    I (backend (m e).2) ∧
    ∃ cs, calls (m e).2 = calls e ++ cs ∧ Forall (λ c, mutates c = false) cs.

Lemma tame_ret {A} (a : A) : tame (ret a).
Proof. intros e He. split; [done|]. exists []. by rewrite app_nil_r. Qed.

Lemma tame_bind {A C} (m : M B A) (k : A → M B C) :
  tame m → (∀ a, tame (k a)) → tame (bind m k).
Proof.
  intros Hm Hk e He. unfold bind. destruct (Hm e He) as (H1 & cs1 & Hc1 & Hf1).
  destruct (m e) as [a e1]. simpl in *.
  destruct (Hk a e1 H1) as (H2 & cs2 & Hc2 & Hf2).
  split; [done|]. exists (cs1 ++ cs2). rewrite Hc2, Hc1, <- app_assoc.
  split; [done|]. by apply Forall_app.
Qed.

Lemma tame_respond f : tame (respond (B:=B) f).
Proof. intros e He. split; [done|]. exists []. by rewrite app_nil_r. Qed.

Lemma tame_getHeader : tame (getHeader (B:=B)).
Proof. intros e He. split; [done|]. exists []. by rewrite app_nil_r. Qed.

Lemma tame_call {A} (c : Call B) (op : fsState B → A * fsState B) :
  mutates c = false → (∀ st, I st → I (op st).2) → tame (call c op).
Proof.
  intros Hc Hop e He. unfold call. specialize (Hop _ He).
  destruct (op (backend e)) as [a st]. simpl in *.
  split; [done|]. exists [c]. split; [done|]. by constructor.
Qed.

Definition tameRS (rs : ReadSeeker B) : Prop :=
  (∀ n, tame (rsRead rs n)) ∧ (∀ a b, tame (rsSeek rs a b)).

Lemma tame_emptyFile : tameRS emptyFile.
Proof. split; intros; apply tame_ret. Qed.

Lemma tame_readFull rs fuel : ∀ n, tameRS rs → tame (readFull rs fuel n).
Proof.
  induction fuel as [|fuel IH]; intros n Hrs; simpl; [apply tame_ret|].
  case_bool_decide; [apply tame_ret|].
  apply tame_bind; [apply Hrs|]. intros [chunk [err|]]; simpl.
  - apply tame_ret.
  - apply tame_bind; [by apply IH|]. intros ?. apply tame_ret.
Qed.

Lemma tame_copyN rs fuel : ∀ n, tameRS rs → tame (copyN rs fuel n).
Proof.
  induction fuel as [|fuel IH]; intros n Hrs; simpl; [apply tame_ret|].
  case_bool_decide; [apply tame_ret|].
  apply tame_bind; [apply Hrs|]. intros [chunk [err|]]; simpl.
  - apply tame_bind; [apply tame_respond|]. intros ?. apply tame_ret.
  - apply tame_bind; [apply tame_respond|]. intros ?. by apply IH.
Qed.

Lemma tame_setContentType lib name rs :
  tameRS rs → tame (setContentType lib name rs).
Proof.
  intros Hrs. unfold setContentType, seekerCantSeek.
  apply tame_bind; [apply tame_getHeader|]. intros h.
  destruct (h !! str "Content-Type"); [apply tame_ret|].
  case_bool_decide.
  - apply tame_bind; [by apply tame_readFull|]. intros buf.
    apply tame_bind; [apply Hrs|]. intros [pos [err|]]; simpl.
    + apply tame_bind; [apply tame_respond|]. intros ?. apply tame_ret.
    + apply tame_bind; [apply tame_respond|]. intros ?. apply tame_ret.
  - apply tame_bind; [apply tame_respond|]. intros ?. apply tame_ret.
Qed.

Lemma tame_ServeContent lib r name modtime rs :
  tameRS rs → tame (ServeContent lib r name modtime rs).
Proof.
  intros Hrs. unfold ServeContent, seekerCantSeek.
  apply tame_bind; [apply tame_respond|]. intros _.
  destruct (http.checkIfModifiedSince r modtime); try apply tame_respond.
  all: apply tame_bind; [by apply tame_setContentType|]; intros [|];
    [|apply tame_ret];
    apply tame_bind; [apply Hrs|]; intros [size [err|]]; simpl;
    [apply tame_respond|];
    apply tame_bind; [apply Hrs|]; intros [pos [err|]]; simpl;
    [apply tame_respond|];
    case_bool_decide; [apply tame_respond|];
    apply tame_bind; [apply tame_respond|]; intros _;
    apply tame_bind; [apply tame_getHeader|]; intros h;
    apply tame_bind; [apply tame_respond|]; intros _;
    apply tame_bind; [apply tame_respond|]; intros _;
    case_bool_decide;
    [apply tame_ret
    |exact (tame_copyN rs (S (Z.to_nat size)) (Z.to_nat size) Hrs)].
Qed.

(** The invariant is kept by the reading methods of the backend. *)
Definition keptByReads : Prop :=
  (∀ name st, I st → I (Open B name st).2) ∧
  (∀ f st, I st → I (Stat B f st).2) ∧
  (∀ f n st, I st → I (Read B f n st).2) ∧
  (∀ f a b st, I st → I (Seek B f a b st).2) ∧
  (∀ f st, I st → I (Close B f st).2).

Lemma tame_file (f : File B) : keptByReads → tameRS (fileReadSeeker f).
Proof.
  intros (_ & _ & HR & HS & _).
  split; intros; apply tame_call; [done| |done|]; intros st; [apply HR|apply HS].
Qed.
End Tame.

Lemma tame_serveResource (lib : Library) (s : Server) (I : fsState (Fs s) → Prop)
    (r : Request) (serveContent : bool) :
  keptByReads I → tame I (serveResource lib s r serveContent).
Proof.
  intros HI. pose proof HI as (HO & HSt & _ & _ & HC).
  unfold serveResource.
  apply tame_bind; [apply tame_call; [done|apply HO]|]. intros [f|err].
  - apply tame_bind; [apply tame_call; [done|apply HSt]|]. intros [fi|err].
    + apply tame_bind.
      * destruct serveContent; apply tame_ServeContent;
          [by apply tame_file|apply tame_emptyFile].
      * intros _. apply tame_bind; [apply tame_call; [done|apply HC]|].
        intros _. apply tame_ret.
    + apply tame_bind; [apply tame_respond|]. intros _.
      apply tame_bind; [apply tame_call; [done|apply HC]|].
      intros _. apply tame_ret.
  - apply tame_respond.
Qed.

(** X4.  A request that is not a PUT or DELETE, and every request to a
    read-only server, only reads: in both revisions [ServeHTTP] then calls
    none of [Create], [Mkdir], [Remove] and [Write], and whatever property
    of the backend state the reading methods ([Open], [Stat], [Read],
    [Seek], [Close]) preserve is preserved by the request. *)
Theorem ServeHTTP_only_reads (lib : Library) (s : Server) (I : fsState (Fs s) → Prop)
    (r : Request) (st : fsState (Fs s)) :
  ReadOnly s = true ∨ (Method r ≠ str "PUT" ∧ Method r ≠ str "DELETE") →
  keptByReads I → I st →
  let harmless (e' : Env (Fs s)) :=
    Forall (λ c, mutates c = false) (calls e') ∧ I (backend e') in
  harmless (Rev1.ServeHTTP lib s r (start st)).2 ∧
  harmless (Rev2.ServeHTTP lib s r (start st)).2.
Proof.
  intros Hcase HI Hst harmless.
  assert (∀ m : M (Fs s) unit, tame I m → harmless (m (start st)).2) as Htame.
  { intros m Hm. destruct (Hm (start st) Hst) as (H1 & cs & Hc & Hf).
    split; [|done]. by rewrite Hc. }
  assert (tame I (respond (B:=Fs s) (http.WriteHeader StatusForbidden))) as H403
    by apply tame_respond.
  assert (ReadOnly s = true ∨ (Method r ≠ str "PUT" ∧ Method r ≠ str "DELETE") →
          tame I (Rev1.ServeHTTP lib s r) ∧ tame I (Rev2.ServeHTTP lib s r)) as Hboth.
  { clear Hcase. intros Hcase. unfold Rev1.ServeHTTP, Rev2.ServeHTTP.
    case_bool_decide as Hget; [split; by apply tame_serveResource|].
    case_bool_decide as Hhead; [split; by apply tame_serveResource|].
    case_bool_decide as Hdel.
    { destruct Hcase as [Hro|[_ ?]]; [|done].
      unfold doDelete. rewrite Hro. done. }
    case_bool_decide as Hput.
    { destruct Hcase as [Hro|[? _]]; [|done].
      unfold Rev1.doPut, Rev2.doPut. rewrite Hro. done. }
    split; apply tame_respond. }
  destruct (Hboth Hcase). split; by apply Htame.
Qed.

Lemma os_Read_sameStore fd n o : sameStore o (os.Read fd n o).2.
Proof.
  unfold os.Read. destruct (handles o !! fd) as [h|]; [|done].
  destruct (tree o !! ofKey h) as [[data mt|mt]|]; [|done..].
  by case_bool_decide.
Qed.

Lemma os_Seek_sameStore fd a b o : sameStore o (os.Seek fd a b o).2.
Proof.
  unfold os.Seek. destruct (handles o !! fd) as [h|]; [|done].
  repeat case_bool_decide; done.
Qed.

(** The reading methods of [Dir] keep the tree, the working directory and
    the clock. *)
Lemma Dir_reads_keep (d : gostring) (P : OS → Prop) :
  (∀ o o', sameStore o o' → P o → P o') →
  keptByReads (B:=Dir d) P.
Proof.
  intros HP. split_and!.
  - intros name st. apply HP. change (Open (Dir d)) with (Dir_Open d).
    unfold Dir_Open. destruct (sanitizePath unix d name); [|done].
    apply os_Open_sameStore.
  - intros f st. apply HP. change (Stat (Dir d)) with os.Stat.
    by rewrite os_Stat_state.
  - intros f n st. apply HP. apply os_Read_sameStore.
  - intros f a b st. apply HP. apply os_Seek_sameStore.
  - intros f st. apply HP. apply os_Close_sameStore.
Qed.

Lemma ServeHTTP_only_reads_witness :
  let get := (Rev2.ServeHTTP sampleLib sampleServer
                (sampleRequest "GET" "/dav/docs/a.txt" [])
                (start (B:=Fs sampleServer) sampleOS)).2 in
  let put := (Rev1.ServeHTTP sampleLib sampleReadOnly
                (sampleRequest "PUT" "/dav/docs/a.txt" [str "x"])
                (start (B:=Fs sampleReadOnly) sampleOS)).2 in
  body (w get) = str "abc" ∧
  tree (backend get) = sampleTree ∧
  Forall (λ c, mutates c = false) (calls get) ∧
  tree (backend put) = sampleTree.
Proof.
  intros get put.
  assert (∀ d, keptByReads (B:=Dir d) (λ o : OS, tree o = sampleTree)) as Hkept.
  { intros d. apply Dir_reads_keep. intros o o' (Ht & _) Ho. congruence. }
  assert (Method (sampleRequest "GET" "/dav/docs/a.txt" []) ≠ str "PUT" ∧
          Method (sampleRequest "GET" "/dav/docs/a.txt" []) ≠ str "DELETE") as Hm
    by (split; done).
  pose proof (ServeHTTP_only_reads sampleLib sampleServer
                (λ o : OS, tree o = sampleTree)
                (sampleRequest "GET" "/dav/docs/a.txt" []) sampleOS
                (or_intror Hm)
                (Hkept _) eq_refl) as (_ & Hget & Hget').
  pose proof (ServeHTTP_only_reads sampleLib sampleReadOnly
                (λ o : OS, tree o = sampleTree)
                (sampleRequest "PUT" "/dav/docs/a.txt" [str "x"]) sampleOS
                (or_introl eq_refl)
                (Hkept _) eq_refl) as ((_ & Hput) & _).
  split; [vm_compute; reflexivity|].
  split; [exact Hget'|]. split; [exact Hget|exact Hput].
Defined.

(** ** HEAD and the conditional GET *)

Definition lastModified (lib : Library) (modtime : Z) (w0 : ResponseWriter)
    : ResponseWriter :=
  (if http.isZeroTime modtime then id
   else http.SetHeader (str "Last-Modified") (FormatTime lib modtime)) w0.

Definition setW {B : FileSystem} (f : ResponseWriter → ResponseWriter) (e : Env B)
    : Env B :=
  {| backend := backend e; calls := calls e; w := f (w e) |}.

(** The content type that [ServeContent] announces for [name] when the
    first bytes of the content are [buf]. *)
Definition contentType (lib : Library) (name buf : gostring) : gostring :=
  if bool_decide (TypeByExtension lib (filepathExt.Ext name) = [])
  then DetectContentType lib buf
  else TypeByExtension lib (filepathExt.Ext name).

(** The headers of a complete answer of [ServeContent]. *)
Definition announce (lib : Library) (name buf : gostring) (size : Z)
    (w1 : ResponseWriter) : ResponseWriter :=
  let w2 := http.SetHeader (str "Content-Type") (contentType lib name buf) w1 in
  let w3 := http.SetHeader (str "Accept-Ranges") (str "bytes") w2 in
  let w4 := match header w3 !! str "Content-Encoding" with
            | Some (_ :: _) => w3
            | _ => http.SetHeader (str "Content-Length") (http.FormatInt size) w3
            end in
  http.WriteHeader StatusOK w4.

(** [ServeContent] when the resource has not been modified: no call to
    the content. *)
Lemma ServeContent_not_modified {B : FileSystem} lib r name modtime
    (rs : ReadSeeker B) (e : Env B) :
  http.checkIfModifiedSince r modtime = http.condFalse →
  (ServeContent lib r name modtime rs e).2 =
    setW (λ w0, http.writeNotModified (lastModified lib modtime w0)) e.
Proof.
  intros Hc. unfold ServeContent. rewrite Hc. done.
Qed.

Lemma setContentType_emptyFile {B : FileSystem} lib name (e : Env B) :
  header (w e) !! str "Content-Type" = None →
  setContentType lib name emptyFile e =
    (true, setW (http.SetHeader (str "Content-Type") (contentType lib name [])) e).
Proof.
  intros Hct. unfold setContentType, contentType. unfold bind at 1. unfold getHeader at 1.
  rewrite Hct. case_bool_decide; reflexivity.
Qed.

(** [ServeContent] over [emptyFile]. *)
Lemma ServeContent_emptyFile {B : FileSystem} lib r name modtime (e : Env B) :
  header (lastModified lib modtime (w e)) !! str "Content-Type" = None →
  http.checkIfModifiedSince r modtime ≠ http.condFalse →
  (ServeContent lib r name modtime emptyFile e).2 =
    setW (λ w0, announce lib name [] 0 (lastModified lib modtime w0)) e.
Proof.
  intros Hct Hc. unfold ServeContent. fold (lastModified lib modtime).
  assert (∀ X Y : M B unit,
            match http.checkIfModifiedSince r modtime with
            | http.condFalse => X
            | _ => Y
            end = Y) as -> by (intros; by destruct (http.checkIfModifiedSince r modtime)).
  unfold bind at 1. unfold respond at 1. cbv beta iota.
  unfold bind at 1. rewrite setContentType_emptyFile by done.
  unfold emptyFile at 1 2. cbn [rsSeek]. unfold bind, ret, respond, getHeader, setW.
  cbn [fst snd backend calls w]. rewrite bool_decide_eq_false_2 by done.
  unfold announce.
  case_bool_decide; cbn [copyN Z.to_nat]; rewrite ?bool_decide_eq_true_2 by done;
    cbn [snd]; f_equal; f_equal;
    by destruct (header _ !! str "Content-Encoding") as [[]|].
Qed.

Lemma fClose_run {B : FileSystem} (f : File B) (e : Env B) :
  (fClose f e).2 =
    {| backend := (Close B f (backend e)).2;
       calls := calls e ++ [CallClose f];
       w := w e |}.
Proof. unfold fClose, call. by destruct (Close B f (backend e)). Qed.

Lemma announce_fresh lib name buf size w1 :
  sent w1 = None → header w1 !! str "Content-Encoding" = None →
  announce lib name buf size w1 =
    let h := <[str "Content-Length" := http.FormatInt size]>
               (<[str "Accept-Ranges" := str "bytes"]>
                  (<[str "Content-Type" := contentType lib name buf]> (header w1))) in
    {| header := h; sent := Some (StatusOK, h); body := body w1 |}.
Proof.
  intros Hsent Hce. unfold announce. cbn [header http.SetHeader].
  rewrite lookup_insert_ne by done. rewrite lookup_insert_ne by done.
  rewrite Hce. unfold http.WriteHeader. cbn [sent header body http.SetHeader].
  by rewrite Hsent.
Qed.

(** X5.  HEAD on a resource that the backend can open and stat never
    looks at its content: the backend sees [Open], [Stat] and [Close] and
    nothing else, and no body byte is sent.  Unless the resource is
    unmodified (304), the answer is 200 with the content type of an empty
    stream and [Content-Length: 0], whatever the size of the resource. *)
Theorem doHead_headers_only (lib : Library) (s : Server) (r : Request)
    (st st1 st2 : fsState (Fs s)) (f : File (Fs s)) (fi : FileInfo) :
  let p := url2path s (Url r) in
  let e' := (doHead lib s r (start st)).2 in
  Open (Fs s) p st = (inl f, st1) →
  Stat (Fs s) f st1 = (inl fi, st2) →
  calls e' = [CallOpen p; CallStat f; CallClose f] ∧
  backend e' = (Close (Fs s) f st2).2 ∧
  body (w e') = [] ∧
  match http.checkIfModifiedSince r (ModTime fi) with
  | http.condFalse =>
      http.status (w e') = StatusNotModified ∧
      http.sentHeaders (w e') !! str "Content-Length" = None
  | _ =>
      http.status (w e') = StatusOK ∧
      http.sentHeaders (w e') !! str "Content-Length" = Some (str "0") ∧
      http.sentHeaders (w e') !! str "Content-Type" = Some (contentType lib p [])
  end.
Proof.
  intros p e' Hopen Hstat. subst e'. unfold doHead.
  rewrite serveResource_run. fold p. cbn [backend start].
  rewrite Hopen, Hstat. rewrite fClose_run.
  assert (header (lastModified lib (ModTime fi) newResponse) !! str "Content-Type" = None
          ∧ header (lastModified lib (ModTime fi) newResponse) !! str "Content-Encoding" = None
          ∧ sent (lastModified lib (ModTime fi) newResponse) = None
          ∧ body (lastModified lib (ModTime fi) newResponse) = [])
    as (Hct & Hce & Hsent & Hbody).
  { unfold lastModified. by destruct (http.isZeroTime (ModTime fi)). }
  destruct (http.checkIfModifiedSince r (ModTime fi)) eqn:Hc.
  1,2: rewrite ServeContent_emptyFile by (done || by rewrite Hc);
    unfold setW, logged; cbn [backend calls w start];
    rewrite announce_fresh by done;
    unfold http.status, http.sentHeaders; cbn [sent header body];
    (split_and!; [done|done|done|done|by rewrite lookup_insert_eq|];
     rewrite lookup_insert_ne by done; rewrite lookup_insert_ne by done;
     by rewrite lookup_insert_eq).
  rewrite ServeContent_not_modified by done.
  unfold setW, logged, http.writeNotModified. cbn [backend calls w start].
  set (w1 := lastModified lib (ModTime fi) newResponse) in *.
  assert (header (http.DelHeader (str "Content-Encoding")
                    (http.DelHeader (str "Content-Length")
                       (http.DelHeader (str "Content-Type") w1))) !! str "Etag" = None)
    as ->.
  { cbn [header http.DelHeader]. rewrite !lookup_delete_ne by done.
    subst w1. unfold lastModified. by destruct (http.isZeroTime (ModTime fi)). }
  unfold http.WriteHeader, http.status, http.sentHeaders.
  cbn [sent header body http.DelHeader]. rewrite Hsent, Hbody. cbn [sent header body].
  split_and!; [done..|].
  rewrite lookup_delete_ne by done. by rewrite lookup_delete_eq.
Qed.

Lemma doHead_headers_only_witness :
  let r := sampleRequest "HEAD" "/dav/docs/a.txt" [] in
  let e' := (doHead sampleLib sampleServer r (start (B:=Fs sampleServer) sampleOS)).2 in
  calls e' = [CallOpen (str "docs/a.txt"); CallStat (B:=Fs sampleServer) 3;
              CallClose (B:=Fs sampleServer) 3] ∧
  body (w e') = [] ∧
  http.status (w e') = StatusOK ∧
  http.sentHeaders (w e') !! str "Content-Length" = Some (str "0").
Proof.
  intros r e'.
  destruct (doHead_headers_only sampleLib sampleServer r sampleOS
              (Open (Fs sampleServer) (str "docs/a.txt") sampleOS).2
              (Open (Fs sampleServer) (str "docs/a.txt") sampleOS).2
              3 {| IsDir := false; ModTime := 1000; Size := 3 |}
              ltac:(vm_compute; reflexivity) ltac:(vm_compute; reflexivity))
    as (Hcalls & _ & Hbody & Hst & Hlen & _).
  split; [exact Hcalls|]. split; [exact Hbody|]. split; [exact Hst|exact Hlen].
Defined.

(** X6.  The conditional GET: when the request is a GET or HEAD that
    carries [If-Modified-Since] and the modification time of the resource
    is not later, the answer is 304 with an empty body and with
    [Last-Modified] as its only header, and the content is neither read nor
    sought: the backend sees [Open], [Stat] and [Close] only. *)
Theorem serveResource_not_modified (lib : Library) (s : Server) (r : Request)
    (serveContent : bool) (st st1 st2 : fsState (Fs s)) (f : File (Fs s))
    (fi : FileInfo) (t : Z) :
  let p := url2path s (Url r) in
  let e' := (serveResource lib s r serveContent (start st)).2 in
  Open (Fs s) p st = (inl f, st1) →
  Stat (Fs s) f st1 = (inl fi, st2) →
  Method r = str "GET" ∨ Method r = str "HEAD" →
  IfModifiedSince r = Some t →
  http.isZeroTime (ModTime fi) = false →
  (ModTime fi ≤ t)%Z →
  http.status (w e') = StatusNotModified ∧
  body (w e') = [] ∧
  http.sentHeaders (w e') = {[ str "Last-Modified" := FormatTime lib (ModTime fi) ]} ∧
  calls e' = [CallOpen p; CallStat f; CallClose f] ∧
  backend e' = (Close (Fs s) f st2).2.
Proof.
  intros p e' Hopen Hstat Hm Hims Hzero Hle. subst e'.
  rewrite serveResource_run. fold p. cbn [backend start].
  rewrite Hopen, Hstat. rewrite fClose_run.
  assert (http.checkIfModifiedSince r (ModTime fi) = http.condFalse) as Hc.
  { unfold http.checkIfModifiedSince. rewrite Hims, Hzero.
    rewrite (bool_decide_eq_true_2 (_ ≤ _)%Z) by done.
    destruct Hm as [-> | ->]; done. }
  rewrite ServeContent_not_modified by done.
  unfold setW, logged, http.writeNotModified, lastModified.
  cbn [backend calls w start]. rewrite Hzero.
  split_and!; [done|done| |done|done].
  unfold http.sentHeaders. cbn.
  rewrite lookup_delete_ne by done. rewrite lookup_delete_ne by done.
  rewrite lookup_delete_ne by done. rewrite lookup_insert_ne by done.
  rewrite lookup_empty. cbn.
  rewrite !delete_insert_ne by done. by rewrite !delete_empty.
Qed.

(** A GET that carries [If-Modified-Since]. *)
Definition sampleConditional (method target : string) (since : Z) : Request :=
  {| Method := str method;
     Url := {| Path := str target |};
     RequestURI := str target;
     IfModifiedSince := Some since;
     Body := {| chunks := []; readErr := None |} |}.

Lemma serveResource_not_modified_witness :
  let r := sampleConditional "GET" "/dav/docs/a.txt" 1500 in
  let e' := (doGet sampleLib sampleServer r (start (B:=Fs sampleServer) sampleOS)).2 in
  (1000 ≤ 1500)%Z ∧
  http.status (w e') = StatusNotModified ∧
  body (w e') = [] ∧
  calls e' = [CallOpen (str "docs/a.txt"); CallStat (B:=Fs sampleServer) 3;
              CallClose (B:=Fs sampleServer) 3].
Proof.
  intros r e'.
  assert (1000 ≤ 1500)%Z as Hle by lia.
  destruct (serveResource_not_modified sampleLib sampleServer r true sampleOS
              (Open (Fs sampleServer) (str "docs/a.txt") sampleOS).2
              (Open (Fs sampleServer) (str "docs/a.txt") sampleOS).2
              3 {| IsDir := false; ModTime := 1000; Size := 3 |} 1500
              ltac:(vm_compute; reflexivity) ltac:(vm_compute; reflexivity)
              (or_introl eq_refl) eq_refl eq_refl Hle)
    as (Hst & Hbody & _ & Hcalls & _).
  split; [exact Hle|]. split; [exact Hst|]. split; [exact Hbody|exact Hcalls].
Defined.
(** * The [Dir] backend on the host *)

(** The directory that [Dir] serves: an empty [Dir] is treated as ["."]. *)
Definition rootOf (d : gostring) : gostring :=
  if bool_decide (d = []) then str "." else d.

(** The key of the tree that [name] denotes below the root of [Dir d]:
    the elements of the cleaned name on top of the key of the root. *)
Lemma sanitizePath_resolve (d name p : gostring) :
  sanitizePath unix d name = inl p →
  (zero ∉ name) ∧
  ∃ es, Forall (plainElem "/"%char) es ∧
        ∀ o, os.resolve o p = rev es ++ os.resolve o (rootOf d).
Proof.
  intros Hsan. unfold sanitizePath in Hsan. rewrite sanitizePath_guard in Hsan.
  case_bool_decide as Hbad; [done|].
  assert (p = filepath.Join unix
                [rootOf d; filepath.FromSlash unix (path.Clean (str "/" ++ name))])
    as -> by (unfold rootOf; congruence).
  clear Hsan.
  split; [intros ?; apply Hbad; by right|].
  destruct (cleanWith_rooted_plain "/"%char slash_not_dot name) as (es & Hes & Hclean).
  assert (rootOf d ≠ []) as Hdir by (unfold rootOf; by case_bool_decide).
  exists es. split; [done|]. intros o.
  change (filepath.FromSlash unix ?x) with x.
  change (filepath.Join unix ?x) with (filepath.unixJoin x).
  rewrite unixJoin_two by done.
  change (str "/" ++ name) with ("/"%char :: name).
  unfold path.Clean. rewrite Hclean.
  rewrite (cleanWith_attach "/"%char slash_not_dot) by done.
  rewrite resolve_attach; [|apply cleanWith_nonempty|done].
  by rewrite resolve_cleanWith.
Qed.

Lemma sanitizePath_null (d name : gostring) :
  zero ∈ name → sanitizePath unix d name = inr ErrInvalidCharPath.
Proof.
  intros Hz. unfold sanitizePath. rewrite sanitizePath_guard.
  rewrite bool_decide_eq_true_2; [done|by right].
Qed.

Lemma sanitizePath_total (d name : gostring) :
  (zero ∉ name) → ∃ p, sanitizePath unix d name = inl p.
Proof.
  intros Hz. unfold sanitizePath. rewrite sanitizePath_guard.
  rewrite bool_decide_eq_false_2; [by eexists|].
  intros [[? _]|?]; done.
Qed.

(** ** What the four methods of [Dir] do to the tree *)

Lemma mkdirAll_changes front mtime : ∀ root t e t' m,
  t !! root = Some (NDir m) →
  os.mkdirAll (front ++ root) mtime t = (e, t') →
  ∀ k, t' !! k ≠ t !! k →
       t !! k = None ∧ t' !! k = Some (NDir mtime) ∧
       ∃ f1 f2, front = f1 ++ f2 ∧ f2 ≠ [] ∧ k = f2 ++ root.
Proof.
  induction front as [|c front IH]; intros root t e t' m Hroot H k Hk.
  - simpl in H. destruct root as [|c root]; simpl in H; rewrite Hroot in H;
      simplify_eq; done.
  - simpl in H.
    destruct (t !! (c :: front ++ root)) as [[]|] eqn:Hself; simplify_eq; [done..|].
    destruct (os.mkdirAll (front ++ root) mtime t) as [[err|] t1] eqn:Hrec; simplify_eq.
    + destruct (IH _ _ _ _ _ Hroot Hrec k Hk) as (H1 & H2 & f1 & f2 & -> & Hne & ->).
      split_and!; [done..|]. exists (c :: f1), f2. done.
    + destruct (decide (k = c :: front ++ root)) as [->|Hne].
      * rewrite lookup_insert_eq. split_and!; [done..|].
        exists [], (c :: front). done.
      * rewrite lookup_insert_ne in Hk by done.
        destruct (IH _ _ _ _ _ Hroot Hrec k Hk) as (H1 & H2 & f1 & f2 & -> & Hne2 & ->).
        rewrite lookup_insert_ne by done.
        split_and!; [done..|]. exists (c :: f1), f2. done.
Qed.

(** The keys at or below [root]. *)
Definition within (root k : list gostring) : Prop := root `suffix_of` k.

Lemma Dir_Mkdir_changes (d name : gostring) (o : OS) (m : Z) (k : list gostring) :
  let root := os.resolve o (rootOf d) in
  tree o !! root = Some (NDir m) →
  tree (Dir_Mkdir d name o).2 !! k ≠ tree o !! k →
  within root k ∧ k ≠ root ∧ tree o !! k = None ∧
  tree (Dir_Mkdir d name o).2 !! k = Some (NDir (now o)).
Proof.
  intros root Hroot Hk. unfold Dir_Mkdir in *.
  destruct (sanitizePath unix d name) as [p|err] eqn:Hsan; [|done].
  destruct (sanitizePath_resolve d name p Hsan) as (_ & es & Hes & Hres).
  unfold os.MkdirAll in *. rewrite Hres in *. fold root in Hk |- *.
  destruct (os.mkdirAll (rev es ++ root) (now o) (tree o)) as [e t'] eqn:Hm.
  simpl in *.
  destruct (mkdirAll_changes _ _ _ _ _ _ _ Hroot Hm k Hk)
    as (H1 & H2 & f1 & f2 & Hf & Hne & ->).
  split_and!; [by exists f2| |done|done].
  intros Heq. apply (f_equal length) in Heq. rewrite length_app in Heq.
  destruct f2; [done|]. simpl in Heq. lia.
Qed.

(** X7.  The effects of [Dir] stay in its directory tree: whatever the
    name, [Open] changes nothing, and [Create] and [Remove] change at most
    the one entry that the cleaned name denotes at or below the root.  When
    the root exists as a directory, [Mkdir] only adds directories, and
    only below the root; entries outside the tree of the root are never
    created, changed or removed. *)
Theorem Dir_effects_confined (d name : gostring) (o : OS) :
  let root := os.resolve o (rootOf d) in
  let differ (o' : OS) (k : list gostring) := tree o' !! k ≠ tree o !! k in
  tree (Dir_Open d name o).2 = tree o ∧
  (∀ k, differ (Dir_Create d name o).2 k ∨ differ (Dir_Remove d name o).2 k →
        within root k ∧
        ∃ p, sanitizePath unix d name = inl p ∧ k = os.resolve o p) ∧
  (∀ m k, tree o !! root = Some (NDir m) →
          differ (Dir_Mkdir d name o).2 k →
          within root k ∧ k ≠ root ∧ tree o !! k = None ∧
          tree (Dir_Mkdir d name o).2 !! k = Some (NDir (now o))).
Proof.
  intros root differ. split; [apply Dir_Open_tree|].
  unfold differ, Dir_Create, Dir_Remove, Dir_Mkdir.
  destruct (sanitizePath unix d name) as [p|err] eqn:Hsan.
  2:{ split; [intros k [?|?]; done|by intros]. }
  destruct (sanitizePath_resolve d name p Hsan) as (_ & es & Hes & Hres).
  split.
  - intros k Hk.
    assert (k = os.resolve o p) as ->.
    { destruct (decide (k = os.resolve o p)) as [|Hne]; [done|]. exfalso.
      destruct Hk as [Hk|Hk]; apply Hk.
      - destruct (os.Create p o) as [[fd|err] o1] eqn:Hc.
        + cbn [snd]. apply os_Create_ok in Hc as (-> & _).
          by rewrite lookup_insert_ne.
        + cbn [snd]. apply os_Create_fails in Hc. by subst.
      - unfold os.Remove.
        destruct (tree o !! os.resolve o p) as [[|]|]; simpl; [| |done].
        + by rewrite lookup_delete_ne.
        + destruct (os.hasChildren _ _); simpl; [done|].
          by rewrite lookup_delete_ne. }
    split; [|by exists p]. rewrite Hres. by exists (rev es).
  - intros m k Hroot Hk.
    pose proof (Dir_Mkdir_changes d name o m k Hroot) as H.
    unfold Dir_Mkdir in H. rewrite Hsan in H. by apply H.
Qed.

Lemma Dir_effects_confined_witness :
  let o := sampleOS in
  let o' := (Dir_Mkdir (str "/srv/dav") (str "../../etc/cron.d") o).2 in
  tree o !! os.resolve o (rootOf (str "/srv/dav")) = Some (NDir 0) ∧
  tree o' !! [str "cron.d"; str "etc"; str "dav"; str "srv"] ≠
    tree o !! [str "cron.d"; str "etc"; str "dav"; str "srv"] ∧
  within [str "dav"; str "srv"] [str "cron.d"; str "etc"; str "dav"; str "srv"] ∧
  tree o' !! [str "cron.d"; str "etc"; str "dav"; str "srv"] = Some (NDir 2000).
Proof.
  intros o o'.
  assert (tree o !! os.resolve o (rootOf (str "/srv/dav")) = Some (NDir 0)) as Hroot
    by (vm_compute; reflexivity).
  assert (tree o' !! [str "cron.d"; str "etc"; str "dav"; str "srv"] ≠
          tree o !! [str "cron.d"; str "etc"; str "dav"; str "srv"]) as Hk
    by (vm_compute; discriminate).
  destruct (Dir_effects_confined (str "/srv/dav") (str "../../etc/cron.d") o)
    as (_ & _ & H).
  destruct (H 0%Z _ Hroot Hk) as (Hin & _ & _ & Hnew).
  split; [exact Hroot|]. split; [exact Hk|]. split; [exact Hin|exact Hnew].
Defined.

(** ** Names with a null byte *)

(** X8.  A path with a null byte never reaches the host: the four methods
    of [Dir] fail with [ErrInvalidCharPath] and leave the host as it is.
    For the server this means 404 for GET, HEAD and DELETE and 409 for
    PUT.  The host is untouched, except that the first revision of [doPut]
    has by then called [Mkdir] on the parent path. *)
Theorem Dir_rejects_null_byte (d prefix : gostring) (listDir : bool)
    (lib : Library) (r : Request) (o : OS) :
  let s := dirServer d prefix listDir in
  let p := url2path s (Url r) in
  zero ∈ p →
  (Open (Dir d) p o = (inr ErrInvalidCharPath, o) ∧
   Create (Dir d) p o = (inr ErrInvalidCharPath, o) ∧
   Mkdir (Dir d) p o = (Some ErrInvalidCharPath, o) ∧
   Remove (Dir d) p o = (Some ErrInvalidCharPath, o)) ∧
  (∀ serveContent,
     let e' := (serveResource lib s r serveContent (start (B:=Dir d) o)).2 in
     http.status (w e') = StatusNotFound ∧ backend e' = o) ∧
  (let e' := (doDelete s r (start (B:=Dir d) o)).2 in
   http.status (w e') = StatusNotFound ∧ backend e' = o) ∧
  (let e' := (Rev2.doPut s r (start (B:=Dir d) o)).2 in
   http.status (w e') = StatusConflict ∧ backend e' = o) ∧
  (let e' := (Rev1.doPut s r (start (B:=Dir d) o)).2 in
   http.status (w e') = StatusConflict ∧
   backend e' = (Mkdir (Dir d) (path.Dir p) o).2).
Proof.
  intros s p Hz.
  pose proof (sanitizePath_null d p Hz) as Hsan.
  assert (∀ o', Open (Dir d) p o' = (inr ErrInvalidCharPath, o')) as Hopen
    by (intros o'; simpl; unfold Dir_Open; by rewrite Hsan).
  assert (∀ o', Create (Dir d) p o' = (inr ErrInvalidCharPath, o')) as Hcreate
    by (intros o'; simpl; unfold Dir_Create; by rewrite Hsan).
  split_and!.
  - apply Hopen.
  - apply Hcreate.
  - simpl. unfold Dir_Mkdir. by rewrite Hsan.
  - simpl. unfold Dir_Remove. by rewrite Hsan.
  - intros sc e'. subst e'. rewrite serveResource_run. fold p.
    change (Fs s) with (Dir d). cbn [backend start]. rewrite Hopen. done.
  - cbv zeta. rewrite doDelete_run by done. fold p.
    rewrite pathExists_run. change (Fs s) with (Dir d). cbn [backend start].
    rewrite Hopen. done.
  - cbv zeta. rewrite Rev2_doPut_run by done. fold p.
    rewrite pathIsDirectory_run. change (Fs s) with (Dir d). cbn [backend start].
    rewrite Hopen. rewrite pathExists_run. change (Fs s) with (Dir d).
    cbn [backend]. rewrite Hopen. unfold putTail2.
    change (Fs s) with (Dir d). cbn [backend]. rewrite Hcreate. done.
  - cbv zeta. rewrite Rev1_doPut_run by done. fold p.
    rewrite pathExists_run. change (Fs s) with (Dir d).
    rewrite Hopen. unfold putTail1.
    change (Fs s) with (Dir d). cbn [backend]. rewrite Hcreate.
    unfold fsMkdir, call. cbn [backend start].
    by destruct (Mkdir (Dir d) (path.Dir p) o).
Qed.

(** A request whose path holds a null byte. *)
Definition sampleNull (method : string) : Request :=
  {| Method := str method;
     Url := {| Path := str "/dav/docs/a" ++ [zero] ++ str ".txt" |};
     RequestURI := str "/dav/docs/a%00.txt";
     IfModifiedSince := None;
     Body := {| chunks := [str "x"]; readErr := None |} |}.

Lemma Dir_rejects_null_byte_witness :
  zero ∈ url2path sampleServer (Url (sampleNull "PUT")) ∧
  http.status (w (Rev2.doPut sampleServer (sampleNull "PUT")
                    (start (B:=Fs sampleServer) sampleOS)).2) = StatusConflict ∧
  backend (Rev2.doPut sampleServer (sampleNull "PUT")
             (start (B:=Fs sampleServer) sampleOS)).2 = sampleOS ∧
  http.status (w (doGet sampleLib sampleServer (sampleNull "GET")
                    (start (B:=Fs sampleServer) sampleOS)).2) = StatusNotFound.
Proof.
  assert (zero ∈ url2path sampleServer (Url (sampleNull "PUT"))) as Hz.
  { apply (bool_decide_eq_true_1 _). vm_compute. reflexivity. }
  destruct (Dir_rejects_null_byte (str "/srv/dav") (str "/dav") false sampleLib
              (sampleNull "PUT") sampleOS Hz) as (_ & _ & _ & (Hput & Hst) & _).
  destruct (Dir_rejects_null_byte (str "/srv/dav") (str "/dav") false sampleLib
              (sampleNull "GET") sampleOS Hz) as (_ & Hget & _).
  split; [exact Hz|]. split; [exact Hput|]. split; [exact Hst|].
  exact (proj1 (Hget true)).
Defined.

(** ** [Dir.Mkdir] *)

Lemma mkdirAll_fails k mtime : ∀ t e t',
  os.mkdirAll k mtime t = (Some e, t') → t' = t.
Proof.
  induction k as [|c parent IH]; intros t e t' H; simpl in H.
  - destruct (t !! []) as [[]|]; by simplify_eq.
  - destruct (t !! (c :: parent)) as [[]|]; simplify_eq; [done|].
    destruct (os.mkdirAll parent mtime t) as [[err|] t1] eqn:Hrec; simplify_eq.
    by eapply IH.
Qed.

Lemma mkdirAll_made k mtime t t' :
  os.mkdirAll k mtime t = (None, t') → ∃ m, t' !! k = Some (NDir m).
Proof.
  destruct k as [|c parent]; simpl.
  - destruct (t !! []) as [[]|] eqn:Hk; intros; simplify_eq.
    + by eexists.
    + eexists. apply lookup_insert_eq.
  - destruct (t !! (c :: parent)) as [[]|] eqn:Hk; intros H; simplify_eq.
    + by eexists.
    + destruct (os.mkdirAll parent mtime t) as [[err|] t1]; simplify_eq.
      eexists. apply lookup_insert_eq.
Qed.

(** X9.  [Dir.Mkdir] never removes or changes an entry.  When it fails
    it has created nothing.  When it succeeds the name denotes a directory
    afterwards, and calling it again succeeds and changes nothing. *)
Theorem Dir_Mkdir_idempotent (d name : gostring) (o : OS) :
  let o1 := (Dir_Mkdir d name o).2 in
  (∀ k n, tree o !! k = Some n → tree o1 !! k = Some n) ∧
  match (Dir_Mkdir d name o).1 with
  | Some _ => o1 = o
  | None =>
      (∃ p m, sanitizePath unix d name = inl p ∧
              tree o1 !! os.resolve o p = Some (NDir m)) ∧
      Dir_Mkdir d name o1 = (None, o1)
  end.
Proof.
  intros o1. split; [apply (Dir_Mkdir_facts d)|]. subst o1.
  unfold Dir_Mkdir. destruct (sanitizePath unix d name) as [p|err]; [|done].
  unfold os.MkdirAll.
  destruct (os.mkdirAll (os.resolve o p) (now o) (tree o)) as [[e|] t] eqn:Hm;
    cbn [fst snd].
  - apply mkdirAll_fails in Hm as ->. by destruct o.
  - destruct (mkdirAll_made _ _ _ _ Hm) as (m & Hk). split.
    + exists p, m. done.
    + assert (os.resolve (os.setTree t o) p = os.resolve o p) as -> by done.
      cbn [tree os.setTree now].
      destruct (os.resolve o p) as [|c parent]; simpl; rewrite Hk; done.
Qed.

(** ** [Dir.Create] and [Dir.Remove] *)

(** X10.  [Dir.Create] has truncate-or-create semantics and [Dir.Remove]
    undoes it: after a successful [Create] the name denotes an empty
    regular file and can be opened; [Remove] then succeeds and takes away
    exactly that entry, so that a tree without the entry is back to what
    it was, and the name can no longer be opened. *)
Theorem Dir_Create_Remove (d name : gostring) (o o1 : OS) (fd : nat) :
  Dir_Create d name o = (inl fd, o1) →
  ∃ p, sanitizePath unix d name = inl p ∧
       let k := os.resolve o p in
       tree o1 = <[k := NFile [] (now o)]> (tree o) ∧
       (∃ fd' o2, Dir_Open d name o1 = (inl fd', o2)) ∧
       ∃ o2, Dir_Remove d name o1 = (None, o2) ∧
             tree o2 = delete k (tree o) ∧
             (tree o !! k = None → tree o2 = tree o) ∧
             Dir_Open d name o2 = (inr os.ENOENT, o2).
Proof.
  unfold Dir_Create, Dir_Open, Dir_Remove.
  destruct (sanitizePath unix d name) as [p|err]; [|done].
  intros Hc. exists p. split; [done|]. cbv zeta.
  apply os_Create_ok in Hc as (Ht & Hcwd & Hnow & Hfd & _).
  assert (os.resolve o1 p = os.resolve o p) as Hres by (by apply resolve_cwd).
  assert (tree o1 !! os.resolve o p = Some (NFile [] (now o))) as Hk
    by (rewrite Ht; apply lookup_insert_eq).
  split_and!; [done| |].
  - unfold os.Open. rewrite Hres, Hk. by eexists _, _.
  - unfold os.Remove. rewrite Hres, Hk. eexists. split; [done|].
    cbn [tree os.setTree]. rewrite Ht. rewrite delete_insert_eq.
    split_and!; [done| |].
    + intros Hnone. by apply delete_id.
    + unfold os.Open. cbn [tree os.setTree].
      assert (os.resolve (os.setTree (delete (os.resolve o p) (tree o)) o1) p
              = os.resolve o p) as -> by (by apply resolve_cwd).
      by rewrite lookup_delete_eq.
Qed.

Lemma Dir_Create_Remove_witness :
  let o := sampleOS in
  let k := [str "new.txt"; str "docs"; str "dav"; str "srv"] in
  (Dir_Create (str "/srv/dav") (str "docs/new.txt") o).1 = inl 3 ∧
  tree (Dir_Create (str "/srv/dav") (str "docs/new.txt") o).2 !! k
    = Some (NFile [] 2000) ∧
  ∃ o2, Dir_Remove (str "/srv/dav") (str "docs/new.txt")
          (Dir_Create (str "/srv/dav") (str "docs/new.txt") o).2 = (None, o2) ∧
        tree o2 = tree o.
Proof.
  intros o k.
  destruct (Dir_Create_Remove (str "/srv/dav") (str "docs/new.txt") o
              (Dir_Create (str "/srv/dav") (str "docs/new.txt") o).2 3 eq_refl)
    as (p & Hsan & Ht & _ & o2 & Hrm & _ & Hback & _).
  assert (p = str "/srv/dav/docs/new.txt") as ->
    by (vm_compute in Hsan; injection Hsan as <-; reflexivity).
  split; [reflexivity|]. split.
  - rewrite Ht. apply lookup_insert_eq.
  - exists o2. split; [exact Hrm|]. apply Hback. vm_compute. reflexivity.
Defined.

(** ** File handles of the host *)

(** No handle at or above the next descriptor is in use. *)
Definition fresh (o : OS) : Prop := ∀ fd, nextFd o ≤ fd → handles o !! fd = None.

(** The host after a handle was opened and closed again. *)
Definition bump (o : OS) : OS := os.setHandles (handles o) (S (nextFd o)) o.

(** The host while the handle opened last is at position [pos] of the
    entry [k]. *)
Definition opened (o : OS) (k : list gostring) (pos : nat) : OS :=
  os.setHandles (<[nextFd o := {| ofKey := k; ofPos := pos |}]> (handles o))
                (S (nextFd o)) o.

Lemma fresh_bump o : fresh o → fresh (bump o).
Proof. intros H fd Hfd. simpl in *. apply H. lia. Qed.

Lemma sameStore_bump o : sameStore o (bump o).
Proof. done. Qed.

Lemma fresh_setTree t o : fresh o → fresh (os.setTree t o).
Proof. done. Qed.

Lemma os_Open_opened p o :
  os.Open p o =
    match tree o !! os.resolve o p with
    | Some _ => (inl (nextFd o), opened o (os.resolve o p) 0)
    | None => (inr os.ENOENT, o)
    end.
Proof. unfold os.Open. by destruct (tree o !! os.resolve o p). Qed.

Lemma os_Close_opened o k pos :
  fresh o → os.Close (nextFd o) (opened o k pos) = (None, bump o).
Proof.
  intros Hf. unfold os.Close, opened, bump, os.setHandles. cbn [handles nextFd].
  rewrite lookup_insert_eq. cbn [tree handles nextFd cwd now].
  rewrite delete_insert_eq. rewrite delete_id by (apply Hf; lia). done.
Qed.

Lemma os_Close_again o : fresh o → os.Close (nextFd o) (bump o) = (Some os.EBADF, bump o).
Proof.
  intros Hf. unfold os.Close, bump, os.setHandles. cbn [handles nextFd].
  rewrite Hf by lia. done.
Qed.

Lemma os_Stat_opened o k pos :
  os.Stat (nextFd o) (opened o k pos) =
    (match tree o !! k with
     | Some (NFile data mtime) =>
         inl {| IsDir := false; ModTime := mtime; Size := Z.of_nat (length data) |}
     | Some (NDir mtime) => inl {| IsDir := true; ModTime := mtime; Size := 0 |}
     | None => inr os.ENOENT
     end, opened o k pos).
Proof.
  unfold os.Stat, opened, os.setHandles. cbn [handles nextFd tree].
  rewrite lookup_insert_eq. cbn [ofKey].
  by destruct (tree o !! k) as [[]|].
Qed.

Lemma opened_again o k pos pos' :
  os.setPos (nextFd o) {| ofKey := k; ofPos := pos |} pos' (opened o k pos)
  = opened o k pos'.
Proof.
  unfold os.setPos, opened, os.setHandles. cbn [handles nextFd tree cwd now ofKey].
  by rewrite insert_insert_eq.
Qed.

Lemma os_Read_opened o k pos n data mtime :
  tree o !! k = Some (NFile data mtime) →
  os.Read (nextFd o) n (opened o k pos) =
    if bool_decide (length data ≤ pos) then (([], Some EOF), opened o k pos)
    else ((take n (drop pos data), None),
          opened o k (pos + length (take n (drop pos data)))).
Proof.
  intros Hk. unfold os.Read.
  assert (handles (opened o k pos) !! nextFd o = Some {| ofKey := k; ofPos := pos |})
    as -> by apply lookup_insert_eq.
  cbn [ofKey ofPos]. change (tree (opened o k pos)) with (tree o). rewrite Hk.
  case_bool_decide; [done|]. by rewrite opened_again.
Qed.

Lemma os_Seek_opened o k pos offset whence data mtime :
  tree o !! k = Some (NFile data mtime) →
  (0 ≤ offset)%Z → whence = 0%Z ∨ whence = 2%Z →
  os.Seek (nextFd o) offset whence (opened o k pos) =
    let target := ((if bool_decide (whence = 0%Z) then 0
                    else Z.of_nat (length data)) + offset)%Z in
    ((target, None), opened o k (Z.to_nat target)).
Proof.
  intros Hk Hoff Hwh. unfold os.Seek.
  assert (handles (opened o k pos) !! nextFd o = Some {| ofKey := k; ofPos := pos |})
    as -> by apply lookup_insert_eq.
  cbn [ofKey ofPos]. change (tree (opened o k pos)) with (tree o). rewrite Hk.
  destruct Hwh as [-> | ->]; cbn [bool_decide decide_rel]; cbv zeta.
  - rewrite (bool_decide_eq_true_2 (0 = 0)%Z) by done.
    rewrite bool_decide_eq_false_2 by lia. by rewrite opened_again.
  - rewrite (bool_decide_eq_false_2 (2 = 0)%Z) by done.
    rewrite (bool_decide_eq_false_2 (2 = 1)%Z) by done.
    rewrite (bool_decide_eq_true_2 (2 = 2)%Z) by done.
    rewrite bool_decide_eq_false_2 by lia. by rewrite opened_again.
Qed.

(** ** GET on a file of [Dir] *)

Section Runs.
Context {B : FileSystem}.

(** [m], started on the backend state [pre] with the response [w0],
    returns [v] and leaves the state [post] and the response [w1]. *)
Definition runsFrom {A} (m : M B A) (pre : fsState B) (w0 : ResponseWriter)
    (v : A) (post : fsState B) (w1 : ResponseWriter) : Prop :=
  ∀ e : Env B, backend e = pre → w e = w0 →
    (m e).1 = v ∧ backend (m e).2 = post ∧ w (m e).2 = w1.

Lemma runs_ret {A} (a : A) st w0 : runsFrom (ret a) st w0 a st w0.
Proof. by intros e He Hw. Qed.

Lemma runs_bind {A C} (m : M B A) (k : A → M B C) pre w0 a mid w1 c post w2 :
  runsFrom m pre w0 a mid w1 → runsFrom (k a) mid w1 c post w2 →
  runsFrom (bind m k) pre w0 c post w2.
Proof.
  intros Hm Hk e He Hw. unfold bind. destruct (Hm e He Hw) as (Ha & Hb & Hw1).
  destruct (m e) as [a' e1]. simpl in *. subst a'. by apply Hk.
Qed.

Lemma runs_respond f st w0 : runsFrom (respond (B:=B) f) st w0 tt st (f w0).
Proof. intros e He Hw. simpl. by rewrite Hw. Qed.

Lemma runs_getHeader st w0 : runsFrom (getHeader (B:=B)) st w0 (header w0) st w0.
Proof. intros e He Hw. simpl. by rewrite Hw. Qed.

Lemma runs_call {A} (c : Call B) (op : fsState B → A * fsState B) pre w0 v post :
  op pre = (v, post) → runsFrom (call c op) pre w0 v post w0.
Proof. intros Hop e He Hw. unfold call. rewrite He, Hop. done. Qed.
End Runs.

Section FileContent.
Variable d : gostring.
Variable lib : Library.
Variables (o : OS) (k : list gostring) (data : gostring) (mtime : Z).
Hypothesis entry : tree o !! k = Some (NFile data mtime).

#[local] Abbreviation rs := (fileReadSeeker (B:=Dir d) (nextFd o)).

Lemma runs_read pos n w0 :
  runsFrom (rsRead rs n) (opened o k pos) w0
    (if bool_decide (length data ≤ pos) then ([], Some EOF)
     else (take n (drop pos data), None))
    (opened o k (if bool_decide (length data ≤ pos) then pos
                 else pos + length (take n (drop pos data)))) w0.
Proof.
  apply runs_call. change (Read (Dir d)) with os.Read.
  rewrite (os_Read_opened o k pos n data mtime entry). by case_bool_decide.
Qed.

Lemma runs_seek pos whence w0 :
  whence = 0%Z ∨ whence = 2%Z →
  runsFrom (rsSeek rs 0%Z whence) (opened o k pos) w0
    (if bool_decide (whence = 0%Z) then 0%Z else Z.of_nat (length data), None)
    (opened o k (if bool_decide (whence = 0%Z) then 0 else length data)) w0.
Proof.
  intros Hwh. apply runs_call. change (Seek (Dir d)) with os.Seek.
  rewrite (os_Seek_opened o k pos 0 whence data mtime entry) by (done || lia).
  cbv zeta. rewrite Z.add_0_r.
  destruct Hwh as [-> | ->]; cbn [bool_decide decide_rel]; [done|].
  rewrite (bool_decide_eq_false_2 (2 = 0)%Z) by done. by rewrite Nat2Z.id.
Qed.

(** [io.ReadFull] when nothing is wanted or nothing is left. *)
Lemma runs_readFull_rest fuel n pos w0 :
  n = 0 ∨ length data ≤ pos →
  runsFrom (readFull rs (S fuel) n) (opened o k pos) w0 [] (opened o k pos) w0.
Proof.
  intros Hcase. cbn [readFull]. case_bool_decide as Hn; [apply runs_ret|].
  destruct Hcase as [?|Hpos]; [done|].
  eapply runs_bind; [apply runs_read|].
  rewrite !bool_decide_eq_true_2 by done. cbn [fst snd]. rewrite take_nil.
  apply runs_ret.
Qed.

(** [io.ReadFull] from the start of the file. *)
Lemma runs_readFull fuel n w0 :
  runsFrom (readFull rs (S (S fuel)) n) (opened o k 0) w0
    (take n data) (opened o k (length (take n data))) w0.
Proof.
  destruct (decide (n = 0 ∨ data = [])) as [Hcase|Hcase].
  { assert (take n data = []) as -> by (destruct Hcase as [-> | ->]; [done|apply take_nil]).
    apply runs_readFull_rest. destruct Hcase as [?| ->]; [by left|by right]. }
  assert (n ≠ 0 ∧ ¬ length data ≤ 0) as (Hn & Hlen).
  { split; [intros ?; apply Hcase; by left|].
    intros Hl. apply Hcase. right. destruct data; [done|simpl in Hl; lia]. }
  cbn [readFull]. rewrite bool_decide_eq_false_2 by done.
  eapply runs_bind; [apply runs_read|]. rewrite drop_0.
  rewrite !bool_decide_eq_false_2 by done.
  cbn [fst snd]. rewrite Nat.add_0_l, take_take, Nat.min_id.
  eapply runs_bind; [apply runs_readFull_rest|].
  - rewrite length_take. lia.
  - rewrite app_nil_r. apply runs_ret.
Qed.

(** [io.CopyN] of the whole file, from its start. *)
Lemma runs_copyN w1 :
  runsFrom (copyN rs (S (length data)) (length data)) (opened o k 0) w1
    tt (opened o k (length data))
    (if bool_decide (data = []) then w1 else http.Write data w1).
Proof.
  cbn [copyN]. case_bool_decide as Hn.
  { apply nil_length_inv in Hn. subst data. apply runs_ret. }
  assert (data ≠ []) as Hne by (intros ->; done).
  rewrite (bool_decide_eq_false_2 (data = [])) by done.
  eapply runs_bind; [apply runs_read|]. rewrite drop_0.
  rewrite !bool_decide_eq_false_2 by lia. cbn [fst snd].
  rewrite !firstn_all, Nat.add_0_l.
  eapply runs_bind; [apply runs_respond|].
  rewrite Nat.sub_diag. destruct (length data); [done|].
  cbn [copyN]. apply runs_ret.
Qed.

(** The content type step. *)
Lemma runs_setContentType name w1 :
  header w1 !! str "Content-Type" = None →
  runsFrom (setContentType lib name rs) (opened o k 0) w1
    true (opened o k 0)
    (http.SetHeader (str "Content-Type")
       (contentType lib name (take sniffLen data)) w1).
Proof.
  intros Hct. unfold setContentType, contentType.
  eapply runs_bind; [apply runs_getHeader|]. rewrite Hct.
  case_bool_decide.
  - eapply runs_bind; [apply runs_readFull|].
    eapply runs_bind; [apply runs_seek; by left|].
    cbn [fst snd bool_decide decide_rel].
    rewrite !(bool_decide_eq_true_2 (0 = 0)%Z) by done.
    eapply runs_bind; [apply runs_respond|]. apply runs_ret.
  - eapply runs_bind; [apply runs_respond|]. apply runs_ret.
Qed.

(** [ServeContent] over the file, for a request that is not answered
    with 304 and is not a HEAD. *)
Lemma runs_ServeContent r name :
  http.checkIfModifiedSince r mtime ≠ http.condFalse →
  Method r ≠ str "HEAD" →
  runsFrom (ServeContent lib r name mtime rs) (opened o k 0) newResponse
    tt (opened o k (length data))
    (let w4 := announce lib name (take sniffLen data) (Z.of_nat (length data))
                 (lastModified lib mtime newResponse) in
     if bool_decide (data = []) then w4 else http.Write data w4).
Proof.
  intros Hc Hm. unfold ServeContent. fold (lastModified lib mtime).
  assert (∀ X Y : M (Dir d) unit,
            match http.checkIfModifiedSince r mtime with
            | http.condFalse => X
            | _ => Y
            end = Y) as -> by (intros; by destruct (http.checkIfModifiedSince r mtime)).
  set (w1 := lastModified lib mtime newResponse).
  assert (header w1 !! str "Content-Type" = None
          ∧ header w1 !! str "Content-Encoding" = None) as (Hct & Hce).
  { subst w1. unfold lastModified. by destruct (http.isZeroTime mtime). }
  eapply runs_bind; [apply runs_respond|]. fold w1.
  eapply runs_bind; [by apply runs_setContentType|].
  eapply runs_bind; [apply runs_seek; by right|].
  rewrite !(bool_decide_eq_false_2 (2 = 0)%Z) by done. cbn [fst snd].
  eapply runs_bind; [apply runs_seek; by left|].
  rewrite !(bool_decide_eq_true_2 (0 = 0)%Z) by done. cbn [fst snd].
  rewrite bool_decide_eq_false_2 by lia.
  eapply runs_bind; [apply runs_respond|].
  eapply runs_bind; [apply runs_getHeader|].
  eapply runs_bind; [apply runs_respond|].
  eapply runs_bind; [apply runs_respond|].
  rewrite (bool_decide_eq_false_2 (Method r = _)) by done.
  rewrite Nat2Z.id.
  cbv zeta. unfold announce.
  match goal with |- runsFrom _ _ ?wa _ _ (if _ then ?wb else _) =>
    assert (wa = wb) as Hw; [|rewrite Hw; apply runs_copyN] end.
  clear Hct Hce. subst w1. unfold lastModified. f_equal.
  by destruct (_ !! str "Content-Encoding") as [[]|].
Qed.
End FileContent.

(** The response of a complete answer with the body [data]. *)
Definition served (lib : Library) (name data : gostring) (mtime : Z) : ResponseWriter :=
  let w4 := announce lib name (take sniffLen data) (Z.of_nat (length data))
              (lastModified lib mtime newResponse) in
  if bool_decide (data = []) then w4 else http.Write data w4.

Lemma served_response lib name data mtime :
  let w5 := served lib name data mtime in
  http.status w5 = StatusOK ∧
  body w5 = data ∧
  http.sentHeaders w5 !! str "Content-Length"
    = Some (http.FormatInt (Z.of_nat (length data))) ∧
  http.sentHeaders w5 !! str "Content-Type"
    = Some (contentType lib name (take 512 data)) ∧
  http.sentHeaders w5 !! str "Last-Modified"
    = (if http.isZeroTime mtime then None else Some (FormatTime lib mtime)).
Proof.
  cbv zeta. unfold served.
  assert (sent (lastModified lib mtime newResponse) = None
          ∧ body (lastModified lib mtime newResponse) = []
          ∧ header (lastModified lib mtime newResponse) !! str "Content-Encoding" = None
          ∧ header (lastModified lib mtime newResponse) !! str "Last-Modified"
            = (if http.isZeroTime mtime then None else Some (FormatTime lib mtime)))
    as (Hsent & Hbody & Hce & Hlm).
  { unfold lastModified. destruct (http.isZeroTime mtime); [done|].
    split_and!; by rewrite ?lookup_insert_eq. }
  rewrite announce_fresh by done. cbv zeta.
  set (h := <[str "Content-Length" := _]> _).
  assert (h !! str "Content-Length" = Some (http.FormatInt (Z.of_nat (length data)))
          ∧ h !! str "Content-Type" = Some (contentType lib name (take 512 data))
          ∧ h !! str "Last-Modified"
            = (if http.isZeroTime mtime then None else Some (FormatTime lib mtime)))
    as (H1 & H2 & H3).
  { subst h. split_and!.
    - apply lookup_insert_eq.
    - rewrite lookup_insert_ne by done. rewrite lookup_insert_ne by done.
      apply lookup_insert_eq.
    - by rewrite !lookup_insert_ne by done. }
  case_bool_decide as Hd.
  - subst data. done.
  - unfold http.Write, http.WriteHeader, http.status, http.sentHeaders.
    cbn [sent body header]. by rewrite Hbody.
Qed.

(** GET on a regular file of [Dir], step by step. *)
Lemma serveResource_file (d prefix : gostring) (listDir : bool) (lib : Library)
    (r : Request) (o : OS) (data : gostring) (mtime : Z) :
  let s := dirServer d prefix listDir in
  let p := url2path s (Url r) in
  let e' := (serveResource lib s r true (start (B:=Dir d) o)).2 in
  entryAt d o p = Some (NFile data mtime) →
  Method r ≠ str "HEAD" →
  http.checkIfModifiedSince r mtime ≠ http.condFalse →
  w e' = served lib p data mtime ∧
  ∃ k, backend e' = (os.Close (nextFd o) (opened o k (length data))).2.
Proof.
  intros s p e' Hentry Hm Hc. subst e'.
  rewrite serveResource_run. fold p. change (Fs s) with (Dir d).
  cbn [backend start]. unfold entryAt in Hentry.
  change (Open (Dir d)) with (Dir_Open d). unfold Dir_Open.
  destruct (sanitizePath unix d p) as [hp|err]; [|done].
  rewrite os_Open_opened, Hentry.
  change (Stat (Dir d)) with os.Stat. rewrite os_Stat_opened, Hentry.
  cbn [ModTime]. rewrite fClose_run.
  set (e2 := logged (CallStat (B:=Dir d) (nextFd o)) _ _).
  destruct (runs_ServeContent d lib o (os.resolve o hp) data mtime Hentry r p Hc Hm
              e2 eq_refl eq_refl) as (_ & Hb & Hw).
  cbn [backend w]. rewrite Hb, Hw. split; [done|]. by eexists.
Qed.

(** X11.  GET on a regular file of a [Dir] backend answers 200 with
    exactly the bytes of the file as the body, their number as
    [Content-Length], the content type by extension or else sniffed from
    the first 512 bytes, and the modification time of the file as
    [Last-Modified].  The tree is left as it was and the handle is given
    back.  (The request is assumed not to be answered with 304.) *)
Theorem doGet_file_content (d prefix : gostring) (listDir : bool) (lib : Library)
    (r : Request) (o : OS) (data : gostring) (mtime : Z) :
  let s := dirServer d prefix listDir in
  let p := url2path s (Url r) in
  let e' := (doGet lib s r (start (B:=Dir d) o)).2 in
  entryAt d o p = Some (NFile data mtime) →
  Method r ≠ str "HEAD" →
  http.checkIfModifiedSince r mtime ≠ http.condFalse →
  http.status (w e') = StatusOK ∧
  body (w e') = data ∧
  http.sentHeaders (w e') !! str "Content-Length"
    = Some (http.FormatInt (Z.of_nat (length data))) ∧
  http.sentHeaders (w e') !! str "Content-Type"
    = Some (contentType lib p (take 512 data)) ∧
  http.sentHeaders (w e') !! str "Last-Modified"
    = (if http.isZeroTime mtime then None else Some (FormatTime lib mtime)) ∧
  tree (backend e') = tree o ∧
  (fresh o → backend e' = bump o).
Proof.
  intros s p e' Hentry Hm Hc. subst e'. unfold doGet.
  destruct (serveResource_file d prefix listDir lib r o data mtime Hentry Hm Hc)
    as (Hw & k & Hb).
  fold s p in Hw, Hb. rewrite Hw, Hb.
  destruct (served_response lib p data mtime) as (H1 & H2 & H3 & H4 & H5).
  split_and!; [done..| |].
  - by rewrite os_Close_tree.
  - intros Hf. by rewrite os_Close_opened.
Qed.

Lemma doGet_file_content_witness :
  let r := sampleRequest "GET" "/dav/docs/a.txt" [] in
  let e' := (doGet sampleLib sampleServer r (start (B:=Fs sampleServer) sampleOS)).2 in
  entryAt (str "/srv/dav") sampleOS (str "docs/a.txt") = Some (NFile (str "abc") 1000) ∧
  body (w e') = str "abc" ∧
  http.sentHeaders (w e') !! str "Content-Length" = Some (str "3") ∧
  backend e' = bump sampleOS.
Proof.
  intros r e'.
  assert (entryAt (str "/srv/dav") sampleOS (str "docs/a.txt")
          = Some (NFile (str "abc") 1000)) as Hentry by (vm_compute; reflexivity).
  assert (Method r ≠ str "HEAD") as Hm by done.
  assert (http.checkIfModifiedSince r 1000 ≠ http.condFalse) as Hc by done.
  assert (fresh sampleOS) as Hf by (intros fd _; apply lookup_empty).
  destruct (doGet_file_content (str "/srv/dav") (str "/dav") false sampleLib r sampleOS
              (str "abc") 1000 Hentry Hm Hc) as (_ & Hbody & Hlen & _ & _ & _ & Hback).
  split; [exact Hentry|]. split; [exact Hbody|]. split; [exact Hlen|exact (Hback Hf)].
Defined.

(** X12.  What PUT stores, GET returns: after a PUT that succeeded, in
    either revision on a [Dir] backend, a GET of the same path answers 200
    and its body is the body of the PUT, byte for byte, with its length as
    [Content-Length]. *)
Theorem put_then_get (d prefix : gostring) (listDir : bool) (lib : Library)
    (doPut : ∀ s : Server, Request → M (Fs s) unit) (r1 r2 : Request) (o : OS) :
  let s := dirServer d prefix listDir in
  let e1 := (doPut s r1 (start (B:=Dir d) o)).2 in
  let e2 := (doGet lib s r2 (start (B:=Dir d) (backend e1))).2 in
  doPut = Rev1.doPut ∨ doPut = Rev2.doPut →
  url2path s (Url r2) = url2path s (Url r1) →
  succeeded (http.status (w e1)) →
  Method r2 ≠ str "HEAD" →
  IfModifiedSince r2 = None →
  http.status (w e2) = StatusOK ∧
  body (w e2) = concat (chunks (Body r1)) ∧
  http.sentHeaders (w e2) !! str "Content-Length"
    = Some (http.FormatInt (Z.of_nat (length (concat (chunks (Body r1)))))).
Proof.
  intros s e1 e2 Hrev Hsame Hok Hm Hims. subst e1 e2.
  pose proof (put_once_both d prefix listDir doPut r1 o Hrev Hok)
    as (hp & mt & Hsan & _ & Ht & Hcwd).
  fold s in Hsan, Ht, Hcwd |- *. change (Fs s) with (Dir d) in *.
  set (o1 := backend (doPut s r1 (start (B:=Dir d) o)).2) in *.
  assert (entryAt d o1 (url2path s (Url r2))
          = Some (NFile (concat (chunks (Body r1))) mt)) as Hentry.
  { rewrite Hsame. unfold entryAt. rewrite Hsan.
    by rewrite (resolve_cwd o o1 hp Hcwd). }
  assert (http.checkIfModifiedSince r2 mt ≠ http.condFalse) as Hc.
  { unfold http.checkIfModifiedSince. rewrite Hims. by destruct (_ && _). }
  unfold doGet.
  destruct (serveResource_file d prefix listDir lib r2 o1 _ mt Hentry Hm Hc)
    as (Hw & _).
  fold s in Hw. subst o1. change (Fs s) with (Dir d) in *. rewrite Hw.
  destruct (served_response lib (url2path s (Url r2))
              (concat (chunks (Body r1))) mt) as (H1 & H2 & H3 & _).
  done.
Qed.

Lemma put_then_get_witness :
  let s := dirServer (str "/srv/dav") (str "/dav") false in
  let r1 := sampleRequest "PUT" "/dav/docs/new.txt" [str "hello "; str "world"] in
  let r2 := sampleRequest "GET" "/dav/docs/new.txt" [] in
  let e1 := (Rev1.doPut s r1 (start (B:=Fs s) sampleOS)).2 in
  let e2 := (doGet sampleLib s r2 (start (B:=Fs s) (backend e1))).2 in
  succeeded (http.status (w e1)) ∧
  http.status (w e2) = StatusOK ∧
  body (w e2) = str "hello world".
Proof.
  intros s r1 r2 e1 e2.
  assert (succeeded (http.status (w e1))) as Hok
    by (vm_compute; split; repeat constructor).
  assert (Method r2 ≠ str "HEAD") as Hm by done.
  destruct (put_then_get (str "/srv/dav") (str "/dav") false sampleLib Rev1.doPut
              r1 r2 sampleOS (or_introl eq_refl) eq_refl Hok Hm eq_refl)
    as (Hst & Hbody & _).
  split; [exact Hok|]. split; [exact Hst|exact Hbody].
Defined.

(** ** The handlers on [Dir], stated on the host *)

(** The host while the file created last holds [acc] and its handle is at
    the end. *)
Definition holding (o : OS) (k : list gostring) (acc : gostring) : OS :=
  opened (os.setTree (<[k := NFile acc (now o)]> (tree o)) o) k (length acc).

(** The host after the file was closed. *)
Definition stored (o : OS) (k : list gostring) (acc : gostring) : OS :=
  bump (os.setTree (<[k := NFile acc (now o)]> (tree o)) o).

Lemma os_Write_holding o k acc c :
  os.Write (nextFd o) c (holding o k acc) = ((length c, None), holding o k (acc ++ c)).
Proof.
  unfold os.Write, holding.
  assert (∀ o' pos, handles (opened o' k pos) !! nextFd o'
                    = Some {| ofKey := k; ofPos := pos |}) as Hh
    by (intros; apply lookup_insert_eq).
  change (nextFd o) with (nextFd (os.setTree (<[k:=NFile acc (now o)]> (tree o)) o)) at 1.
  rewrite Hh. cbn [ofKey ofPos].
  change (tree (opened ?o' k ?pos)) with (tree o').
  cbn [tree os.setTree]. rewrite lookup_insert_eq. rewrite writeAt_end.
  f_equal. unfold os.setPos, opened, os.setTree, os.setHandles.
  cbn [tree handles nextFd cwd now ofKey].
  rewrite !insert_insert_eq. by rewrite length_app.
Qed.

Lemma os_Close_holding o k acc :
  fresh o → os.Close (nextFd o) (holding o k acc) = (None, stored o k acc).
Proof.
  intros Hf. unfold holding, stored.
  change (nextFd o) with (nextFd (os.setTree (<[k:=NFile acc (now o)]> (tree o)) o)).
  by rewrite os_Close_opened.
Qed.

Lemma os_Close_stored o k acc :
  fresh o → os.Close (nextFd o) (stored o k acc) = (Some os.EBADF, stored o k acc).
Proof.
  intros Hf. unfold stored.
  change (nextFd o) with (nextFd (os.setTree (<[k:=NFile acc (now o)]> (tree o)) o)).
  by rewrite os_Close_again.
Qed.

(** Where [Create] puts a file: at the key of the name, unless that is a
    directory or lacks a parent directory. *)
Definition target (d : gostring) (o : OS) (p : gostring) : option (list gostring) :=
  match sanitizePath unix d p with
  | inr _ => None
  | inl hp =>
      let k := os.resolve o hp in
      match tree o !! k with
      | Some (NDir _) => None
      | Some (NFile _ _) => Some k
      | None =>
          match k, tree o !! tail k with
          | _ :: _, Some (NDir _) => Some k
          | _, _ => None
          end
      end
  end.

Lemma Dir_Create_target d p o :
  match target d o p with
  | Some k => Dir_Create d p o = (inl (nextFd o), holding o k [])
  | None => ∃ err, Dir_Create d p o = (inr err, o)
  end.
Proof.
  unfold target, Dir_Create. destruct (sanitizePath unix d p) as [hp|err]; [|by eexists].
  unfold os.Create. cbv zeta.
  destruct (tree o !! os.resolve o hp) as [[data mt|mt]|] eqn:Hk; [done|by eexists|].
  destruct (os.resolve o hp) as [|c parent]; [destruct (tree o !! tail []) as [[]|]; by eexists|].
  destruct (tree o !! tail (c :: parent)) as [[]|]; [by eexists|done|by eexists].
Qed.

Lemma target_sameStore d o o' p : sameStore o o' → target d o' p = target d o p.
Proof.
  intros (Ht & Hc & _). unfold target.
  destruct (sanitizePath unix d p) as [hp|]; [|done].
  cbv zeta. by rewrite (resolve_cwd o o' hp Hc), Ht.
Qed.

Section DirExact.
Variables (d prefix : gostring) (listDir : bool).

#[local] Abbreviation srv := (dirServer d prefix listDir).

(** The host after a probe of an entry. *)
Definition probed (o : OS) (p : gostring) : OS :=
  if bool_decide (is_Some (entryAt d o p)) then bump o else o.

Lemma fresh_probed o p : fresh o → fresh (probed o p).
Proof. intros Hf. unfold probed. case_bool_decide; [by apply fresh_bump|done]. Qed.

Lemma sameStore_probed o p : sameStore o (probed o p).
Proof. unfold probed. by case_bool_decide. Qed.

Lemma pathExists_exact (p : gostring) (e : Env (Dir d)) :
  fresh (backend e) →
  (pathExists srv p e).1 = bool_decide (is_Some (entryAt d (backend e) p)) ∧
  backend (pathExists srv p e).2 = probed (backend e) p ∧
  w (pathExists srv p e).2 = w e.
Proof.
  intros Hf. rewrite pathExists_run. change (Fs srv) with (Dir d).
  change (Open (Dir d)) with (Dir_Open d). change (Close (Dir d)) with os.Close.
  unfold probed, entryAt, Dir_Open.
  destruct (sanitizePath unix d p) as [hp|err].
  - rewrite os_Open_opened.
    destruct (tree (backend e) !! os.resolve (backend e) hp) as [n|] eqn:Hn.
    + rewrite bool_decide_eq_true_2 by done. cbn [fst snd backend w].
      by rewrite os_Close_opened.
    + by rewrite bool_decide_eq_false_2 by (by intros [? ?]).
  - by rewrite bool_decide_eq_false_2 by (by intros [? ?]).
Qed.

Lemma pathIsDirectory_exact (p : gostring) (e : Env (Dir d)) :
  fresh (backend e) →
  (pathIsDirectory srv p e).1
    = match entryAt d (backend e) p with Some (NDir _) => true | _ => false end ∧
  backend (pathIsDirectory srv p e).2 = probed (backend e) p ∧
  w (pathIsDirectory srv p e).2 = w e.
Proof.
  intros Hf. rewrite pathIsDirectory_run. change (Fs srv) with (Dir d).
  change (Open (Dir d)) with (Dir_Open d). change (Close (Dir d)) with os.Close.
  change (Stat (Dir d)) with os.Stat.
  unfold probed, entryAt, Dir_Open.
  destruct (sanitizePath unix d p) as [hp|err].
  - rewrite os_Open_opened.
    destruct (tree (backend e) !! os.resolve (backend e) hp) as [n|] eqn:Hn.
    + rewrite bool_decide_eq_true_2 by done. cbn [fst snd backend w].
      rewrite os_Stat_opened, Hn. cbn [fst snd].
      rewrite os_Close_opened by done. by destruct n.
    + by rewrite bool_decide_eq_false_2 by (by intros [? ?]).
  - by rewrite bool_decide_eq_false_2 by (by intros [? ?]).
Qed.

(** The copy of the body into the file that was created. *)
Lemma copyChunks_holding o k (cs : list gostring) : ∀ acc (e : Env (Dir d)),
  backend e = holding o k acc →
  (copyChunks (B:=Dir d) (nextFd o) cs e).1 = None ∧
  backend (copyChunks (B:=Dir d) (nextFd o) cs e).2 = holding o k (acc ++ concat cs) ∧
  w (copyChunks (B:=Dir d) (nextFd o) cs e).2 = w e.
Proof.
  induction cs as [|c rest IH]; intros acc e He; simpl.
  - by rewrite app_nil_r.
  - case_bool_decide as Hlen.
    + unfold bind at 1 2 3. unfold fWrite, call. rewrite He.
      change (Write (Dir d)) with os.Write. rewrite os_Write_holding.
      cbn [fst snd]. rewrite bool_decide_eq_true_2 by done.
      match goal with |- context [copyChunks _ rest ?e1] =>
        destruct (IH (acc ++ c) e1 eq_refl) as (H1 & H2 & H3) end.
      rewrite app_assoc. done.
    + assert (c = []) as -> by (destruct c; [done|simpl in Hlen; lia]).
      simpl. by apply IH.
Qed.

(** The status that ends a PUT which reached [Create]. *)
Definition putStatus (created : bool) (src : Reader) (existed : bool) : nat :=
  if created then
    match readErr src with
    | Some _ => StatusConflict
    | None => if existed then StatusNoContent else StatusCreated
    end
  else StatusConflict.

(** The host after a PUT that reached [Create]. *)
Definition putResult (o : OS) (p : gostring) (src : Reader) : OS :=
  match target d o p with
  | Some k => stored o k (concat (chunks src))
  | None => o
  end.

Lemma putTail_exact (p : gostring) (src : Reader) (existed : bool) (e2 : Env (Dir d)) :
  fresh (backend e2) →
  let code := putStatus (bool_decide (is_Some (target d (backend e2) p))) src existed in
  (backend (putTail1 srv p src existed e2) = putResult (backend e2) p src ∧
   w (putTail1 srv p src existed e2) = http.WriteHeader code (w e2)) ∧
  (backend (putTail2 srv p src existed e2) = putResult (backend e2) p src ∧
   w (putTail2 srv p src existed e2) = http.WriteHeader code (w e2)).
Proof.
  intros Hf code. subst code. unfold putTail1, putTail2, putResult, putStatus.
  change (Fs srv) with (Dir d). change (Create (Dir d)) with (Dir_Create d).
  pose proof (Dir_Create_target d p (backend e2)) as Hc.
  destruct (target d (backend e2) p) as [k|].
  2:{ destruct Hc as (err & ->). rewrite bool_decide_eq_false_2 by (by intros [? ?]).
      done. }
  rewrite Hc. rewrite bool_decide_eq_true_2 by done.
  set (e3 := logged (B:=Dir d) (CallCreate p) (holding (backend e2) k []) e2).
  destruct (copyChunks_holding (backend e2) k (chunks src) [] e3 eq_refl)
    as (Hres & Hb & Hw).
  unfold ioCopy, bind.
  destruct (copyChunks (B:=Dir d) (nextFd (backend e2)) (chunks src) e3) as [res e4].
  cbn [fst snd] in Hres, Hb, Hw. subst res. cbn [app] in Hb.
  unfold ret. rewrite !fClose_run. unfold answer. cbn [backend w calls].
  change (Close (Dir d)) with os.Close.
  destruct (readErr src) as [err|]; cbn [backend w calls fst snd]; rewrite Hb, Hw;
    rewrite !os_Close_holding by done; cbn [snd];
    rewrite ?os_Close_stored by done; done.
Qed.
End DirExact.

Section DirRequests.
Variables (d prefix : gostring) (listDir : bool).

#[local] Abbreviation srv := (dirServer d prefix listDir).

Definition isDirEntry (n : option Node) : bool :=
  match n with Some (NDir _) => true | _ => false end.

Lemma entryAt_probed o p q : entryAt d (probed d o q) p = entryAt d o p.
Proof. apply entryAt_sameStore, sameStore_probed. Qed.

Lemma target_probed o p q : target d (probed d o q) p = target d o p.
Proof. apply target_sameStore, sameStore_probed. Qed.

(** PUT in the second revision. *)
Lemma Rev2_doPut_exact (r : Request) (o : OS) :
  fresh o →
  let p := url2path srv (Url r) in
  let e' := (Rev2.doPut srv r (start (B:=Dir d) o)).2 in
  if isDirEntry (entryAt d o p) then
    backend e' = probed d o p ∧
    w e' = http.WriteHeader StatusMethodNotAllowed newResponse
  else
    backend e' = putResult d (probed d (probed d o p) p) p (Body r) ∧
    w e' = http.WriteHeader
             (putStatus (bool_decide (is_Some (target d o p))) (Body r)
                (bool_decide (is_Some (entryAt d o p)))) newResponse.
Proof.
  intros Hf p e'. subst e'. rewrite Rev2_doPut_run by done. fold p.
  change (Fs srv) with (Dir d).
  destruct (pathIsDirectory_exact d prefix listDir p (start (B:=Dir d) o) Hf)
    as (Hres & Hb & Hw).
  destruct (pathIsDirectory srv p (start (B:=Dir d) o)) as [isdir e1].
  cbn [fst snd backend w start] in Hres, Hb, Hw.
  fold (isDirEntry (entryAt d o p)) in Hres. subst isdir.
  change (Fs srv) with (Dir d) in *.
  destruct (isDirEntry (entryAt d o p)); [by rewrite <- Hb, <- Hw|].
  assert (fresh (backend e1)) as Hf1 by (rewrite Hb; by apply fresh_probed).
  destruct (pathExists_exact d prefix listDir p e1 Hf1) as (Hres2 & Hb2 & Hw2).
  destruct (pathExists srv p e1) as [existed e2].
  cbn [fst snd] in Hres2, Hb2, Hw2.
  assert (fresh (backend e2)) as Hf2 by (rewrite Hb2; by apply fresh_probed).
  destruct (putTail_exact d prefix listDir p (Body r) existed e2 Hf2)
    as (_ & Hb3 & Hw3).
  change (Fs srv) with (Dir d) in *.
  rewrite Hb3, Hw3, Hb2, Hb, Hw2, Hw, Hres2, Hb.
  by rewrite !target_probed, !entryAt_probed.
Qed.

Lemma Dir_Mkdir_handles name o :
  handles (Dir_Mkdir d name o).2 = handles o ∧
  nextFd (Dir_Mkdir d name o).2 = nextFd o.
Proof.
  unfold Dir_Mkdir. destruct (sanitizePath unix d name); [|done].
  unfold os.MkdirAll. by destruct (os.mkdirAll _ _ _).
Qed.

Lemma fresh_Mkdir name o : fresh o → fresh (Dir_Mkdir d name o).2.
Proof.
  intros Hf fd. destruct (Dir_Mkdir_handles name o) as (-> & ->). apply Hf.
Qed.

(** PUT in the first revision. *)
Lemma Rev1_doPut_exact (r : Request) (o : OS) :
  fresh o →
  let p := url2path srv (Url r) in
  let o0 := (Dir_Mkdir d (path.Dir p) o).2 in
  let e' := (Rev1.doPut srv r (start (B:=Dir d) o)).2 in
  backend e' = putResult d (probed d o0 p) p (Body r) ∧
  w e' = http.WriteHeader
           (putStatus (bool_decide (is_Some (target d o0 p))) (Body r)
              (bool_decide (is_Some (entryAt d o0 p)))) newResponse.
Proof.
  intros Hf p o0 e'. subst e'. rewrite Rev1_doPut_run by done. fold p.
  change (Fs srv) with (Dir d).
  set (e0 := (fsMkdir (B:=Dir d) (path.Dir p) (start (B:=Dir d) o)).2).
  assert (w e0 = newResponse ∧ backend e0 = o0) as (Hw0 & Hb0).
  { subst e0 o0. unfold fsMkdir, call. simpl.
    by destruct (Dir_Mkdir d (path.Dir p) o). }
  assert (fresh (backend e0)) as Hf0 by (rewrite Hb0; by apply fresh_Mkdir).
  destruct (pathExists_exact d prefix listDir p e0 Hf0) as (Hres2 & Hb2 & Hw2).
  destruct (pathExists srv p e0) as [existed e2].
  cbn [fst snd] in Hres2, Hb2, Hw2.
  assert (fresh (backend e2)) as Hf2 by (rewrite Hb2; by apply fresh_probed).
  destruct (putTail_exact d prefix listDir p (Body r) existed e2 Hf2)
    as ((Hb3 & Hw3) & _).
  change (Fs srv) with (Dir d) in *.
  rewrite Hb3, Hw3, Hb2, Hw2, Hw0, Hres2, Hb0.
  by rewrite !target_probed.
Qed.

(** DELETE. *)
Lemma doDelete_exact (r : Request) (o : OS) :
  fresh o →
  let p := url2path srv (Url r) in
  let e' := (doDelete srv r (start (B:=Dir d) o)).2 in
  match entryAt d o p with
  | None => backend e' = o ∧ w e' = http.WriteHeader StatusNotFound newResponse
  | Some (NDir _) =>
      backend e' = bump (bump o) ∧
      w e' = http.WriteHeader StatusNoContent newResponse
  | Some (NFile _ _) =>
      (∃ hp, sanitizePath unix d p = inl hp ∧
             backend e' = os.setTree (delete (os.resolve o hp) (tree o))
                            (bump (bump o))) ∧
      w e' = http.WriteHeader StatusNoContent newResponse
  end.
Proof.
  intros Hf p e'. subst e'. rewrite doDelete_run by done. fold p.
  change (Fs srv) with (Dir d).
  destruct (pathExists_exact d prefix listDir p (start (B:=Dir d) o) Hf)
    as (Hres & Hb & Hw).
  destruct (pathExists srv p (start (B:=Dir d) o)) as [existed e1].
  cbn [fst snd backend w start] in Hres, Hb, Hw. subst existed.
  change (Fs srv) with (Dir d) in *.
  unfold probed in Hb.
  destruct (entryAt d o p) as [n|] eqn:Hentry.
  2:{ rewrite bool_decide_eq_false_2 in * by (by intros [? ?]).
      unfold answer. cbn [backend w]. by rewrite Hb, Hw. }
  rewrite bool_decide_eq_true_2 in * by done.
  assert (fresh (backend e1)) as Hf1 by (rewrite Hb; by apply fresh_bump).
  destruct (pathIsDirectory_exact d prefix listDir p e1 Hf1) as (Hres2 & Hb2 & Hw2).
  destruct (pathIsDirectory srv p e1) as [isdir e2].
  cbn [fst snd] in Hres2, Hb2, Hw2. subst isdir.
  change (Fs srv) with (Dir d) in *.
  assert (entryAt d (backend e1) p = Some n) as Hentry1.
  { rewrite Hb. rewrite (entryAt_sameStore d o (bump o)); [done|apply sameStore_bump]. }
  unfold probed in Hb2. rewrite Hentry1 in *.
  rewrite bool_decide_eq_true_2 in Hb2 by done. rewrite Hb in Hb2.
  destruct n as [data mt|mt].
  - change (Remove (Dir d)) with (Dir_Remove d). unfold Dir_Remove.
    unfold entryAt in Hentry. destruct (sanitizePath unix d p) as [hp|]; [|done].
    unfold os.Remove. rewrite Hb2.
    change (os.resolve (bump (bump o)) hp) with (os.resolve o hp).
    change (tree (bump (bump o))) with (tree o). rewrite Hentry.
    cbn [backend w]. split; [by exists hp|]. by rewrite Hw2, Hw.
  - unfold answer. cbn [backend w]. by rewrite Hb2, Hw2, Hw.
Qed.
End DirRequests.

(** ** PUT and DELETE on [Dir], as a client sees them *)

Lemma putStatus_created src existed :
  putStatus true src existed =
    match readErr src with
    | Some _ => StatusConflict
    | None => if existed then StatusNoContent else StatusCreated
    end.
Proof. done. Qed.

(** What a PUT that reached [Create] has made of the host [o0]. *)
Definition putOutcome (d : gostring) (p : gostring) (src : Reader) (o0 : OS)
    (e' : Env (Dir d)) : Prop :=
  match target d o0 p with
  | None => http.status (w e') = StatusConflict ∧ tree (backend e') = tree o0
  | Some k =>
      tree (backend e') = <[k := NFile (concat (chunks src)) (now o0)]> (tree o0) ∧
      http.status (w e') =
        match readErr src with
        | Some _ => StatusConflict
        | None => if bool_decide (is_Some (entryAt d o0 p))
                  then StatusNoContent else StatusCreated
        end
  end.

Lemma putResult_outcome d p src o0 o1 (e' : Env (Dir d)) :
  sameStore o0 o1 →
  backend e' = putResult d o1 p src →
  w e' = http.WriteHeader
           (putStatus (bool_decide (is_Some (target d o0 p))) src
              (bool_decide (is_Some (entryAt d o0 p)))) newResponse →
  putOutcome d p src o0 e'.
Proof.
  intros Hs Hb Hw. unfold putOutcome. rewrite Hb, Hw. unfold putResult.
  rewrite (target_sameStore d o0 o1 p Hs). destruct Hs as (Ht & _ & Hn).
  destruct (target d o0 p) as [k|].
  - rewrite bool_decide_eq_true_2 by done. rewrite putStatus_created.
    unfold stored. cbn [tree bump os.setHandles os.setTree].
    rewrite Ht, Hn. split; [done|]. by destruct (readErr src), (bool_decide _).
  - by rewrite bool_decide_eq_false_2 by (by intros [? ?]).
Qed.

(** X13.  The effect of a PUT on a [Dir] backend.  The second revision
    answers 405 for a directory and changes nothing.  Otherwise, and always
    in the first revision (which starts from the host as [Mkdir] on the
    parent path leaves it): when [Create] cannot place the file (a
    directory in the way, no parent directory, an invalid name) the answer
    is 409 and nothing changes; when it can, the entry of the path is the
    only one that changes, and it holds exactly the bytes that arrived.
    This is so even when the body breaks off: the answer is then 409, but
    the previous content of the file is already replaced by the part
    received. *)
Theorem doPut_effect (d prefix : gostring) (listDir : bool) (r : Request) (o : OS) :
  let s := dirServer d prefix listDir in
  let p := url2path s (Url r) in
  fresh o →
  (let e' := (Rev2.doPut s r (start (B:=Dir d) o)).2 in
   if isDirEntry (entryAt d o p)
   then http.status (w e') = StatusMethodNotAllowed ∧ tree (backend e') = tree o
   else putOutcome d p (Body r) o e') ∧
  (let e' := (Rev1.doPut s r (start (B:=Dir d) o)).2 in
   putOutcome d p (Body r) (Dir_Mkdir d (path.Dir p) o).2 e').
Proof.
  intros s p Hf. split.
  - pose proof (Rev2_doPut_exact d prefix listDir r o Hf) as H. cbv zeta in H.
    fold s p in H. cbv zeta.
    destruct (isDirEntry (entryAt d o p)).
    + destruct H as (Hb & Hw). rewrite Hb, Hw. split; [done|].
      unfold probed. by case_bool_decide.
    + destruct H as (Hb & Hw).
      eapply putResult_outcome; [|exact Hb|exact Hw].
      eapply sameStore_trans; apply sameStore_probed.
  - pose proof (Rev1_doPut_exact d prefix listDir r o Hf) as (Hb & Hw).
    fold s p in Hb, Hw. cbv zeta.
    eapply putResult_outcome; [|exact Hb|exact Hw]. apply sameStore_probed.
Qed.

Lemma doPut_effect_witness :
  let s := dirServer (str "/srv/dav") (str "/dav") false in
  let r := {| Method := str "PUT";
              Url := {| Path := str "/dav/docs/a.txt" |};
              RequestURI := str "/dav/docs/a.txt";
              IfModifiedSince := None;
              Body := {| chunks := [str "par"; str "tial"];
                         readErr := Some (ErrOS (str "connection reset")) |} |} in
  let e' := (Rev2.doPut s r (start (B:=Fs s) sampleOS)).2 in
  fresh sampleOS ∧
  sampleTree !! [str "a.txt"; str "docs"; str "dav"; str "srv"]
    = Some (NFile (str "abc") 1000) ∧
  http.status (w e') = StatusConflict ∧
  tree (backend e') !! [str "a.txt"; str "docs"; str "dav"; str "srv"]
    = Some (NFile (str "partial") 2000).
Proof.
  intros s r e'.
  assert (fresh sampleOS) as Hf by (intros fd _; apply lookup_empty).
  destruct (doPut_effect (str "/srv/dav") (str "/dav") false r sampleOS Hf)
    as (H2 & _).
  change (isDirEntry _) with false in H2. cbv zeta in H2.
  unfold putOutcome in H2.
  change (target _ _ _) with (Some [str "a.txt"; str "docs"; str "dav"; str "srv"]) in H2.
  destruct H2 as (Ht & Hst).
  split; [exact Hf|]. split; [reflexivity|]. split; [exact Hst|].
  exact (eq_trans (f_equal (λ t, t !! _) Ht) (lookup_insert_eq _ _ _)).
Defined.

(** X14.  The effect of a DELETE on a [Dir] backend.  A missing path is
    answered with 404, a directory with 204, and neither changes the tree.
    A regular file is removed and the answer is 204: its entry is the only
    one that changes, and afterwards the path is gone, so that a second
    DELETE and a GET are answered with 404.  The handler never answers
    500 here, and no handle stays open. *)
Theorem doDelete_effect (d prefix : gostring) (listDir : bool) (lib : Library)
    (r : Request) (o : OS) :
  let s := dirServer d prefix listDir in
  let p := url2path s (Url r) in
  let e' := (doDelete s r (start (B:=Dir d) o)).2 in
  fresh o →
  handles (backend e') = handles o ∧
  match entryAt d o p with
  | None => http.status (w e') = StatusNotFound ∧ tree (backend e') = tree o
  | Some (NDir _) => http.status (w e') = StatusNoContent ∧ tree (backend e') = tree o
  | Some (NFile _ _) =>
      http.status (w e') = StatusNoContent ∧
      (∃ hp, sanitizePath unix d p = inl hp ∧
             tree (backend e') = delete (os.resolve o hp) (tree o)) ∧
      entryAt d (backend e') p = None ∧
      http.status (w (doDelete s r (start (B:=Dir d) (backend e'))).2) = StatusNotFound ∧
      http.status (w (doGet lib s r (start (B:=Dir d) (backend e'))).2) = StatusNotFound
  end.
Proof.
  intros s p e' Hf. subst e'.
  pose proof (doDelete_exact d prefix listDir r o Hf) as H. cbv zeta in H.
  fold s p in H.
  destruct (entryAt d o p) as [[data mt|mt]|] eqn:Hentry.
  - destruct H as ((hp & Hsan & Hb) & Hw). rewrite Hb, Hw.
    assert (entryAt d (os.setTree (delete (os.resolve o hp) (tree o)) (bump (bump o))) p
            = None) as Hgone.
    { unfold entryAt. rewrite Hsan. cbn [tree os.setTree].
      change (os.resolve (os.setTree _ (bump (bump o))) hp) with (os.resolve o hp).
      apply lookup_delete_eq. }
    assert (fresh (os.setTree (delete (os.resolve o hp) (tree o)) (bump (bump o))))
      as Hf' by (by apply fresh_setTree, fresh_bump, fresh_bump).
    split; [done|]. split_and!; [done|by exists hp|done| |].
    + pose proof (doDelete_exact d prefix listDir r _ Hf') as H2. cbv zeta in H2.
      fold s p in H2. rewrite Hgone in H2. destruct H2 as (_ & ->). done.
    + unfold doGet. rewrite serveResource_run. fold p. change (Fs s) with (Dir d).
      cbn [backend start]. change (Open (Dir d)) with (Dir_Open d).
      unfold Dir_Open. unfold entryAt in Hgone.
      destruct (sanitizePath unix d p) as [hp'|]; [|done].
      rewrite os_Open_opened, Hgone. done.
  - destruct H as (Hb & Hw). by rewrite Hb, Hw.
  - destruct H as (Hb & Hw). by rewrite Hb, Hw.
Qed.

Lemma doDelete_effect_witness :
  let s := dirServer (str "/srv/dav") (str "/dav") false in
  let r := sampleRequest "DELETE" "/dav/docs/a.txt" [] in
  let e' := (doDelete s r (start (B:=Fs s) sampleOS)).2 in
  fresh sampleOS ∧
  http.status (w e') = StatusNoContent ∧
  tree (backend e') !! [str "a.txt"; str "docs"; str "dav"; str "srv"] = None ∧
  tree (backend e') !! [str "docs"; str "dav"; str "srv"] = Some (NDir 0) ∧
  http.status (w (doDelete s r (start (B:=Fs s) (backend e'))).2) = StatusNotFound.
Proof.
  intros s r e'.
  assert (fresh sampleOS) as Hf by (intros fd _; apply lookup_empty).
  pose proof (doDelete_effect (str "/srv/dav") (str "/dav") false sampleLib r sampleOS Hf)
    as (_ & H).
  change (entryAt (str "/srv/dav") sampleOS _) with (Some (NFile (str "abc") 1000)) in H.
  destruct H as (Hst & (hp & Hsan & Ht) & _ & Hagain & _).
  assert (hp = str "/srv/dav/docs/a.txt") as ->
    by (vm_compute in Hsan; injection Hsan as <-; reflexivity).
  split; [exact Hf|]. split; [exact Hst|]. split; [|split; [|exact Hagain]].
  - exact (eq_trans (f_equal (λ t, t !! _) Ht) (lookup_delete_eq _ _)).
  - refine (eq_trans (f_equal (λ t, t !! _) Ht) _). vm_compute. reflexivity.
Defined.

(** X15.  The two revisions of [doPut] agree whenever the parent path is
    an existing directory and the path itself is not a directory: the same
    response, and the same tree and open handles afterwards.  (They differ
    on a directory, 405 against 409, and when parent directories are
    missing, which only the first revision creates.) *)
Theorem doPut_revisions_agree (d prefix : gostring) (listDir : bool) (r : Request)
    (o : OS) (m : Z) :
  let s := dirServer d prefix listDir in
  let p := url2path s (Url r) in
  let e1 := (Rev1.doPut s r (start (B:=Dir d) o)).2 in
  let e2 := (Rev2.doPut s r (start (B:=Dir d) o)).2 in
  fresh o →
  entryAt d o (path.Dir p) = Some (NDir m) →
  isDirEntry (entryAt d o p) = false →
  w e1 = w e2 ∧
  tree (backend e1) = tree (backend e2) ∧
  handles (backend e1) = handles (backend e2).
Proof.
  intros s p e1 e2 Hf Hparent Hnodir. subst e1 e2.
  pose proof (Rev2_doPut_exact d prefix listDir r o Hf) as H2.
  pose proof (Rev1_doPut_exact d prefix listDir r o Hf) as (Hb1 & Hw1).
  cbv zeta in H2. fold s p in H2, Hb1, Hw1. rewrite Hnodir in H2.
  destruct H2 as (Hb2 & Hw2).
  assert ((Dir_Mkdir d (path.Dir p) o).2 = o) as Hnoop.
  { unfold entryAt in Hparent. unfold Dir_Mkdir.
    destruct (sanitizePath unix d (path.Dir p)) as [hp|]; [|done].
    unfold os.MkdirAll.
    destruct (os.resolve o hp) as [|c parent]; simpl; rewrite Hparent; by destruct o. }
  rewrite Hnoop in Hb1, Hw1. rewrite Hb1, Hw1, Hb2, Hw2.
  split; [done|]. unfold putResult. rewrite !target_probed.
  destruct (target d o p) as [k|]; unfold probed;
    repeat case_bool_decide; done.
Qed.

Lemma doPut_revisions_agree_witness :
  let s := dirServer (str "/srv/dav") (str "/dav") false in
  let r := sampleRequest "PUT" "/dav/docs/new.txt" [str "hello"] in
  let e1 := (Rev1.doPut s r (start (B:=Fs s) sampleOS)).2 in
  let e2 := (Rev2.doPut s r (start (B:=Fs s) sampleOS)).2 in
  fresh sampleOS ∧
  entryAt (str "/srv/dav") sampleOS (path.Dir (str "docs/new.txt")) = Some (NDir 0) ∧
  http.status (w e1) = StatusCreated ∧
  w e1 = w e2 ∧
  tree (backend e1) = tree (backend e2).
Proof.
  intros s r e1 e2.
  assert (fresh sampleOS) as Hf by (intros fd _; apply lookup_empty).
  assert (entryAt (str "/srv/dav") sampleOS (path.Dir (str "docs/new.txt"))
          = Some (NDir 0)) as Hparent by (vm_compute; reflexivity).
  destruct (doPut_revisions_agree (str "/srv/dav") (str "/dav") false r sampleOS 0
              Hf Hparent eq_refl) as (Hw & Ht & _).
  split; [exact Hf|]. split; [exact Hparent|].
  split; [vm_compute; reflexivity|]. split; [exact Hw|exact Ht].
Defined.

(** ** Whole requests on [Dir] *)

Lemma tame_file_at {B : FileSystem} (I : fsState B → Prop) (f : File B) :
  (∀ n st, I st → I (Read B f n st).2) →
  (∀ a b st, I st → I (Seek B f a b st).2) →
  tameRS I (fileReadSeeker f).
Proof.
  intros HR HS. split; intros; apply tame_call; [done| |done|];
    intros st; [apply HR|apply HS].
Qed.

Lemma os_Read_stays o k pos n :
  ∃ pos', (os.Read (nextFd o) n (opened o k pos)).2 = opened o k pos'.
Proof.
  unfold os.Read.
  assert (handles (opened o k pos) !! nextFd o = Some {| ofKey := k; ofPos := pos |})
    as -> by apply lookup_insert_eq.
  cbn [ofKey ofPos]. change (tree (opened o k pos)) with (tree o).
  destruct (tree o !! k) as [[data mt|mt]|]; [|by eexists..].
  case_bool_decide; [by eexists|]. cbn [snd]. rewrite opened_again. by eexists.
Qed.

Lemma os_Seek_stays o k pos a b :
  ∃ pos', (os.Seek (nextFd o) a b (opened o k pos)).2 = opened o k pos'.
Proof.
  unfold os.Seek.
  assert (handles (opened o k pos) !! nextFd o = Some {| ofKey := k; ofPos := pos |})
    as -> by apply lookup_insert_eq.
  cbn [ofKey ofPos]. cbv zeta.
  repeat case_bool_decide; cbn [snd]; rewrite ?opened_again; by eexists.
Qed.

Section DirServe.
Variables (d prefix : gostring) (listDir : bool).
Variable lib : Library.

#[local] Abbreviation srv := (dirServer d prefix listDir).

(** GET and HEAD leave the tree alone and give the handle back. *)
Lemma serveResource_settles (r : Request) (serveContent : bool) (o : OS) :
  fresh o →
  let e' := (serveResource lib srv r serveContent (start (B:=Dir d) o)).2 in
  backend e' = o ∨ backend e' = bump o.
Proof.
  intros Hf e'. subst e'. rewrite serveResource_run.
  set (p := url2path srv (Url r)). change (Fs srv) with (Dir d).
  cbn [backend start]. change (Open (Dir d)) with (Dir_Open d). unfold Dir_Open.
  destruct (sanitizePath unix d p) as [hp|err]; [|by left].
  rewrite os_Open_opened.
  destruct (tree o !! os.resolve o hp) as [n|] eqn:Hn; [|by left].
  right. set (k := os.resolve o hp) in *.
  change (Stat (Dir d)) with os.Stat. rewrite os_Stat_opened, Hn.
  assert (∀ e3 : Env (Dir d),
            (∃ pos, backend e3 = opened o k pos) →
            backend (fClose (B:=Dir d) (nextFd o) e3).2 = bump o) as Hclose.
  { intros e3 (pos & He3). rewrite fClose_run. cbn [backend].
    change (Close (Dir d)) with os.Close. rewrite He3.
    by rewrite os_Close_opened. }
  set (I := λ o' : OS, ∃ pos, o' = opened o k pos).
  assert (tameRS (B:=Dir d) I
            (if serveContent then fileReadSeeker (B:=Dir d) (nextFd o) else emptyFile))
    as Hrs.
  { destruct serveContent; [|apply tame_emptyFile].
    apply tame_file_at.
    - intros cnt st (pos & ->). apply os_Read_stays.
    - intros a b st (pos & ->). apply os_Seek_stays. }
  destruct n as [data mt|mt]; apply Hclose;
    match goal with |- context [ServeContent ?l ?r0 ?nm ?t ?rs ?e2] =>
      destruct (tame_ServeContent (B:=Dir d) I l r0 nm t rs Hrs e2
                  (ex_intro _ 0 eq_refl)) as (HI & _) end;
    exact HI.
Qed.

Lemma target_key o p k :
  target d o p = Some k →
  ∃ hp, sanitizePath unix d p = inl hp ∧ k = os.resolve o hp.
Proof.
  unfold target. destruct (sanitizePath unix d p) as [hp|]; [|done].
  cbv zeta. intros H. exists hp. split; [done|].
  destruct (tree o !! os.resolve o hp) as [[]|]; simplify_eq; [done|].
  destruct (os.resolve o hp) as [|c parent]; [by destruct (tree o !! tail [])  as [[]|]|].
  destruct (tree o !! tail (c :: parent)) as [[]|]; by simplify_eq.
Qed.

(** The host after a request: some handles opened and closed again, and
    possibly another tree. *)
Definition after (o o' : OS) : Prop :=
  handles o' = handles o ∧ nextFd o ≤ nextFd o' ∧ cwd o' = cwd o ∧ now o' = now o.

Lemma after_refl o : after o o.
Proof. done. Qed.

Lemma after_trans o1 o2 o3 : after o1 o2 → after o2 o3 → after o1 o3.
Proof. intros (? & ? & ? & ?) (? & ? & ? & ?). split_and!; [congruence|lia|congruence..]. Qed.

Lemma after_bump o : after o (bump o).
Proof. split_and!; [done|simpl; lia|done..]. Qed.

Lemma after_setTree t o : after o (os.setTree t o).
Proof. done. Qed.

Lemma after_probed o p : after o (probed d o p).
Proof. unfold probed. case_bool_decide; [apply after_bump|done]. Qed.

Lemma after_putResult o p src : after o (putResult d o p src).
Proof.
  unfold putResult, stored. destruct (target d o p); [|done].
  eapply after_trans; [apply after_setTree|apply after_bump].
Qed.

Lemma after_Mkdir name o : after o (Dir_Mkdir d name o).2.
Proof.
  unfold Dir_Mkdir. destruct (sanitizePath unix d name); [|done].
  unfold os.MkdirAll. by destruct (os.mkdirAll _ _ _).
Qed.

Lemma after_fresh o o' : fresh o → after o o' → fresh o'.
Proof. intros Hf (Hh & Hn & _) fd Hfd. rewrite Hh. apply Hf. lia. Qed.

Lemma ServeHTTP_after (r : Request) (o : OS) :
  fresh o →
  after o (backend (Rev1.ServeHTTP lib srv r (start (B:=Dir d) o)).2) ∧
  after o (backend (Rev2.ServeHTTP lib srv r (start (B:=Dir d) o)).2).
Proof.
  intros Hf.
  assert (∀ sc, after o (backend (serveResource lib srv r sc (start (B:=Dir d) o)).2))
    as Hserve.
  { intros sc. destruct (serveResource_settles r sc o Hf) as [-> | ->];
      [done|apply after_bump]. }
  assert (after o (backend (doDelete srv r (start (B:=Dir d) o)).2)) as Hdel.
  { pose proof (doDelete_exact d prefix listDir r o Hf) as H. cbv zeta in H.
    destruct (entryAt d o (url2path srv (Url r))) as [[data mt|mt]|].
    - destruct H as ((hp & _ & ->) & _).
      eapply after_trans; [|apply after_setTree].
      eapply after_trans; apply after_bump.
    - destruct H as (-> & _). eapply after_trans; apply after_bump.
    - destruct H as (-> & _). done. }
  assert (after o (backend (Rev1.doPut srv r (start (B:=Dir d) o)).2)) as Hput1.
  { pose proof (Rev1_doPut_exact d prefix listDir r o Hf) as (-> & _).
    eapply after_trans; [apply after_Mkdir|].
    eapply after_trans; [apply after_probed|apply after_putResult]. }
  assert (after o (backend (Rev2.doPut srv r (start (B:=Dir d) o)).2)) as Hput2.
  { pose proof (Rev2_doPut_exact d prefix listDir r o Hf) as H. cbv zeta in H.
    destruct (isDirEntry _); destruct H as (-> & _); [apply after_probed|].
    eapply after_trans; [apply after_probed|].
    eapply after_trans; [apply after_probed|apply after_putResult]. }
  unfold Rev1.ServeHTTP, Rev2.ServeHTTP, doGet, doHead.
  repeat case_bool_decide; done.
Qed.
End DirServe.

(** X16.  No request leaks a file handle.  On a [Dir] backend, whatever
    the method, the path and the outcome, [ServeHTTP] of either revision
    returns with the table of open files as it found it: every handle
    opened by a probe, for the content or by [Create] has been closed.
    The working directory and the clock are untouched, and descriptors at
    or above the next one are still unused, so this holds again for the
    next request. *)
Theorem ServeHTTP_no_handle_leak (d prefix : gostring) (listDir : bool)
    (lib : Library) (r : Request) (o : OS) :
  let s := dirServer d prefix listDir in
  let settled (e' : Env (Dir d)) :=
    handles (backend e') = handles o ∧ cwd (backend e') = cwd o ∧
    fresh (backend e') in
  fresh o →
  settled (Rev1.ServeHTTP lib s r (start (B:=Dir d) o)).2 ∧
  settled (Rev2.ServeHTTP lib s r (start (B:=Dir d) o)).2.
Proof.
  intros s settled Hf.
  destruct (ServeHTTP_after d prefix listDir lib r o Hf) as (H1 & H2).
  split.
  - pose proof (after_fresh _ _ Hf H1). destruct H1 as (? & _ & ? & _). done.
  - pose proof (after_fresh _ _ Hf H2). destruct H2 as (? & _ & ? & _). done.
Qed.

Lemma ServeHTTP_no_handle_leak_witness :
  let s := dirServer (str "/srv/dav") (str "/dav") false in
  let r := sampleRequest "PUT" "/dav/docs/a.txt" [str "xyz"] in
  let e' := (Rev2.ServeHTTP sampleLib s r
               (start (B:=Dir (str "/srv/dav")) sampleOS)).2 in
  fresh sampleOS ∧
  closes (calls e') = [3; 4; 5] ∧
  handles (backend e') = ∅.
Proof.
  intros s r e'.
  assert (fresh sampleOS) as Hf by (intros fd _; apply lookup_empty).
  destruct (ServeHTTP_no_handle_leak (str "/srv/dav") (str "/dav") false sampleLib
              r sampleOS Hf) as (_ & Hh & _).
  split; [exact Hf|]. split; [vm_compute; reflexivity|exact Hh].
Defined.

#[global] Instance Node_eq_dec : EqDecision Node.
Proof. solve_decision. Defined.

Lemma sanitizePath_within (d p hp : gostring) (o : OS) :
  sanitizePath unix d p = inl hp →
  within (os.resolve o (rootOf d)) (os.resolve o hp).
Proof.
  intros Hsan. destruct (sanitizePath_resolve d p hp Hsan) as (_ & es & _ & Hres).
  rewrite Hres. by exists (rev es).
Qed.

Lemma putResult_changes (d p : gostring) (src : Reader) (o : OS) (k : list gostring) :
  tree (putResult d o p src) !! k ≠ tree o !! k →
  within (os.resolve o (rootOf d)) k.
Proof.
  unfold putResult. destruct (target d o p) as [k'|] eqn:Ht; [|done].
  unfold stored. cbn [tree bump os.setHandles os.setTree]. intros Hk.
  destruct (decide (k = k')) as [->|Hne]; [|by rewrite lookup_insert_ne in Hk].
  destruct (target_key d o p k' Ht) as (hp & Hsan & ->).
  by eapply sanitizePath_within.
Qed.

(** X17.  No request reaches outside the served directory.  When the
    root of a [Dir] backend exists as a directory, [ServeHTTP] of either
    revision changes the tree only at or below the root, whatever the
    method and however the URL path is spelled: every entry elsewhere on
    the host is neither created nor changed nor removed. *)
Theorem ServeHTTP_confined (d prefix : gostring) (listDir : bool)
    (lib : Library) (r : Request) (o : OS) (m : Z) :
  let s := dirServer d prefix listDir in
  let root := os.resolve o (rootOf d) in
  let confined (e' : Env (Dir d)) :=
    ∀ k, tree (backend e') !! k ≠ tree o !! k → within root k in
  fresh o →
  tree o !! root = Some (NDir m) →
  confined (Rev1.ServeHTTP lib s r (start (B:=Dir d) o)).2 ∧
  confined (Rev2.ServeHTTP lib s r (start (B:=Dir d) o)).2.
Proof.
  intros s root confined Hf Hroot.
  set (p := url2path s (Url r)).
  assert (∀ sc, confined (serveResource lib s r sc (start (B:=Dir d) o)).2) as Hserve.
  { intros sc k.
    pose proof (serveResource_settles d prefix listDir lib r sc o Hf) as H.
    cbv zeta in H. fold s in H. change (Fs s) with (Dir d) in *.
    by destruct H as [-> | ->]. }
  assert (confined (doDelete s r (start (B:=Dir d) o)).2) as Hdel.
  { intros k. pose proof (doDelete_exact d prefix listDir r o Hf) as H.
    cbv zeta in H. fold s p in H. change (Fs s) with (Dir d) in *.
    destruct (entryAt d o p) as [[data mt|mt]|].
    - destruct H as ((hp & Hsan & ->) & _). cbn [tree os.setTree]. intros Hk.
      destruct (decide (k = os.resolve o hp)) as [->|Hne];
        [|by rewrite lookup_delete_ne in Hk].
      by eapply sanitizePath_within.
    - by destruct H as (-> & _).
    - by destruct H as (-> & _). }
  assert (confined (Rev2.doPut s r (start (B:=Dir d) o)).2) as Hput2.
  { intros k. pose proof (Rev2_doPut_exact d prefix listDir r o Hf) as H.
    cbv zeta in H. fold s p in H. change (Fs s) with (Dir d) in *.
    destruct (isDirEntry _); destruct H as (-> & _).
    - unfold probed. by case_bool_decide.
    - intros Hk. pose proof (sameStore_probed d o p) as Hs1.
      pose proof (sameStore_probed d (probed d o p) p) as Hs2.
      pose proof (sameStore_trans _ _ _ Hs1 Hs2) as (Ht & Hc & _).
      rewrite <- Ht in Hk. apply putResult_changes in Hk.
      by rewrite (resolve_cwd o _ _ Hc) in Hk. }
  assert (confined (Rev1.doPut s r (start (B:=Dir d) o)).2) as Hput1.
  { intros k. pose proof (Rev1_doPut_exact d prefix listDir r o Hf) as (H & _).
    fold s p in H. change (Fs s) with (Dir d) in *. rewrite H. clear H.
    set (o0 := (Dir_Mkdir d (path.Dir p) o).2). intros Hk.
    destruct (decide (tree o0 !! k = tree o !! k)) as [Hsame|Hdiff].
    - rewrite <- Hsame in Hk.
      pose proof (sameStore_probed d o0 p) as (Ht & Hc & _).
      rewrite <- Ht in Hk. apply putResult_changes in Hk.
      rewrite (resolve_cwd o0 _ _ Hc) in Hk.
      destruct (after_Mkdir d (path.Dir p) o) as (_ & _ & Hc0 & _).
      by rewrite (resolve_cwd o o0 _ Hc0) in Hk.
    - by destruct (Dir_Mkdir_changes d (path.Dir p) o m k Hroot Hdiff). }
  unfold Rev1.ServeHTTP, Rev2.ServeHTTP, doGet, doHead.
  repeat case_bool_decide; split; solve [apply Hserve|assumption|by intros k].
Qed.

Lemma ServeHTTP_confined_witness :
  let s := dirServer (str "/srv/dav") (str "/dav") false in
  let r := sampleRequest "PUT" "/dav/../../etc/passwd" [str "root::0:0"] in
  let e' := (Rev1.ServeHTTP sampleLib s r (start (B:=Dir (str "/srv/dav")) sampleOS)).2 in
  fresh sampleOS ∧
  tree sampleOS !! os.resolve sampleOS (rootOf (str "/srv/dav")) = Some (NDir 0) ∧
  http.status (w e') = StatusCreated ∧
  tree (backend e') !! [str "passwd"; str "etc"; str "dav"; str "srv"]
    ≠ tree sampleOS !! [str "passwd"; str "etc"; str "dav"; str "srv"] ∧
  within [str "dav"; str "srv"] [str "passwd"; str "etc"; str "dav"; str "srv"] ∧
  tree (backend e') !! [str "passwd"; str "etc"] = None.
Proof.
  intros s r e'.
  assert (fresh sampleOS) as Hf by (intros fd _; apply lookup_empty).
  assert (tree sampleOS !! os.resolve sampleOS (rootOf (str "/srv/dav"))
          = Some (NDir 0)) as Hroot by (vm_compute; reflexivity).
  assert (tree (backend e') !! [str "passwd"; str "etc"; str "dav"; str "srv"]
          ≠ tree sampleOS !! [str "passwd"; str "etc"; str "dav"; str "srv"]) as Hk
    by (vm_compute; discriminate).
  destruct (ServeHTTP_confined (str "/srv/dav") (str "/dav") false sampleLib r
              sampleOS 0 Hf Hroot) as (H1 & _).
  split; [exact Hf|]. split; [exact Hroot|]. split; [vm_compute; reflexivity|].
  split; [exact Hk|]. split; [exact (H1 _ Hk)|vm_compute; reflexivity].
Defined.
